(** * calendar-mcp: time-expression resolver and tool dispatcher

    A shallow embedding of [src/index.ts] (the tool-call handler) and of
    [src/utils.ts] ([parseDateTime], [formatDateTime]), with the parts of the
    ECMAScript runtime they rely on: strings, numbers with NaN, and the
    [Date] object.

    Conventions of the model
    - A JavaScript string is a [string] whose characters are the code units
      below 256; case mapping and white space follow ECMAScript on that range.
    - A JavaScript number is [NaN] or an exact integer; this agrees with
      IEEE doubles for integers of magnitude below 2^53, fractions are not
      represented.
    - The host ([Host]) gathers what the program reads from its environment:
      the local time zone (a fixed offset from UTC), the system clock, the
      implementation-defined date parser and locale formatting, the default
      zone name, the validator's message rendering, and the replies of the
      remote calendar service. *)

From Stdlib Require Import ZArith Bool List Lia String Ascii DecimalString.
Import ListNotations.
Open Scope string_scope.
Open Scope Z_scope.

(** ** Strings *)

Module JSString.

Definition code (c : ascii) : N := N_of_ascii c.

(** The regular-expression class [\d]. *)
Definition isDigit (c : ascii) : bool :=
  (48 <=? code c)%N && (code c <=? 57)%N.

(** The class [\s], which is also what [trim] strips: TAB, LF, VT, FF, CR,
    SPACE and NO-BREAK SPACE. *)
Definition isWhiteSpace (c : ascii) : bool :=
  ((9 <=? code c)%N && (code c <=? 13)%N)
  || (code c =? 32)%N || (code c =? 160)%N.

Definition lowerChar (c : ascii) : ascii :=
  let n := code c in
  if ((65 <=? n)%N && (n <=? 90)%N)
     || ((192 <=? n)%N && (n <=? 222)%N && negb (n =? 215)%N)
  then ascii_of_N (n + 32) else c.

Fixpoint toLowerCase (s : string) : string :=
  match s with
  | EmptyString => EmptyString
  | String c r => String (lowerChar c) (toLowerCase r)
  end.

Fixpoint trimStart (s : string) : string :=
  match s with
  | EmptyString => EmptyString
  | String c r => if isWhiteSpace c then trimStart r else s
  end.

Fixpoint trimEnd (s : string) : string :=
  match s with
  | EmptyString => EmptyString
  | String c r =>
      let r' := trimEnd r in
      if isWhiteSpace c && (r' =? EmptyString)%string then EmptyString
      else String c r'
  end.

Definition trim (s : string) : string := trimEnd (trimStart s).

(** [hay.includes(needle)] *)
Fixpoint includes (hay needle : string) : bool :=
  prefix needle hay
  || match hay with
     | EmptyString => false
     | String _ r => includes r needle
     end.

(** [s.replace(pat, by)] with a string pattern: the first occurrence only. *)
Fixpoint dropN (n : nat) (s : string) : string :=
  match n, s with
  | O, _ => s
  | S k, String _ r => dropN k r
  | S _, EmptyString => EmptyString
  end.

Fixpoint replace (s pat by_ : string) : string :=
  if prefix pat s then by_ ++ dropN (String.length pat) s
  else match s with
       | EmptyString => EmptyString
       | String c r => String c (replace r pat by_)
       end.

(** A string is truthy when it is not empty. *)
Definition truthy (s : string) : bool := negb (s =? EmptyString)%string.

Fixpoint join (sep : string) (l : list string) : string :=
  match l with
  | [] => EmptyString
  | [x] => x
  | x :: r => x ++ sep ++ join sep r
  end.

Definition digitVal (c : ascii) : Z := Z.of_N (code c) - 48.

(** [parseInt(s, 10)] on a string of decimal digits. *)
Definition parseInt (s : string) : Z :=
  fold_left (fun acc c => 10 * acc + digitVal c) (list_ascii_of_string s) 0.

(** Template-literal rendering of an integer. *)
Definition ofZ (z : Z) : string := NilZero.string_of_int (Z.to_int z).

(** [String(n).padStart(w, "0")] for a non-negative integer. *)
Definition padZ (w : nat) (z : Z) : string :=
  let s := NilZero.string_of_uint (N.to_uint (Z.to_N (Z.abs z))) in
  let fix zeros (k : nat) : string :=
    match k with O => EmptyString | S k' => String "0" (zeros k') end in
  zeros (w - String.length s)%nat ++ s.

End JSString.

(** ** Numbers *)

Inductive Number : Type :=
| NaN
| Num (z : Z).

Module Num.

Definition add (a b : Number) : Number :=
  match a, b with
  | Num x, Num y => Num (x + y)
  | _, _ => NaN
  end.

Definition sub (a b : Number) : Number :=
  match a, b with
  | Num x, Num y => Num (x - y)
  | _, _ => NaN
  end.

(** [a <= b]; any comparison with NaN is false. *)
Definition leb (a b : Number) : bool :=
  match a, b with
  | Num x, Num y => x <=? y
  | _, _ => false
  end.

Definition isNaN (a : Number) : bool :=
  match a with NaN => true | Num _ => false end.

End Num.

(** ** Time values (ECMA-262, "Time Values and Time Range") *)

Module TimeValue.

Definition msPerSecond : Z := 1000.
Definition msPerMinute : Z := 60000.
Definition msPerHour : Z := 3600000.
Definition msPerDay : Z := 86400000.
Definition maxTime : Z := 8640000000000000.

Definition Day (t : Z) : Z := t / msPerDay.
Definition TimeWithinDay (t : Z) : Z := t mod msPerDay.

Definition DaysInYear (y : Z) : Z :=
  if negb (y mod 4 =? 0) then 365
  else if negb (y mod 100 =? 0) then 366
  else if negb (y mod 400 =? 0) then 365
  else 366.

Definition DayFromYear (y : Z) : Z :=
  365 * (y - 1970) + (y - 1969) / 4 - (y - 1901) / 100 + (y - 1601) / 400.

(** The year containing day [d]: an estimate from the mean year length,
    corrected by at most one year (see [YearFromDay_spec]). *)
Definition YearFromDay (d : Z) : Z :=
  let y := 1970 + (400 * d) / 146097 in
  if d <? DayFromYear y then y - 1
  else if DayFromYear (y + 1) <=? d then y + 1
  else y.

Definition YearFromTime (t : Z) : Z := YearFromDay (Day t).

Definition InLeapYear (t : Z) : Z :=
  if DaysInYear (YearFromTime t) =? 366 then 1 else 0.

Definition DayWithinYear (t : Z) : Z := Day t - DayFromYear (YearFromTime t).

(** Day number within the year of the first day of month [m] (0 = January). *)
Definition monthStart (leap m : Z) : Z :=
  match m with
  | 0 => 0
  | 1 => 31
  | 2 => 59 + leap
  | 3 => 90 + leap
  | 4 => 120 + leap
  | 5 => 151 + leap
  | 6 => 181 + leap
  | 7 => 212 + leap
  | 8 => 243 + leap
  | 9 => 273 + leap
  | 10 => 304 + leap
  | 11 => 334 + leap
  | _ => 365 + leap
  end.

Definition MonthFromTime (t : Z) : Z :=
  let d := DayWithinYear t in
  let l := InLeapYear t in
  if d <? 31 then 0
  else if d <? 59 + l then 1
  else if d <? 90 + l then 2
  else if d <? 120 + l then 3
  else if d <? 151 + l then 4
  else if d <? 181 + l then 5
  else if d <? 212 + l then 6
  else if d <? 243 + l then 7
  else if d <? 273 + l then 8
  else if d <? 304 + l then 9
  else if d <? 334 + l then 10
  else 11.

Definition DateFromTime (t : Z) : Z :=
  DayWithinYear t - monthStart (InLeapYear t) (MonthFromTime t) + 1.

Definition WeekDay (t : Z) : Z := (Day t + 4) mod 7.

Definition HourFromTime (t : Z) : Z := (t / msPerHour) mod 24.
Definition MinFromTime (t : Z) : Z := (t / msPerMinute) mod 60.
Definition SecFromTime (t : Z) : Z := (t / msPerSecond) mod 60.
Definition msFromTime (t : Z) : Z := t mod msPerSecond.

Definition MakeTime (hour min sec ms : Z) : Z :=
  hour * msPerHour + min * msPerMinute + sec * msPerSecond + ms.

Definition MakeDay (year month date : Z) : Z :=
  let ym := year + month / 12 in
  let mn := month mod 12 in
  let leap := if DaysInYear ym =? 366 then 1 else 0 in
  DayFromYear ym + monthStart leap mn + date - 1.

Definition MakeDate (day time : Z) : Z := day * msPerDay + time.

Definition TimeClip (t : Z) : Number :=
  if maxTime <? Z.abs t then NaN else Num t.

End TimeValue.

(** ** Regular expressions of [utils.ts]

    Each pattern is written out as the matcher the regular-expression engine
    runs for it.  The unanchored ones are tried at every start position, from
    the left ([search]); within one attempt every quantifier is greedy, and
    in these patterns giving back characters can never turn a failed attempt
    into a match (a shorter run of digits or blanks is followed by a digit,
    respectively a blank, where the pattern wants something else), so no
    backtracking is modelled.  The [i] flag is kept: literals are compared
    after lower-casing the subject character. *)

Module RegExp.
Import JSString.

(** Match the literal [p] (lower-case) at the start of [s], ignoring case;
    the result is the rest of [s]. *)
Fixpoint lit (p s : string) : option string :=
  match p with
  | EmptyString => Some s
  | String pc pr =>
      match s with
      | EmptyString => None
      | String c r => if Ascii.eqb (lowerChar c) pc then lit pr r else None
      end
  end.

(** The same, case sensitive. *)
Fixpoint litExact (p s : string) : option string :=
  match p with
  | EmptyString => Some s
  | String pc pr =>
      match s with
      | EmptyString => None
      | String c r => if Ascii.eqb c pc then litExact pr r else None
      end
  end.

(** [\d*]: the longest run of digits and the rest. *)
Fixpoint digits (s : string) : string * string :=
  match s with
  | EmptyString => (EmptyString, EmptyString)
  | String c r =>
      if isDigit c then let (d, r') := digits r in (String c d, r')
      else (EmptyString, s)
  end.

(** [(\d+)] *)
Definition digits1 (s : string) : option (string * string) :=
  let (d, r) := digits s in
  if (d =? EmptyString)%string then None else Some (d, r).

(** [\s*] *)
Fixpoint spaces (s : string) : string :=
  match s with
  | EmptyString => EmptyString
  | String c r => if isWhiteSpace c then spaces r else s
  end.

(** [\s+] *)
Definition spaces1 (s : string) : option string :=
  match s with
  | EmptyString => None
  | String c r => if isWhiteSpace c then Some (spaces r) else None
  end.

(** [\d{n}]: exactly [n] digits, with their value. *)
Fixpoint digitsN (n : nat) (acc : Z) (s : string) : option (Z * string) :=
  match n with
  | O => Some (acc, s)
  | S k =>
      match s with
      | EmptyString => None
      | String c r =>
          if isDigit c then digitsN k (10 * acc + digitVal c) r else None
      end
  end.

(** An alternation of literals [(a|b|...)]: the first alternative that
    matches, with the rest of the subject. *)
Fixpoint alt (ps : list string) (s : string) : option (string * string) :=
  match ps with
  | [] => None
  | p :: ps' =>
      match lit p s with
      | Some r => Some (p, r)
      | None => alt ps' s
      end
  end.

(** [String.prototype.match] with an unanchored, non-global pattern: the
    attempt [m] at the leftmost position where it succeeds. *)
Fixpoint search {A : Type} (m : string -> option A) (s : string) : option A :=
  match m s with
  | Some a => Some a
  | None =>
      match s with
      | EmptyString => None
      | String _ r => search m r
      end
  end.

Definition atEnd (s : string) : bool := (s =? EmptyString)%string.

(** [ISO_DATE_REGEX = /^\d{4}-\d{2}-\d{2}(T\d{2}:\d{2}(:\d{2})?)?$/] *)
Definition ISO_DATE_REGEX_test (s : string) : bool :=
  match digitsN 4 0 s with
  | None => false
  | Some (_, s) =>
  match litExact "-" s with
  | None => false
  | Some s =>
  match digitsN 2 0 s with
  | None => false
  | Some (_, s) =>
  match litExact "-" s with
  | None => false
  | Some s =>
  match digitsN 2 0 s with
  | None => false
  | Some (_, s) =>
      atEnd s
      || match litExact "T" s with
         | None => false
         | Some s =>
         match digitsN 2 0 s with
         | None => false
         | Some (_, s) =>
         match litExact ":" s with
         | None => false
         | Some s =>
         match digitsN 2 0 s with
         | None => false
         | Some (_, s) =>
             atEnd s
             || match litExact ":" s with
                | None => false
                | Some s =>
                    match digitsN 2 0 s with
                    | None => false
                    | Some (_, s) => atEnd s
                    end
                end
         end end end end
  end end end end end.

(** [/(\d+)\s*hours?\s*later/i]; the result is capture group 1. *)
Definition later_at (unit : string) (s : string) : option string :=
  match digits1 s with
  | None => None
  | Some (n, s) =>
      match lit unit (spaces s) with
      | None => None
      | Some s =>
          let s := match lit "s" s with Some s' => s' | None => s end in
          match lit "later" (spaces s) with
          | None => None
          | Some _ => Some n
          end
      end
  end.

Definition hoursLaterMatch (s : string) : option string :=
  search (later_at "hour") s.

(** [/(\d+)\s*days?\s*later/i] *)
Definition daysLaterMatch (s : string) : option string :=
  search (later_at "day") s.

Definition weekdayNames : list string :=
  ["monday"; "tuesday"; "wednesday"; "thursday"; "friday"; "saturday";
   "sunday"].

(** [/next\s*(monday|tuesday|wednesday|thursday|friday|saturday|sunday)/i];
    the result is capture group 1 as matched, lower-cased by the caller. *)
Definition dayOfWeek_at (s : string) : option string :=
  match lit "next" s with
  | None => None
  | Some s =>
      match alt weekdayNames (spaces s) with
      | None => None
      | Some (d, _) => Some d
      end
  end.

Definition dayOfWeekMatch (s : string) : option string :=
  search dayOfWeek_at s.

(** Capture groups 1 to 4 of
    [/(today|tomorrow|monday|...|sunday)\s+at\s+(\d+)(?::(\d+))?\s*
      (am|pm)?/i]. *)
Record DateTimeGroups : Type := {
  datePart : string;
  hourPart : string;
  minutePart : option string;
  meridiem : option string
}.

Definition dateTime_at (s : string) : option DateTimeGroups :=
  match alt ("today" :: "tomorrow" :: weekdayNames) s with
  | None => None
  | Some (d, s) =>
  match spaces1 s with
  | None => None
  | Some s =>
  match lit "at" s with
  | None => None
  | Some s =>
  match spaces1 s with
  | None => None
  | Some s =>
  match digits1 s with
  | None => None
  | Some (h, s) =>
      let (m, s) :=
        match litExact ":" s with
        | None => (None, s)
        | Some s' =>
            match digits1 s' with
            | None => (None, s)
            | Some (m, s'') => (Some m, s'')
            end
        end in
      let ap :=
        match alt ["am"; "pm"] (spaces s) with
        | None => None
        | Some (a, _) => Some a
        end in
      Some {| datePart := d; hourPart := h; minutePart := m; meridiem := ap |}
  end end end end end.

Definition dateTimeMatch (s : string) : option DateTimeGroups :=
  search dateTime_at s.

(** [Array.prototype.indexOf] on a list of strings; -1 when absent. *)
Fixpoint indexOf (l : list string) (x : string) : Z :=
  match l with
  | [] => -1
  | y :: r =>
      if (y =? x)%string then 0
      else let i := indexOf r x in if i <? 0 then -1 else i + 1
  end.

End RegExp.

(** ** Values exchanged with the environment *)

(** A [Date] object: its time value, milliseconds since the epoch in UTC, or
    NaN for an invalid date. *)
Record Date : Type := mkDate { getTime : Number }.

Definition InvalidDate : Date := mkDate NaN.

(** A thrown value.  Every [throw] reached by this program throws an [Error]
    object, of which only [message] is ever read. *)
Record Error : Type := mkError { message : string }.

Inductive Completion (A : Type) : Type :=
| Normal (a : A)
| Throw (e : Error).
Arguments Normal {A} a.
Arguments Throw {A} e.

(** The calendar service's resources, as [googleapis] types them: every
    field may be missing. *)
Module GCal.

Record EventDateTime : Type := {
  date : option string;
  dateTime : option string;
  timeZone : option string
}.

Record EventAttendee : Type := {
  email : option string;
  responseStatus : option string
}.

Record ReminderOverride : Type := {
  method : string;
  minutes : Z
}.

Record Reminders : Type := {
  useDefault : option bool;
  overrides : option (list ReminderOverride)
}.

Record Event : Type := {
  id : option string;
  summary : option string;
  description : option string;
  location : option string;
  start : option EventDateTime;
  end_ : option EventDateTime;
  attendees : option (list EventAttendee);
  reminders : option Reminders;
  htmlLink : option string;
  created : option string
}.

(** The object literal [{}] seen as an event resource. *)
Definition emptyEvent : Event :=
  {| id := None; summary := None; description := None; location := None;
     start := None; end_ := None; attendees := None; reminders := None;
     htmlLink := None; created := None |}.

Record CalendarListEntry : Type := {
  cal_id : option string;
  cal_summary : option string;
  accessRole : option string;
  primary : option bool
}.

(** The parameters of [calendar.events.list]. *)
Record ListParams : Type := {
  calendarId : string;
  timeMin : string;
  timeMax : string;
  maxResults : Z;
  orderBy : option string;
  singleEvents : bool
}.

(** A request sent to the service. *)
Inductive Call : Type :=
| EventsInsert (calendarId : string) (requestBody : Event)
| EventsGet (calendarId eventId : string)
| EventsPatch (calendarId eventId : string) (requestBody : Event)
| EventsDelete (calendarId eventId : string)
| EventsList (params : ListParams)
| CalendarListList.

(** What a patch request does to a stored event: a field present in the
    request body replaces the stored one, a field absent from it is kept. *)
Definition orElse {A : Type} (new old : option A) : option A :=
  match new with Some _ => new | None => old end.

Definition applyPatch (body stored : Event) : Event :=
  {| id := orElse (id body) (id stored);
     summary := orElse (summary body) (summary stored);
     description := orElse (description body) (description stored);
     location := orElse (location body) (location stored);
     start := orElse (start body) (start stored);
     end_ := orElse (end_ body) (end_ stored);
     attendees := orElse (attendees body) (attendees stored);
     reminders := orElse (reminders body) (reminders stored);
     htmlLink := orElse (htmlLink body) (htmlLink stored);
     created := orElse (created body) (created stored) |}.

End GCal.

(** Tool-call arguments as they arrive: JSON. *)
#[local] Unset Elimination Schemes.
Inductive json : Type :=
| JNull
| JBool (b : bool)
| JNum (n : Z)
| JStr (s : string)
| JArr (l : list json)
| JObj (fields : list (string * json)).
#[local] Set Elimination Schemes.

(** One issue reported by the schema validator. *)
Record ZodIssue : Type := {
  path : list string;
  expected : string
}.

(** The program's state: how many times the clock has been read, and the
    requests sent to the calendar service so far (oldest first). *)
Record World : Type := {
  reads : nat;
  calls : list GCal.Call
}.

Definition initialWorld : World := {| reads := 0; calls := [] |}.

(** What the environment decides. *)
Record Host : Type := {
  (** offset of local time from UTC, in milliseconds *)
  LocalTZA : Z;
  (** the system clock: the time value returned by the [n]-th reading *)
  clock : nat -> Z;
  (** [Intl.DateTimeFormat().resolvedOptions().timeZone] *)
  resolvedTimeZone : string;
  (** [new Date(s)] on a string outside the date-time string format *)
  legacyDateParse : string -> Number;
  (** [toLocaleString] / [toLocaleDateString] with the long options used by
      [formatDateTime], and with no options *)
  toLocaleStringLong : Date -> string;
  toLocaleDateStringLong : Date -> string;
  toLocaleString : Date -> string;
  toLocaleDateString : Date -> string;
  (** the message of a [ZodError] *)
  zodMessage : list ZodIssue -> string;
  (** the service's replies; they may depend on the earlier requests *)
  events_insert :
    list GCal.Call -> string -> GCal.Event -> Completion GCal.Event;
  events_get :
    list GCal.Call -> string -> string -> Completion GCal.Event;
  events_patch :
    list GCal.Call -> string -> string -> GCal.Event ->
    Completion GCal.Event;
  events_delete : list GCal.Call -> string -> string -> Completion unit;
  events_list :
    list GCal.Call -> GCal.ListParams ->
    Completion (option (list GCal.Event));
  calendarList_list :
    list GCal.Call -> Completion (option (list GCal.CalendarListEntry))
}.

(** ** Computations: state and exceptions *)

Definition M (A : Type) : Type := World -> Completion A * World.

Definition ret {A : Type} (a : A) : M A := fun w => (Normal a, w).

Definition throw {A : Type} (msg : string) : M A :=
  fun w => (Throw (mkError msg), w).

Definition bind {A B : Type} (m : M A) (k : A -> M B) : M B :=
  fun w =>
    match m w with
    | (Normal a, w') => k a w'
    | (Throw e, w') => (Throw e, w')
    end.

(** [try { body } catch (error) { handler(error) }] *)
Definition tryCatch {A : Type} (body : M A) (handler : Error -> M A) : M A :=
  fun w =>
    match body w with
    | (Normal a, w') => (Normal a, w')
    | (Throw e, w') => handler e w'
    end.

Declare Scope js_scope.
Delimit Scope js_scope with js.
Notation "x <- m ;; k" := (bind m (fun x => k))
  (at level 61, m at next level, right associativity) : js_scope.
Notation "m ;;; k" := (bind m (fun _ => k))
  (at level 61, right associativity) : js_scope.
Open Scope js_scope.

(** ** The date-time string format

    [YYYY-MM-DD], optionally followed by [THH:mm], [:ss], [.sss] and a zone
    ([Z] or [+HH:mm] / [-HH:mm]).  A string of this shape is read by the
    engine's own reader; out-of-bounds elements make the date invalid.  The
    engine (V8) accepts days up to 31 in every month and the time 24:00:00. *)

Module DateString.
Import JSString RegExp.

(** The zone designator: none (local time when there is a time part), or a
    signed offset from UTC in hours and minutes. *)
Inductive Zone : Type :=
| LocalZone
| Offset (sign hours minutes : Z).

Record Fields : Type := {
  year : Z;
  month : Z;
  day : Z;
  hour : Z;
  minute : Z;
  second : Z;
  millisecond : Z;
  zone : Zone
}.

Definition utcZone : Zone := Offset 1 0 0.

Definition signedOffset (sign : Z) (s : string) : option Zone :=
  match digitsN 2 0 s with
  | None => None
  | Some (h, s) =>
  match litExact ":" s with
  | None => None
  | Some s =>
  match digitsN 2 0 s with
  | None => None
  | Some (m, s) => if atEnd s then Some (Offset sign h m) else None
  end end end.

Definition parseZone (s : string) : option Zone :=
  if atEnd s then Some LocalZone
  else
    match litExact "Z" s with
    | Some s' => if atEnd s' then Some utcZone else None
    | None =>
        match litExact "+" s with
        | Some s' => signedOffset 1 s'
        | None =>
            match litExact "-" s with
            | Some s' => signedOffset (-1) s'
            | None => None
            end
        end
    end.

Definition parse (s : string) : option Fields :=
  match digitsN 4 0 s with
  | None => None
  | Some (y, s) =>
  match litExact "-" s with
  | None => None
  | Some s =>
  match digitsN 2 0 s with
  | None => None
  | Some (mo, s) =>
  match litExact "-" s with
  | None => None
  | Some s =>
  match digitsN 2 0 s with
  | None => None
  | Some (d, s) =>
      let mk h mi sec ms off :=
        {| year := y; month := mo; day := d; hour := h; minute := mi;
           second := sec; millisecond := ms; zone := off |} in
      if atEnd s then Some (mk 0 0 0 0 utcZone)
      else
        match litExact "T" s with
        | None => None
        | Some s =>
        match digitsN 2 0 s with
        | None => None
        | Some (h, s) =>
        match litExact ":" s with
        | None => None
        | Some s =>
        match digitsN 2 0 s with
        | None => None
        | Some (mi, s) =>
            match litExact ":" s with
            | None =>
                match parseZone s with
                | Some off => Some (mk h mi 0 0 off)
                | None => None
                end
            | Some s =>
                match digitsN 2 0 s with
                | None => None
                | Some (sec, s) =>
                    match litExact "." s with
                    | None =>
                        match parseZone s with
                        | Some off => Some (mk h mi sec 0 off)
                        | None => None
                        end
                    | Some s =>
                        match digitsN 3 0 s with
                        | None => None
                        | Some (ms, s) =>
                            match parseZone s with
                            | Some off => Some (mk h mi sec ms off)
                            | None => None
                            end
                        end
                    end
                end
            end
        end end end end
  end end end end end.

Definition between (lo hi x : Z) : bool := (lo <=? x) && (x <=? hi).

(** The elements are within bounds. *)
Definition inBounds (f : Fields) : bool :=
  between 1 12 (month f) && between 1 31 (day f)
  && ((between 0 23 (hour f) && between 0 59 (minute f)
       && between 0 59 (second f))
      || ((hour f =? 24) && (minute f =? 0) && (second f =? 0)
          && (millisecond f =? 0)))
  && match zone f with
     | LocalZone => true
     | Offset _ h m => between 0 23 h && between 0 59 m
     end.

End DateString.

(** ** Schemas ([zod])

    [z.object] reads the declared keys of the argument object and ignores
    the others; every issue found is reported, in the order of the schema. *)

Definition V (A : Type) : Type := (list ZodIssue + A)%type.

Definition issue {A : Type} (p : list string) (what : string) : V A :=
  inl [ {| path := p; expected := what |} ].

Definition vmap {A B : Type} (f : A -> B) (a : V A) : V B :=
  match a with inl i => inl i | inr x => inr (f x) end.

Definition both {A B : Type} (a : V A) (b : V B) : V (A * B) :=
  match a, b with
  | inr x, inr y => inr (x, y)
  | inl i, inl j => inl (i ++ j)%list
  | inl i, inr _ => inl i
  | inr _, inl j => inl j
  end.

Definition Schema (A : Type) : Type := list string -> option json -> V A.

Definition zString : Schema string :=
  fun p v => match v with Some (JStr s) => inr s | _ => issue p "string" end.

Definition zNumber : Schema Z :=
  fun p v => match v with Some (JNum n) => inr n | _ => issue p "number" end.

Definition zBoolean : Schema bool :=
  fun p v => match v with Some (JBool b) => inr b | _ => issue p "boolean" end.

Definition zEnum (options : list string) : Schema string :=
  fun p v =>
    match v with
    | Some (JStr s) =>
        if existsb (String.eqb s) options then inr s else issue p "enum"
    | _ => issue p "enum"
    end.

Definition optional {A : Type} (s : Schema A) : Schema (option A) :=
  fun p v => match v with None => inr None | Some _ => vmap Some (s p v) end.

(** [s.optional().default(d)] *)
Definition optionalDefault {A : Type} (s : Schema A) (d : A) : Schema A :=
  fun p v => match v with None => inr d | Some _ => s p v end.

Fixpoint elements {A : Type} (s : Schema A) (p : list string) (i : Z)
                  (l : list json) : V (list A) :=
  match l with
  | [] => inr []
  | x :: r =>
      vmap (fun xr => fst xr :: snd xr)
        (both (s (p ++ [JSString.ofZ i])%list (Some x))
              (elements s p (i + 1) r))
  end.

Definition zArray {A : Type} (s : Schema A) : Schema (list A) :=
  fun p v =>
    match v with
    | Some (JArr l) => elements s p 0 l
    | _ => issue p "array"
    end.

Fixpoint property (fields : list (string * json)) (k : string) : option json :=
  match fields with
  | [] => None
  | (k', v) :: r => if (k' =? k)%string then Some v else property r k
  end.

(** A key of an object schema, read with schema [s]. *)
Definition key {A : Type} (fields : list (string * json)) (p : list string)
                (k : string) (s : Schema A) : V A :=
  s (p ++ [k])%list (property fields k).

Definition zObject {A : Type}
    (shape : list (string * json) -> list string -> V A) : Schema A :=
  fun p v =>
    match v with
    | Some (JObj fields) => shape fields p
    | _ => issue p "object"
    end.

Definition ReminderOverrideSchema : Schema GCal.ReminderOverride :=
  zObject (fun o p =>
    vmap (fun x => {| GCal.method := fst x; GCal.minutes := snd x |})
      (both (key o p "method" (zEnum ["email"; "popup"]))
            (key o p "minutes" zNumber))).

Definition RemindersSchema : Schema GCal.Reminders :=
  zObject (fun o p =>
    vmap (fun x => {| GCal.useDefault := fst x; GCal.overrides := snd x |})
      (both (key o p "useDefault" (optional zBoolean))
            (key o p "overrides" (optional (zArray ReminderOverrideSchema))))).

Module CreateEvent.
Record Args : Type := {
  summary : string;
  description : option string;
  location : option string;
  start : string;
  end_ : string;
  attendees : option (list string);
  calendarId : string;
  reminders : option GCal.Reminders
}.
End CreateEvent.

Definition CreateEventSchema : Schema CreateEvent.Args :=
  zObject (fun o p =>
    vmap (fun x =>
            match x with
            | (a, (b, (c, (d, (e, (f, (g, h))))))) =>
                {| CreateEvent.summary := a; CreateEvent.description := b;
                   CreateEvent.location := c; CreateEvent.start := d;
                   CreateEvent.end_ := e; CreateEvent.attendees := f;
                   CreateEvent.calendarId := g; CreateEvent.reminders := h |}
            end)
      (both (key o p "summary" zString)
      (both (key o p "description" (optional zString))
      (both (key o p "location" (optional zString))
      (both (key o p "start" zString)
      (both (key o p "end" zString)
      (both (key o p "attendees" (optional (zArray zString)))
      (both (key o p "calendarId" (optionalDefault zString "primary"))
            (key o p "reminders" (optional RemindersSchema)))))))))).

Module EventRef.
Record Args : Type := {
  eventId : string;
  calendarId : string
}.
End EventRef.

Definition EventRefSchema : Schema EventRef.Args :=
  zObject (fun o p =>
    vmap (fun x => {| EventRef.eventId := fst x;
                      EventRef.calendarId := snd x |})
      (both (key o p "eventId" zString)
            (key o p "calendarId" (optionalDefault zString "primary")))).

Definition GetEventSchema : Schema EventRef.Args := EventRefSchema.
Definition DeleteEventSchema : Schema EventRef.Args := EventRefSchema.

Module UpdateEvent.
Record Args : Type := {
  eventId : string;
  calendarId : string;
  summary : option string;
  description : option string;
  location : option string;
  start : option string;
  end_ : option string;
  attendees : option (list string)
}.
End UpdateEvent.

Definition UpdateEventSchema : Schema UpdateEvent.Args :=
  zObject (fun o p =>
    vmap (fun x =>
            match x with
            | (a, (b, (c, (d, (e, (f, (g, h))))))) =>
                {| UpdateEvent.eventId := a; UpdateEvent.calendarId := b;
                   UpdateEvent.summary := c; UpdateEvent.description := d;
                   UpdateEvent.location := e; UpdateEvent.start := f;
                   UpdateEvent.end_ := g; UpdateEvent.attendees := h |}
            end)
      (both (key o p "eventId" zString)
      (both (key o p "calendarId" (optionalDefault zString "primary"))
      (both (key o p "summary" (optional zString))
      (both (key o p "description" (optional zString))
      (both (key o p "location" (optional zString))
      (both (key o p "start" (optional zString))
      (both (key o p "end" (optional zString))
            (key o p "attendees" (optional (zArray zString))))))))))).

Module ListEvents.
Record Args : Type := {
  calendarId : string;
  timeMin : option string;
  timeMax : option string;
  maxResults : Z;
  orderBy : string
}.
End ListEvents.

Definition ListEventsSchema : Schema ListEvents.Args :=
  zObject (fun o p =>
    vmap (fun x =>
            match x with
            | (a, (b, (c, (d, e)))) =>
                {| ListEvents.calendarId := a; ListEvents.timeMin := b;
                   ListEvents.timeMax := c; ListEvents.maxResults := d;
                   ListEvents.orderBy := e |}
            end)
      (both (key o p "calendarId" (optionalDefault zString "primary"))
      (both (key o p "timeMin" (optional zString))
      (both (key o p "timeMax" (optional zString))
      (both (key o p "maxResults" (optionalDefault zNumber 10))
            (key o p "orderBy"
               (optionalDefault (zEnum ["startTime"; "updated"])
                  "startTime"))))))).

Module SearchEvents.
Record Args : Type := {
  query : string;
  calendarId : string;
  timeMin : option string;
  timeMax : option string;
  maxResults : Z
}.
End SearchEvents.

Definition SearchEventsSchema : Schema SearchEvents.Args :=
  zObject (fun o p =>
    vmap (fun x =>
            match x with
            | (a, (b, (c, (d, e)))) =>
                {| SearchEvents.query := a; SearchEvents.calendarId := b;
                   SearchEvents.timeMin := c; SearchEvents.timeMax := d;
                   SearchEvents.maxResults := e |}
            end)
      (both (key o p "query" zString)
      (both (key o p "calendarId" (optionalDefault zString "primary"))
      (both (key o p "timeMin" (optional zString))
      (both (key o p "timeMax" (optional zString))
            (key o p "maxResults" (optionalDefault zNumber 10))))))).

(** ** The program *)

Section Runtime.

Context (host : Host).

Import JSString TimeValue RegExp.

(** *** The [Date] object *)

Definition LocalTime (t : Z) : Z := t + LocalTZA host.
Definition UTC (t : Z) : Z := t - LocalTZA host.

(** [new Date()]: one reading of the clock. *)
Definition Date_now : M Date :=
  fun w =>
    (Normal (mkDate (Num (clock host (reads w)))),
     {| reads := S (reads w); calls := calls w |}).

(** [new Date(d)] for a [Date] object [d]: a copy. *)
Definition Date_copy (d : Date) : Date := mkDate (getTime d).

Definition isoValue (f : DateString.Fields) : Number :=
  if DateString.inBounds f then
    let day := MakeDay (DateString.year f) (DateString.month f - 1)
                 (DateString.day f) in
    let time := MakeTime (DateString.hour f) (DateString.minute f)
                  (DateString.second f) (DateString.millisecond f) in
    let date := MakeDate day time in
    match DateString.zone f with
    | DateString.LocalZone => TimeClip (UTC date)
    | DateString.Offset sign h m =>
        TimeClip (date - sign * (h * msPerHour + m * msPerMinute))
    end
  else NaN.

(** [new Date(s)] for a string [s]. *)
Definition Date_ofString (s : string) : Date :=
  match DateString.parse s with
  | Some f => mkDate (isoValue f)
  | None => mkDate (legacyDateParse host s)
  end.

Definition localField (f : Z -> Z) (d : Date) : Number :=
  match getTime d with
  | NaN => NaN
  | Num t => Num (f (LocalTime t))
  end.

Definition getDate : Date -> Number := localField DateFromTime.
Definition getDay : Date -> Number := localField WeekDay.
Definition getHours : Date -> Number := localField HourFromTime.
Definition getMinutes : Date -> Number := localField MinFromTime.
Definition getSeconds : Date -> Number := localField SecFromTime.
Definition getMilliseconds : Date -> Number := localField msFromTime.

(** [d.setDate(dt)]; the model returns the updated object. *)
Definition setDate (d : Date) (dt : Number) : Date :=
  match getTime d, dt with
  | Num t, Num dt =>
      let lt := LocalTime t in
      let newDate :=
        MakeDate (MakeDay (YearFromTime lt) (MonthFromTime lt) dt)
                 (TimeWithinDay lt) in
      mkDate (TimeClip (UTC newDate))
  | _, _ => InvalidDate
  end.

(** [d.setHours(hour [, min [, sec [, ms]]])]: an omitted argument keeps the
    object's own field. *)
Definition setHours (d : Date) (hour : Number) (min sec ms : option Number)
  : Date :=
  match getTime d with
  | NaN => InvalidDate
  | Num t =>
      let lt := LocalTime t in
      let arg (given : option Number) (own : Z) : Number :=
        match given with Some n => n | None => Num own end in
      match hour, arg min (MinFromTime lt), arg sec (SecFromTime lt),
            arg ms (msFromTime lt) with
      | Num h, Num m, Num s, Num milli =>
          mkDate (TimeClip (UTC (MakeDate (Day lt) (MakeTime h m s milli))))
      | _, _, _, _ => InvalidDate
      end
  end.

(** [d.toISOString()] *)
Definition isoString (t : Z) : string :=
  let y := YearFromTime t in
  let year :=
    if (0 <=? y) && (y <=? 9999) then padZ 4 y
    else (if y <? 0 then "-" else "+") ++ padZ 6 y in
  year ++ "-" ++ padZ 2 (MonthFromTime t + 1) ++ "-" ++ padZ 2 (DateFromTime t)
  ++ "T" ++ padZ 2 (HourFromTime t) ++ ":" ++ padZ 2 (MinFromTime t)
  ++ ":" ++ padZ 2 (SecFromTime t) ++ "." ++ padZ 3 (msFromTime t) ++ "Z".

Definition toISOString (d : Date) : M string :=
  match getTime d with
  | NaN => throw "Invalid time value"
  | Num t => ret (isoString t)
  end.

(** *** [utils.ts] *)

Definition dayNames : list string :=
  ["sunday"; "monday"; "tuesday"; "wednesday"; "thursday"; "friday";
   "saturday"].

(** [let daysToAdd = dayOfWeek - currentDay;
     if (daysToAdd <= 0) daysToAdd += 7;] *)
Definition daysToAdd (dayOfWeek : Z) (currentDay : Number) : Number :=
  let daysToAdd := Num.sub (Num dayOfWeek) currentDay in
  if Num.leb daysToAdd (Num 0) then Num.add daysToAdd (Num 7) else daysToAdd.

(** The hour of the compound rule, after the two adjustments
    [if (isPM && hour < 12) hour += 12; if (!isPM && hour === 12) hour = 0;]. *)
Definition adjustHour (isPM : bool) (hour : Z) : Z :=
  let hour := if isPM && (hour <? 12) then hour + 12 else hour in
  if negb isPM && (hour =? 12) then 0 else hour.

Definition parseDateTime (dateTimeString : string)
                         (referenceDate : option Date) : M Date :=
  if ISO_DATE_REGEX_test dateTimeString then
    ret (Date_ofString dateTimeString)
  else
    reference <- match referenceDate with
                 | Some d => ret d
                 | None => Date_now
                 end ;;
    let lowerString := trim (toLowerCase dateTimeString) in
    if (lowerString =? "now")%string || (lowerString =? "today")%string then
      Date_now
    else if (lowerString =? "tomorrow")%string then
      let tomorrow := Date_copy reference in
      let tomorrow := setDate tomorrow (Num.add (getDate tomorrow) (Num 1)) in
      ret (setHours tomorrow (Num 9) (Some (Num 0)) (Some (Num 0))
             (Some (Num 0)))
    else
    match hoursLaterMatch lowerString with
    | Some g1 =>
        let hoursToAdd := parseInt g1 in
        let result := Date_copy reference in
        ret (setHours result (Num.add (getHours result) (Num hoursToAdd))
               None None None)
    | None =>
    match daysLaterMatch lowerString with
    | Some g1 =>
        let daysToAdd := parseInt g1 in
        let result := Date_copy reference in
        ret (setDate result (Num.add (getDate result) (Num daysToAdd)))
    | None =>
    if (lowerString =? "next week")%string then
      let nextWeek := Date_copy reference in
      let nextWeek := setDate nextWeek (Num.add (getDate nextWeek) (Num 7)) in
      ret (setHours nextWeek (Num 9) (Some (Num 0)) (Some (Num 0))
             (Some (Num 0)))
    else
    match dayOfWeekMatch lowerString with
    | Some g1 =>
        let dayOfWeek := indexOf dayNames (toLowerCase g1) in
        let result := Date_copy reference in
        let currentDay := getDay result in
        let daysToAdd := daysToAdd dayOfWeek currentDay in
        let result := setDate result (Num.add (getDate result) daysToAdd) in
        ret (setHours result (Num 9) (Some (Num 0)) (Some (Num 0))
               (Some (Num 0)))
    | None =>
    match dateTimeMatch lowerString with
    | Some g =>
        let datePart := toLowerCase (datePart g) in
        let dateResult :=
          if (datePart =? "today")%string then Date_copy reference
          else if (datePart =? "tomorrow")%string then
            let dateResult := Date_copy reference in
            setDate dateResult (Num.add (getDate dateResult) (Num 1))
          else
            let dayOfWeek := indexOf dayNames datePart in
            let dateResult := Date_copy reference in
            let currentDay := getDay dateResult in
            let daysToAdd := daysToAdd dayOfWeek currentDay in
            setDate dateResult (Num.add (getDate dateResult) daysToAdd) in
        let hour := parseInt (hourPart g) in
        let minute :=
          match minutePart g with
          | Some m => parseInt m
          | None => 0
          end in
        let isPM :=
          match meridiem g with
          | Some ap => (toLowerCase ap =? "pm")%string
          | None => false
          end in
        let hour := adjustHour isPM hour in
        ret (setHours dateResult (Num hour) (Some (Num minute))
               (Some (Num 0)) (Some (Num 0)))
    | None =>
        let date := Date_ofString dateTimeString in
        if negb (Num.isNaN (getTime date)) then ret date
        else throw ("Unable to parse date/time: " ++ dateTimeString)
    end end end end.

(** The argument of [formatDateTime], by the cases its body tells apart. *)
Inductive DateTimeObj : Type :=
| Undefined
| CalendarTime (t : GCal.EventDateTime)
| DateObject (d : Date)
| StringValue (s : string)
| OtherValue (rendered : string).

Definition truthyField (o : option string) : bool :=
  match o with Some s => truthy s | None => false end.

Definition formatDateTime (dateTimeObj : DateTimeObj) : string :=
  match dateTimeObj with
  | Undefined => "Not specified"
  | CalendarTime t =>
      if truthyField (GCal.dateTime t) || truthyField (GCal.date t) then
        match GCal.date t with
        | Some d =>
            if truthy d then
              toLocaleDateStringLong host (Date_ofString (d ++ "T00:00:00"))
              ++ " (All day)"
            else
              toLocaleStringLong host
                (Date_ofString (match GCal.dateTime t with
                                | Some s => s
                                | None => EmptyString
                                end))
        | None =>
            toLocaleStringLong host
              (Date_ofString (match GCal.dateTime t with
                              | Some s => s
                              | None => EmptyString
                              end))
        end
      else "[object Object]"
  | DateObject d => toLocaleStringLong host d
  | StringValue s =>
      if truthy s then toLocaleStringLong host (Date_ofString s)
      else "Not specified"
  | OtherValue rendered => rendered
  end.

(** *** The tool-call handler *)

(** [schema.parse(args)] *)
Definition parse {A : Type} (s : Schema A) (args : option json) : M A :=
  match s [] args with
  | inr a => ret a
  | inl issues => throw (zodMessage host issues)
  end.


(** [Intl.DateTimeFormat().resolvedOptions().timeZone || 'UTC'] *)
Definition DEFAULT_TIMEZONE : string :=
  if truthy (resolvedTimeZone host) then resolvedTimeZone host else "UTC".

Record TextContent : Type := { type : string; text : string }.
Record CallToolResult : Type := { content : list TextContent }.

Definition textResult (s : string) : CallToolResult :=
  {| content := [ {| type := "text"; text := s |} ] |}.

Definition nl : string := String (ascii_of_nat 10) EmptyString.

(** The double quote. *)
Definition quote : string := String (ascii_of_nat 34) EmptyString.

(** The requests to the service; each is recorded in [calls]. *)
Definition sent (c : GCal.Call) (w : World) : World :=
  {| reads := reads w; calls := (calls w ++ [c])%list |}.

Definition calendar_events_insert (calendarId : string)
    (requestBody : GCal.Event) : M GCal.Event :=
  fun w => (events_insert host (calls w) calendarId requestBody,
            sent (GCal.EventsInsert calendarId requestBody) w).

Definition calendar_events_get (calendarId eventId : string)
  : M GCal.Event :=
  fun w => (events_get host (calls w) calendarId eventId,
            sent (GCal.EventsGet calendarId eventId) w).

Definition calendar_events_patch (calendarId eventId : string)
    (requestBody : GCal.Event) : M GCal.Event :=
  fun w => (events_patch host (calls w) calendarId eventId requestBody,
            sent (GCal.EventsPatch calendarId eventId requestBody) w).

Definition calendar_events_delete (calendarId eventId : string) : M unit :=
  fun w => (events_delete host (calls w) calendarId eventId,
            sent (GCal.EventsDelete calendarId eventId) w).

Definition calendar_events_list (params : GCal.ListParams)
  : M (option (list GCal.Event)) :=
  fun w => (events_list host (calls w) params, sent (GCal.EventsList params) w).

Definition calendar_calendarList_list
  : M (option (list GCal.CalendarListEntry)) :=
  fun w => (calendarList_list host (calls w), sent GCal.CalendarListList w).

(** A value inside a template literal. *)
Definition show (o : option string) : string :=
  match o with Some s => s | None => "undefined" end.

(** [o || fallback] *)
Definition orDefault (o : option string) (fallback : string) : string :=
  match o with
  | Some s => if truthy s then s else fallback
  | None => fallback
  end.

(** An optional string argument that passes [if (value)]. *)
Definition given (o : option string) : option string :=
  match o with
  | Some s => if truthy s then Some s else None
  | None => None
  end.

(** The [attendees] field of the request body: [attendees.map(email =>
    ({ email }))] when [attendees && attendees.length > 0], absent
    otherwise. *)
Definition attendeesOf (o : option (list string))
  : option (list GCal.EventAttendee) :=
  match o with
  | Some (e :: r) =>
      Some (map (fun email => {| GCal.email := Some email;
                                 GCal.responseStatus := None |}) (e :: r))
  | _ => None
  end.

Definition timeField (o : option GCal.EventDateTime) : DateTimeObj :=
  match o with Some t => CalendarTime t | None => Undefined end.

Definition zoned (iso zone : string) : GCal.EventDateTime :=
  {| GCal.date := None; GCal.dateTime := Some iso;
     GCal.timeZone := Some zone |}.

Fixpoint mapi {A B : Type} (f : A -> Z -> B) (index : Z) (l : list A)
  : list B :=
  match l with
  | [] => []
  | x :: r => f x index :: mapi f (index + 1) r
  end.

Definition length' {A : Type} (l : list A) : Z := Z.of_nat (List.length l).

(** [l.slice(0, end)] *)
Definition slice0 {A : Type} (l : list A) (end_ : Z) : list A :=
  let len := length' l in
  let final := if end_ <? 0 then Z.max (len + end_) 0 else Z.min end_ len in
  firstn (Z.to_nat final) l.

(** **** create_event *)

Definition create_event (args : option json) : M CallToolResult :=
  validatedArgs <- parse CreateEventSchema args ;;
  startDateTime <- parseDateTime (CreateEvent.start validatedArgs) None ;;
  endDateTime <- parseDateTime (CreateEvent.end_ validatedArgs)
                   (Some startDateTime) ;;
  startISO <- toISOString startDateTime ;;
  endISO <- toISOString endDateTime ;;
  let event :=
    {| GCal.id := None;
       GCal.summary := Some (CreateEvent.summary validatedArgs);
       GCal.description := given (CreateEvent.description validatedArgs);
       GCal.location := given (CreateEvent.location validatedArgs);
       GCal.start := Some (zoned startISO DEFAULT_TIMEZONE);
       GCal.end_ := Some (zoned endISO DEFAULT_TIMEZONE);
       GCal.attendees := attendeesOf (CreateEvent.attendees validatedArgs);
       GCal.reminders := CreateEvent.reminders validatedArgs;
       GCal.htmlLink := None;
       GCal.created := None |} in
  response <- calendar_events_insert (CreateEvent.calendarId validatedArgs)
                event ;;
  ret (textResult
         ("Event created successfully!" ++ nl
          ++ "Event ID: " ++ show (GCal.id response) ++ nl
          ++ "Title: " ++ show (GCal.summary response) ++ nl
          ++ "Start: " ++ formatDateTime (timeField (GCal.start response)) ++ nl
          ++ "End: " ++ formatDateTime (timeField (GCal.end_ response)) ++ nl
          ++ "Link: " ++ show (GCal.htmlLink response))).

(** **** get_event *)

Definition attendeesText (event : GCal.Event) : string :=
  match GCal.attendees event with
  | Some (a :: r) =>
      nl ++ "Attendees:" ++ nl
      ++ join nl
           (map (fun a =>
                   let status :=
                     match given (GCal.responseStatus a) with
                     | Some st =>
                         " (" ++ replace st "needsAction" "pending" ++ ")"
                     | None => EmptyString
                     end in
                   "- " ++ show (GCal.email a) ++ status)
                (a :: r))
  | _ => EmptyString
  end.

Definition remindersText (event : GCal.Event) : string :=
  match GCal.reminders event with
  | Some rem =>
      match GCal.overrides rem with
      | Some (o :: r) =>
          nl ++ "Reminders:" ++ nl
          ++ join nl
               (map (fun r => "- " ++ GCal.method r ++ " ("
                              ++ ofZ (GCal.minutes r) ++ " minutes before)")
                    (o :: r))
      | _ => EmptyString
      end
  | None => EmptyString
  end.

Definition get_event (args : option json) : M CallToolResult :=
  validatedArgs <- parse GetEventSchema args ;;
  event <- calendar_events_get (EventRef.calendarId validatedArgs)
             (EventRef.eventId validatedArgs) ;;
  let createdDate :=
    match given (GCal.created event) with
    | Some c => toLocaleString host (Date_ofString c)
    | None => "Unknown"
    end in
  ret (textResult
         ("Event Details:" ++ nl
          ++ "ID: " ++ show (GCal.id event) ++ nl
          ++ "Title: " ++ show (GCal.summary event) ++ nl
          ++ "Start: " ++ formatDateTime (timeField (GCal.start event)) ++ nl
          ++ "End: " ++ formatDateTime (timeField (GCal.end_ event)) ++ nl
          ++ "Location: " ++ orDefault (GCal.location event) "Not specified"
          ++ nl
          ++ "Description: "
          ++ orDefault (GCal.description event) "No description" ++ nl
          ++ "Created: " ++ createdDate ++ attendeesText event
          ++ remindersText event ++ nl
          ++ "Link: " ++ show (GCal.htmlLink event))).

(** **** update_event

    The statements between fetching the stored event and sending the patch
    are grouped by the field of [updatedEvent] they assign. *)

(** [currentEvent.data.start?.timeZone || DEFAULT_TIMEZONE] *)
Definition zoneOr (stored : option GCal.EventDateTime) : string :=
  match stored with
  | Some t => orDefault (GCal.timeZone t) DEFAULT_TIMEZONE
  | None => DEFAULT_TIMEZONE
  end.

Definition updatedStart (validatedArgs : UpdateEvent.Args)
    (currentEvent : GCal.Event) : M (option GCal.EventDateTime) :=
  match given (UpdateEvent.start validatedArgs) with
  | Some start =>
      startDateTime <- parseDateTime start None ;;
      iso <- toISOString startDateTime ;;
      ret (Some (zoned iso (zoneOr (GCal.start currentEvent))))
  | None => ret None
  end.

(** [validatedArgs.start ? parseDateTime(validatedArgs.start)
       : currentEvent.data.start?.dateTime
           ? new Date(currentEvent.data.start.dateTime) : new Date()] *)
Definition referenceTime (validatedArgs : UpdateEvent.Args)
    (currentEvent : GCal.Event) : M Date :=
  match given (UpdateEvent.start validatedArgs) with
  | Some start => parseDateTime start None
  | None =>
      match GCal.start currentEvent with
      | Some t =>
          match given (GCal.dateTime t) with
          | Some dateTime => ret (Date_ofString dateTime)
          | None => Date_now
          end
      | None => Date_now
      end
  end.

Definition updatedEnd (validatedArgs : UpdateEvent.Args)
    (currentEvent : GCal.Event) : M (option GCal.EventDateTime) :=
  match given (UpdateEvent.end_ validatedArgs) with
  | Some end_ =>
      referenceTime <- referenceTime validatedArgs currentEvent ;;
      endDateTime <- parseDateTime end_ (Some referenceTime) ;;
      iso <- toISOString endDateTime ;;
      ret (Some (zoned iso (zoneOr (GCal.end_ currentEvent))))
  | None => ret None
  end.

Definition updatedEvent (validatedArgs : UpdateEvent.Args)
    (currentEvent : GCal.Event) : M GCal.Event :=
  start <- updatedStart validatedArgs currentEvent ;;
  end_ <- updatedEnd validatedArgs currentEvent ;;
  ret {| GCal.id := None;
         GCal.summary := given (UpdateEvent.summary validatedArgs);
         GCal.description := given (UpdateEvent.description validatedArgs);
         GCal.location := given (UpdateEvent.location validatedArgs);
         GCal.start := start;
         GCal.end_ := end_;
         GCal.attendees := attendeesOf (UpdateEvent.attendees validatedArgs);
         GCal.reminders := None;
         GCal.htmlLink := None;
         GCal.created := None |}.

Definition update_event (args : option json) : M CallToolResult :=
  validatedArgs <- parse UpdateEventSchema args ;;
  currentEvent <- calendar_events_get (UpdateEvent.calendarId validatedArgs)
                    (UpdateEvent.eventId validatedArgs) ;;
  updatedEvent <- updatedEvent validatedArgs currentEvent ;;
  response <- calendar_events_patch (UpdateEvent.calendarId validatedArgs)
                (UpdateEvent.eventId validatedArgs) updatedEvent ;;
  ret (textResult
         ("Event updated successfully!" ++ nl
          ++ "Event ID: " ++ show (GCal.id response) ++ nl
          ++ "Title: " ++ show (GCal.summary response) ++ nl
          ++ "Start: " ++ formatDateTime (timeField (GCal.start response)) ++ nl
          ++ "End: " ++ formatDateTime (timeField (GCal.end_ response)) ++ nl
          ++ "Link: " ++ show (GCal.htmlLink response))).

(** **** delete_event *)

Definition delete_event (args : option json) : M CallToolResult :=
  validatedArgs <- parse DeleteEventSchema args ;;
  calendar_events_delete (EventRef.calendarId validatedArgs)
    (EventRef.eventId validatedArgs) ;;;
  ret (textResult
         ("Event with ID " ++ EventRef.eventId validatedArgs
          ++ " has been successfully deleted from calendar "
          ++ EventRef.calendarId validatedArgs ++ ".")).

(** **** list_events and search_events *)

(** [timeMin ? parseDateTime(timeMin) : now] *)
Definition resolveTimeMin (timeMin : option string) (now : Date) : M Date :=
  match given timeMin with
  | Some s => parseDateTime s None
  | None => ret now
  end.

(** [timeMax] given, or [days] days after [timeMin]. *)
Definition resolveTimeMax (timeMax : option string) (timeMin : Date)
    (days : Z) : M Date :=
  match given timeMax with
  | Some s => parseDateTime s (Some timeMin)
  | None =>
      let timeMax := Date_copy timeMin in
      ret (setDate timeMax (Num.add (getDate timeMax) (Num days)))
  end.

Definition eventsDisplay (events : list GCal.Event) : string :=
  join nl
    (mapi (fun event index =>
             let start := formatDateTime (timeField (GCal.start event)) in
             let end_ := formatDateTime (timeField (GCal.end_ event)) in
             ofZ (index + 1) ++ ". " ++ show (GCal.summary event)
             ++ " (ID: " ++ show (GCal.id event) ++ ")" ++ nl
             ++ "   When: " ++ start ++ " - " ++ end_ ++ nl
             ++ "   Where: "
             ++ orDefault (GCal.location event) "Not specified" ++ nl)
          0 events).

Definition items {A : Type} (o : option (list A)) : list A :=
  match o with Some l => l | None => [] end.

Definition list_events (args : option json) : M CallToolResult :=
  validatedArgs <- parse ListEventsSchema args ;;
  now <- Date_now ;;
  timeMin <- resolveTimeMin (ListEvents.timeMin validatedArgs) now ;;
  timeMax <- resolveTimeMax (ListEvents.timeMax validatedArgs) timeMin 7 ;;
  timeMinISO <- toISOString timeMin ;;
  timeMaxISO <- toISOString timeMax ;;
  response <- calendar_events_list
                {| GCal.calendarId := ListEvents.calendarId validatedArgs;
                   GCal.timeMin := timeMinISO;
                   GCal.timeMax := timeMaxISO;
                   GCal.maxResults := ListEvents.maxResults validatedArgs;
                   GCal.orderBy := Some (ListEvents.orderBy validatedArgs);
                   GCal.singleEvents := true |} ;;
  let events := items response in
  if length' events =? 0 then
    ret (textResult
           ("No events found in the specified time range ("
            ++ toLocaleDateString host timeMin ++ " - "
            ++ toLocaleDateString host timeMax ++ ")."))
  else
    ret (textResult
           ("Found " ++ ofZ (length' events) ++ " events between "
            ++ toLocaleDateString host timeMin ++ " and "
            ++ toLocaleDateString host timeMax ++ ":" ++ nl ++ nl
            ++ eventsDisplay events)).

(** The predicate of [events.filter] in search_events; [query] is already
    lower-cased. *)
Definition matchesQuery (query : string) (event : GCal.Event) : bool :=
  let summary := toLowerCase (orDefault (GCal.summary event) EmptyString) in
  let description :=
    toLowerCase (orDefault (GCal.description event) EmptyString) in
  let location := toLowerCase (orDefault (GCal.location event) EmptyString) in
  includes summary query || includes description query
  || includes location query.

(** The events reported by search_events for the candidates [events]. *)
Definition searchResults (validatedArgs : SearchEvents.Args)
    (events : list GCal.Event) : list GCal.Event :=
  let query := toLowerCase (SearchEvents.query validatedArgs) in
  let events := filter (matchesQuery query) events in
  slice0 events (SearchEvents.maxResults validatedArgs).

Definition search_events (args : option json) : M CallToolResult :=
  validatedArgs <- parse SearchEventsSchema args ;;
  now <- Date_now ;;
  timeMin <- resolveTimeMin (SearchEvents.timeMin validatedArgs) now ;;
  timeMax <- resolveTimeMax (SearchEvents.timeMax validatedArgs) timeMin 30 ;;
  timeMinISO <- toISOString timeMin ;;
  timeMaxISO <- toISOString timeMax ;;
  response <- calendar_events_list
                {| GCal.calendarId := SearchEvents.calendarId validatedArgs;
                   GCal.timeMin := timeMinISO;
                   GCal.timeMax := timeMaxISO;
                   GCal.maxResults := 100;
                   GCal.orderBy := None;
                   GCal.singleEvents := true |} ;;
  let events := searchResults validatedArgs (items response) in
  if length' events =? 0 then
    ret (textResult
           ("No events found matching " ++ quote
            ++ SearchEvents.query validatedArgs ++ quote
            ++ " in the specified time range."))
  else
    ret (textResult
           ("Found " ++ ofZ (length' events) ++ " events matching "
            ++ quote ++ SearchEvents.query validatedArgs ++ quote
            ++ ":" ++ nl ++ nl ++ eventsDisplay events)).

(** **** list_calendars *)

Definition calendarsDisplay (calendars : list GCal.CalendarListEntry)
  : string :=
  join nl
    (mapi (fun cal index =>
             ofZ (index + 1) ++ ". " ++ show (GCal.cal_summary cal)
             ++ " (ID: " ++ show (GCal.cal_id cal) ++ ")" ++ nl
             ++ "   Access: " ++ show (GCal.accessRole cal) ++ nl
             ++ "   Primary: "
             ++ (match GCal.primary cal with
                 | Some true => "Yes"
                 | _ => "No"
                 end) ++ nl)
          0 calendars).

Definition list_calendars : M CallToolResult :=
  response <- calendar_calendarList_list ;;
  let calendars := items response in
  if length' calendars =? 0 then
    ret (textResult "No calendars found in your Google account.")
  else
    ret (textResult
           ("Found " ++ ofZ (length' calendars) ++ " calendars:" ++ nl ++ nl
            ++ calendarsDisplay calendars)).

(** **** The handler of [CallToolRequestSchema] *)

Definition dispatch (name : string) (args : option json) : M CallToolResult :=
  if (name =? "create_event")%string then create_event args
  else if (name =? "get_event")%string then get_event args
  else if (name =? "update_event")%string then update_event args
  else if (name =? "delete_event")%string then delete_event args
  else if (name =? "list_events")%string then list_events args
  else if (name =? "search_events")%string then search_events args
  else if (name =? "list_calendars")%string then list_calendars
  else throw ("Unknown tool: " ++ name).

Definition callTool (name : string) (args : option json) : M CallToolResult :=
  tryCatch (dispatch name args)
    (fun error => ret (textResult ("Error: " ++ message error))).

End Runtime.

(** ** Names used by the statements below *)

(** The operations announced by the handler of [ListToolsRequestSchema]. *)
Definition toolNames : list string :=
  ["create_event"; "get_event"; "update_event"; "delete_event";
   "list_events"; "search_events"; "list_calendars"].

(** The number of events a search response reports. *)
Definition reportedCount (validatedArgs : SearchEvents.Args)
    (events : list GCal.Event) : Z :=
  length' (searchResults validatedArgs events).

(** The stored start of an event as the specification speaks of it: the
    timestamp of a timed event, the date of an all-day event, nothing when
    the event has no start. *)
Definition storedStart (event : GCal.Event) : option string :=
  match GCal.start event with
  | Some t =>
      match given (GCal.dateTime t) with
      | Some s => Some s
      | None => given (GCal.date t)
      end
  | None => None
  end.

(** The reference for an [end] supplied alone, in the specification's words:
    the stored start, or the current instant if the stored event has no
    start. *)
Definition storedStartReference (host : Host) (event : GCal.Event) : M Date :=
  match storedStart event with
  | Some s => ret (Date_ofString host s)
  | None => Date_now host
  end.

(** The capture groups of the compound pattern for the strings on which
    [parseDateTime] gets as far as trying it: not strict ISO, and none of
    the earlier rules applies. *)
Definition compoundRule (dateTimeString : string)
  : option RegExp.DateTimeGroups :=
  let lowerString := JSString.trim (JSString.toLowerCase dateTimeString) in
  if RegExp.ISO_DATE_REGEX_test dateTimeString
     || (lowerString =? "now")%string || (lowerString =? "today")%string
     || (lowerString =? "tomorrow")%string
     || (lowerString =? "next week")%string
  then None
  else
    match RegExp.hoursLaterMatch lowerString,
          RegExp.daysLaterMatch lowerString,
          RegExp.dayOfWeekMatch lowerString with
    | None, None, None => RegExp.dateTimeMatch lowerString
    | _, _, _ => None
    end.

(** The date the compound rule starts from: the reference itself for
    [today], the next day for [tomorrow], the coming occurrence of a named
    weekday otherwise (the [dateResult] of [parseDateTime] before its time of
    day is set). *)
Definition compoundAnchor (host : Host) (dateName : string)
    (reference : Date) : Date :=
  if (dateName =? "today")%string then reference
  else if (dateName =? "tomorrow")%string then
    setDate host reference (Num.add (getDate host reference) (Num 1))
  else
    setDate host reference
      (Num.add (getDate host reference)
         (daysToAdd (RegExp.indexOf dayNames dateName)
            (getDay host reference))).

(** Expression [e] resolves, against [reference], to a valid instant whose
    local time of day is [hour]:[minute]:00.000. *)
Definition resolvesToTime (host : Host) (e : string) (reference : Date)
    (w : World) (hour minute : Z) : Prop :=
  exists result,
    parseDateTime host e (Some reference) w = (Normal result, w)
    /\ getHours host result = Num hour
    /\ getMinutes host result = Num minute
    /\ getSeconds host result = Num 0
    /\ getMilliseconds host result = Num 0.

(** The time window of a listing or a search, in the specification's words,
    with an empty string counted as an absent argument: [timeMin] is the
    current instant when absent; [timeMax] is resolved against the resolved
    [timeMin] when present, and is [timeMin] plus [days] days when absent. *)
Definition timeWindow (host : Host) (timeMin timeMax : option string)
    (days : Z) : M (Date * Date) :=
  now <- Date_now host ;;
  timeMin <- match given timeMin with
             | Some s => parseDateTime host s None
             | None => ret now
             end ;;
  timeMax <- match given timeMax with
             | Some s => parseDateTime host s (Some timeMin)
             | None =>
                 ret (mkDate
                        match getTime timeMin with
                        | Num t =>
                            TimeValue.TimeClip (t + days * TimeValue.msPerDay)
                        | NaN => NaN
                        end)
             end ;;
  ret (timeMin, timeMax).

(** An optional text argument that is absent or empty, and an attendee list
    that is absent or empty. *)
Definition blank (o : option string) : Prop :=
  o = None \/ o = Some EmptyString.

Definition noAttendees (o : option (list string)) : Prop :=
  o = None \/ o = Some [].

(** The arguments of update_event with every blank field taken out. *)
Definition omitBlank (v : UpdateEvent.Args) : UpdateEvent.Args :=
  {| UpdateEvent.eventId := UpdateEvent.eventId v;
     UpdateEvent.calendarId := UpdateEvent.calendarId v;
     UpdateEvent.summary := given (UpdateEvent.summary v);
     UpdateEvent.description := given (UpdateEvent.description v);
     UpdateEvent.location := given (UpdateEvent.location v);
     UpdateEvent.start := given (UpdateEvent.start v);
     UpdateEvent.end_ := given (UpdateEvent.end_ v);
     UpdateEvent.attendees :=
       match UpdateEvent.attendees v with
       | Some [] => None
       | other => other
       end |}.

(** The state after one more reading of the clock. *)
Definition tick (w : World) : World :=
  {| reads := S (reads w); calls := calls w |}.

(** The instant the clock shows in state [w]. *)
Definition currentInstant (host : Host) (w : World) : Date :=
  mkDate (Num (clock host (reads w))).

(** The time value of a calendar date and time of day (months counted from
    1), read as UTC; [UTC host] of it when read as local time. *)
Definition civil (year month date hour minute second : Z) : Z :=
  TimeValue.MakeDate (TimeValue.MakeDay year (month - 1) date)
    (TimeValue.MakeTime hour minute second 0).

(** A sample environment: local time two hours ahead of UTC, a clock that
    starts on 2025-03-10T10:00:00Z and advances by a millisecond at every
    reading, and a calendar service that stores one event and lists three. *)
Module Example.

Definition event (title : string) (start : GCal.EventDateTime) : GCal.Event :=
  {| GCal.id := Some "evt1"; GCal.summary := Some title;
     GCal.description := None; GCal.location := None;
     GCal.start := Some start; GCal.end_ := None; GCal.attendees := None;
     GCal.reminders := None; GCal.htmlLink := None; GCal.created := None |}.

Definition allDay (d : string) : GCal.EventDateTime :=
  {| GCal.date := Some d; GCal.dateTime := None; GCal.timeZone := None |}.

Definition timed (s zone : string) : GCal.EventDateTime :=
  {| GCal.date := None; GCal.dateTime := Some s; GCal.timeZone := Some zone |}.

Definition listed : list GCal.Event :=
  [ event "Team Sync" (timed "2025-03-11T09:00:00Z" "UTC");
    event "Design sync-up" (timed "2025-03-12T09:00:00Z" "UTC");
    event "SYNC with vendor" (timed "2025-03-13T09:00:00Z" "UTC") ].

Definition host (stored : GCal.Event) : Host :=
  {| LocalTZA := 7200000;
     clock := fun n => 1741600800000 + Z.of_nat n;
     resolvedTimeZone := "Europe/Paris";
     legacyDateParse := fun _ => NaN;
     toLocaleStringLong := fun d => "(date and time)";
     toLocaleDateStringLong := fun d => "(date)";
     toLocaleString := fun d => "(date and time)";
     toLocaleDateString := fun d => "(date)";
     zodMessage := fun _ => "Invalid arguments";
     events_insert := fun _ _ body => Normal body;
     events_get := fun _ _ _ => Normal stored;
     events_patch := fun _ _ _ body => Normal (GCal.applyPatch body stored);
     events_delete := fun _ _ _ => Normal tt;
     events_list := fun _ _ => Normal (Some listed);
     calendarList_list := fun _ => Normal None |}.

Definition storedAllDay : GCal.Event := event "Offsite" (allDay "2025-04-01").

Definition storedTimed : GCal.Event :=
  event "Review" (timed "2025-04-01T14:00:00Z" "America/New_York").

Definition createArgs : json :=
  JObj [("summary", JStr "Planning"); ("start", JStr "2025-04-01T14:00:00");
        ("end", JStr "2 hours later")].

Definition searchArgs : json :=
  JObj [("query", JStr "sync"); ("maxResults", JNum (-1))].

Definition onlyEnd : UpdateEvent.Args :=
  {| UpdateEvent.eventId := "evt1"; UpdateEvent.calendarId := "primary";
     UpdateEvent.summary := None; UpdateEvent.description := None;
     UpdateEvent.location := None; UpdateEvent.start := None;
     UpdateEvent.end_ := Some "2 hours later";
     UpdateEvent.attendees := None |}.

Definition onlyStart : UpdateEvent.Args :=
  {| UpdateEvent.eventId := "evt1"; UpdateEvent.calendarId := "primary";
     UpdateEvent.summary := Some EmptyString;
     UpdateEvent.description := None;
     UpdateEvent.location := Some "Room 4";
     UpdateEvent.start := Some "2025-04-02T10:00:00";
     UpdateEvent.end_ := None;
     UpdateEvent.attendees := Some [] |}.

Definition startAndEnd : UpdateEvent.Args :=
  {| UpdateEvent.eventId := "evt1"; UpdateEvent.calendarId := "primary";
     UpdateEvent.summary := None; UpdateEvent.description := None;
     UpdateEvent.location := None;
     UpdateEvent.start := Some "2025-04-02T10:00:00";
     UpdateEvent.end_ := Some "1 hour later";
     UpdateEvent.attendees := None |}.

Definition startNowEndLater : UpdateEvent.Args :=
  {| UpdateEvent.eventId := "evt1"; UpdateEvent.calendarId := "primary";
     UpdateEvent.summary := None; UpdateEvent.description := None;
     UpdateEvent.location := None; UpdateEvent.start := Some "now";
     UpdateEvent.end_ := Some "1 hour later";
     UpdateEvent.attendees := None |}.

End Example.

(** ** Names used by the further properties *)

(** A string of decimal digits. *)
Fixpoint allDigits (s : string) : bool :=
  match s with
  | EmptyString => true
  | String c r => JSString.isDigit c && allDigits r
  end.

(** The lower-cased, trimmed form that the rules of [parseDateTime] test. *)
Definition lowerString (dateTimeString : string) : string :=
  JSString.trim (JSString.toLowerCase dateTimeString).

(** The number of days the compound rule moves the reference by, for the
    date word [dateName] and the reference's weekday [currentDay]: none for
    "today", one for "tomorrow", and for a weekday
    [dayOfWeek - currentDay], plus 7 when that is not positive. *)
Definition dayShift (dateName : string) (currentDay : Z) : Z :=
  if (dateName =? "today")%string then 0
  else if (dateName =? "tomorrow")%string then 1
  else
    let daysToAdd := RegExp.indexOf dayNames dateName - currentDay in
    if daysToAdd <=? 0 then daysToAdd + 7 else daysToAdd.

(** The requests a tool may send in one call: nothing when the call fails
    before reaching the service, otherwise its own request, preceded for
    update_event by the request that fetches the stored event. *)
Definition requestShape (name : string) (l : list GCal.Call) : Prop :=
  if (name =? "create_event")%string then
    l = [] \/ exists c b, l = [GCal.EventsInsert c b]
  else if (name =? "get_event")%string then
    l = [] \/ exists c e, l = [GCal.EventsGet c e]
  else if (name =? "update_event")%string then
    l = [] \/ exists c e,
                l = [GCal.EventsGet c e]
                \/ exists b, l = [GCal.EventsGet c e; GCal.EventsPatch c e b]
  else if (name =? "delete_event")%string then
    l = [] \/ exists c e, l = [GCal.EventsDelete c e]
  else if (name =? "list_events")%string
          || (name =? "search_events")%string then
    l = [] \/ exists p, l = [GCal.EventsList p]
  else if (name =? "list_calendars")%string then
    l = [GCal.CalendarListList]
  else l = [].

(** The issues the schema of tool [name] finds in [args], if any. *)
Definition schemaIssues (name : string) (args : option json)
  : option (list ZodIssue) :=
  let issues {A : Type} (r : V A) : option (list ZodIssue) :=
    match r with inl i => Some i | inr _ => None end in
  if (name =? "create_event")%string then issues (CreateEventSchema [] args)
  else if (name =? "get_event")%string then issues (GetEventSchema [] args)
  else if (name =? "update_event")%string then
    issues (UpdateEventSchema [] args)
  else if (name =? "delete_event")%string then
    issues (DeleteEventSchema [] args)
  else if (name =? "list_events")%string then issues (ListEventsSchema [] args)
  else if (name =? "search_events")%string then
    issues (SearchEventsSchema [] args)
  else None.

(** A computation that sends nothing to the calendar service, and one whose
    requests, in order, satisfy [P]. *)
Definition quiet {A : Type} (m : M A) : Prop :=
  forall w, calls (snd (m w)) = calls w.

Definition sends {A : Type} (m : M A) (P : list GCal.Call -> Prop) : Prop :=
  forall w, exists l, calls (snd (m w)) = (calls w ++ l)%list /\ P l.

(** The keys a tool's schema declares as [z.string()] with no [optional]. *)
Definition requiredKeys (name : string) : list string :=
  if (name =? "create_event")%string then ["summary"; "start"; "end"]
  else if (name =? "get_event")%string || (name =? "update_event")%string
          || (name =? "delete_event")%string then ["eventId"]
  else if (name =? "search_events")%string then ["query"]
  else [].

(** * Properties *)

(** ** Time values *)

Module TimeFacts.
Import TimeValue.

Lemma DayFromYear_bounds n :
  146097 * n - 591 <= 400 * DayFromYear (1970 + n) <= 146097 * n + 600.
Proof.
  unfold DayFromYear.
  replace (1970 + n - 1970) with n by ring.
  replace (1970 + n - 1969) with (n + 1) by ring.
  replace (1970 + n - 1901) with (n + 69) by ring.
  replace (1970 + n - 1601) with (n + 369) by ring.
  Z.div_mod_to_equations. lia.
Qed.

(** [YearFromDay d] is the largest year that starts on or before day [d]. *)
Lemma YearFromDay_spec d :
  DayFromYear (YearFromDay d) <= d < DayFromYear (YearFromDay d + 1).
Proof.
  unfold YearFromDay.
  set (n := 400 * d / 146097).
  assert (Hn : 146097 * n <= 400 * d < 146097 * n + 146097).
  { subst n. Z.div_mod_to_equations. lia. }
  pose proof (DayFromYear_bounds (n - 1)) as Hm.
  pose proof (DayFromYear_bounds (n + 2)) as Hp.
  replace (1970 + (n - 1)) with (1970 + n - 1) in Hm by ring.
  replace (1970 + (n + 2)) with (1970 + n + 1 + 1) in Hp by ring.
  destruct (d <? DayFromYear (1970 + n)) eqn:E1.
  - apply Z.ltb_lt in E1.
    replace (1970 + n - 1 + 1) with (1970 + n) by ring. lia.
  - apply Z.ltb_ge in E1.
    destruct (DayFromYear (1970 + n + 1) <=? d) eqn:E2.
    + apply Z.leb_le in E2. lia.
    + apply Z.leb_gt in E2. lia.
Qed.

Lemma MonthFromTime_range t : 0 <= MonthFromTime t <= 11.
Proof.
  unfold MonthFromTime.
  repeat match goal with
         | |- context [if ?b then _ else _] => destruct b
         end; lia.
Qed.

(** Building a day number from the calendar fields of [t], with the day of
    the month shifted by [k], gives the day of [t] shifted by [k]. *)
Lemma MakeDay_fields t k :
  MakeDay (YearFromTime t) (MonthFromTime t) (DateFromTime t + k) = Day t + k.
Proof.
  pose proof (MonthFromTime_range t) as Hm.
  unfold MakeDay.
  rewrite Z.div_small, Z.mod_small by lia.
  rewrite Z.add_0_r.
  unfold DateFromTime, DayWithinYear, InLeapYear. lia.
Qed.

Lemma MakeDate_TimeWithinDay t k :
  MakeDate (Day t + k) (TimeWithinDay t) = t + k * msPerDay.
Proof.
  unfold MakeDate, Day, TimeWithinDay, msPerDay.
  Z.div_mod_to_equations. lia.
Qed.

Lemma Day_bounds t : Day t * msPerDay <= t < Day t * msPerDay + msPerDay.
Proof. unfold Day, msPerDay. Z.div_mod_to_equations. lia. Qed.

Ltac unfold_units :=
  unfold Day, HourFromTime, MinFromTime, SecFromTime, msFromTime, MakeDate,
    MakeTime, msPerDay, msPerHour, msPerMinute, msPerSecond.

Lemma Day_MakeDate d h m :
  0 <= h < 24 -> 0 <= m < 60 -> Day (MakeDate d (MakeTime h m 0 0)) = d.
Proof. intros. unfold_units. Z.div_mod_to_equations. lia. Qed.

Lemma HourFromTime_MakeDate d h m :
  0 <= h < 24 -> 0 <= m < 60 ->
  HourFromTime (MakeDate d (MakeTime h m 0 0)) = h.
Proof. intros. unfold_units. Z.div_mod_to_equations. lia. Qed.

Lemma MinFromTime_MakeDate d h m :
  0 <= h < 24 -> 0 <= m < 60 ->
  MinFromTime (MakeDate d (MakeTime h m 0 0)) = m.
Proof. intros. unfold_units. Z.div_mod_to_equations. lia. Qed.

Lemma SecFromTime_MakeDate d h m :
  SecFromTime (MakeDate d (MakeTime h m 0 0)) = 0.
Proof. unfold_units. Z.div_mod_to_equations. lia. Qed.

Lemma msFromTime_MakeDate d h m :
  msFromTime (MakeDate d (MakeTime h m 0 0)) = 0.
Proof. unfold_units. Z.div_mod_to_equations. lia. Qed.

Lemma WeekDay_range t : 0 <= WeekDay t <= 6.
Proof. unfold WeekDay. Z.div_mod_to_equations. lia. Qed.

Lemma WeekDay_MakeDate d h m :
  0 <= h < 24 -> 0 <= m < 60 ->
  WeekDay (MakeDate d (MakeTime h m 0 0)) = (d + 4) mod 7.
Proof. intros. unfold WeekDay. now rewrite Day_MakeDate. Qed.

Lemma TimeClip_in_range t : Z.abs t <= maxTime -> TimeClip t = Num t.
Proof.
  intros H. unfold TimeClip.
  destruct (maxTime <? Z.abs t) eqn:E;
    [ apply Z.ltb_lt in E; lia | reflexivity ].
Qed.

End TimeFacts.

(** ** The [Date] object *)

Section DateFacts.

Context (host : Host).

Import TimeValue TimeFacts.

(** [d.setDate(d.getDate() + k)] moves a valid date by [k] whole days. *)
Lemma setDate_getDate t k :
  setDate host (mkDate (Num t))
    (Num.add (getDate host (mkDate (Num t))) (Num k))
  = mkDate (TimeClip (t + k * msPerDay)).
Proof.
  unfold setDate, getDate, localField; simpl.
  rewrite MakeDay_fields, MakeDate_TimeWithinDay.
  unfold UTC, LocalTime. do 2 f_equal. lia.
Qed.

(** Setting the time of day of a valid date that lies a day inside the
    representable range. *)
Lemma setHours_fields t h m :
  0 <= h < 24 -> 0 <= m < 60 -> Z.abs t <= maxTime - msPerDay ->
  let local := MakeDate (Day (LocalTime host t)) (MakeTime h m 0 0) in
  let d := mkDate (Num (UTC host local)) in
  setHours host (mkDate (Num t)) (Num h) (Some (Num m)) (Some (Num 0))
    (Some (Num 0)) = d
  /\ getHours host d = Num h /\ getMinutes host d = Num m
  /\ getSeconds host d = Num 0 /\ getMilliseconds host d = Num 0.
Proof.
  intros Hh Hm Ht local d.
  assert (Hl : LocalTime host (UTC host local) = local)
    by (unfold LocalTime, UTC; lia).
  assert (Hr : Z.abs (UTC host local) <= maxTime).
  { pose proof (Day_bounds (LocalTime host t)) as Hd.
    subst local. unfold UTC, LocalTime, MakeDate, MakeTime in *.
    unfold msPerDay, msPerHour, msPerMinute, msPerSecond, maxTime in *. lia. }
  split.
  - unfold setHours; simpl. fold local. now rewrite TimeClip_in_range.
  - subst d. unfold getHours, getMinutes, getSeconds, getMilliseconds,
      localField; simpl. rewrite Hl. subst local.
    rewrite HourFromTime_MakeDate, MinFromTime_MakeDate, SecFromTime_MakeDate,
      msFromTime_MakeDate by assumption.
    repeat split; reflexivity.
Qed.

End DateFacts.

(** ** The resolver *)

Section ResolverFacts.

Context (host : Host).

Import JSString TimeValue TimeFacts RegExp.

Lemma atEnd_true s : atEnd s = true -> s = EmptyString.
Proof. unfold atEnd. apply String.eqb_eq. Qed.

(** Every string accepted by [ISO_DATE_REGEX] is in the date-time string
    format, so [new Date] reads it without the implementation-defined
    fallback. *)
Lemma ISO_DATE_REGEX_parse e :
  ISO_DATE_REGEX_test e = true -> exists f, DateString.parse e = Some f.
Proof.
  unfold ISO_DATE_REGEX_test, DateString.parse.
  destruct (digitsN 4 0 e) as [[y s1]|]; [ | discriminate ].
  destruct (litExact "-" s1) as [s2|]; [ | discriminate ].
  destruct (digitsN 2 0 s2) as [[mo s3]|]; [ | discriminate ].
  destruct (litExact "-" s3) as [s4|]; [ | discriminate ].
  destruct (digitsN 2 0 s4) as [[d s5]|]; [ | discriminate ].
  destruct (atEnd s5) eqn:E5; [ intros _; eexists; reflexivity | ].
  cbn [orb].
  destruct (litExact "T" s5) as [s6|]; [ | discriminate ].
  destruct (digitsN 2 0 s6) as [[h s7]|]; [ | discriminate ].
  destruct (litExact ":" s7) as [s8|]; [ | discriminate ].
  destruct (digitsN 2 0 s8) as [[mi s9]|]; [ | discriminate ].
  destruct (atEnd s9) eqn:E9; cbn [orb].
  - apply atEnd_true in E9. subst s9. intros _. eexists; reflexivity.
  - destruct (litExact ":" s9) as [s10|]; [ | discriminate ].
    destruct (digitsN 2 0 s10) as [[sec s11]|]; [ | discriminate ].
    intros E11. apply atEnd_true in E11. subst s11. eexists; reflexivity.
Qed.

(** C8. For every expression [e] accepted by the strict ISO pattern,
    [parseDateTime] returns [new Date(e)] whatever the reference and the
    state of the clock; that value is the reading of [e] in the date-time
    string format and involves nothing else of the environment. *)
Theorem iso_resolves_to_direct_parse (e : string) :
  ISO_DATE_REGEX_test e = true ->
  (forall referenceDate w,
      parseDateTime host e referenceDate w
      = (Normal (Date_ofString host e), w))
  /\ exists f, DateString.parse e = Some f
               /\ Date_ofString host e = mkDate (isoValue host f).
Proof.
  intros H. split.
  - intros referenceDate w. unfold parseDateTime. now rewrite H.
  - destruct (ISO_DATE_REGEX_parse e H) as [f Hf].
    exists f. split; [ assumption | ]. unfold Date_ofString. now rewrite Hf.
Qed.

(** C1, at the input ["2025-13-45"]: the string passes the strict ISO
    pattern, and [parseDateTime] returns the invalid date instead of
    failing. *)
Theorem iso_out_of_range_is_invalid_date referenceDate w :
  parseDateTime host "2025-13-45" referenceDate w = (Normal InvalidDate, w).
Proof. reflexivity. Qed.

(** The sibling path: the fallback at the end of [parseDateTime] does check
    the date it built, and fails on an invalid one. *)
Lemma fallback_rejects_invalid_date referenceDate w :
  legacyDateParse host "2025-13-45 00:00" = NaN ->
  exists w',
    parseDateTime host "2025-13-45 00:00" referenceDate w
    = (Throw (mkError "Unable to parse date/time: 2025-13-45 00:00"), w').
Proof.
  intros H. unfold parseDateTime, bind.
  destruct referenceDate as [d|]; cbn; unfold Date_ofString; cbn;
    rewrite H; eexists; reflexivity.
Qed.

Lemma parseDateTime_next name ref w :
  In name weekdayNames ->
  parseDateTime host ("next " ++ name) (Some ref) w
  = (Normal
       (setHours host
          (setDate host ref
             (Num.add (getDate host ref)
                (daysToAdd (indexOf dayNames name) (getDay host ref))))
          (Num 9) (Some (Num 0)) (Some (Num 0)) (Some (Num 0))), w).
Proof.
  intros H. simpl in H.
  repeat (destruct H as [<- | H]; [ reflexivity | ]).
  contradiction.
Qed.

Lemma weekday_index_range name :
  In name weekdayNames -> 0 <= indexOf dayNames name <= 6.
Proof.
  intros H. simpl in H.
  repeat (destruct H as [<- | H]; [ vm_compute; split; discriminate | ]).
  contradiction.
Qed.

(** The code's day delta, [dayOfWeek - currentDay] plus 7 when not positive,
    is the difference modulo 7 with 0 replaced by 7. *)
Lemma daysToAdd_mod target current :
  0 <= target <= 6 -> 0 <= current <= 6 ->
  let delta := (target - current) mod 7 in
  daysToAdd target (Num current)
  = Num (if delta <=? 0 then delta + 7 else delta).
Proof.
  intros Ht Hc delta. unfold daysToAdd. simpl.
  subst delta.
  destruct (target - current <=? 0) eqn:E1;
    destruct ((target - current) mod 7 <=? 0) eqn:E2;
    rewrite ?Z.leb_le, ?Z.leb_gt in *; f_equal;
    Z.div_mod_to_equations; lia.
Qed.

Lemma Day_add_days t k : Day (t + k * msPerDay) = Day t + k.
Proof. unfold Day. apply Z.div_add. discriminate. Qed.


End ResolverFacts.

(** ** The compound rule *)

Section CompoundFacts.

Context (host : Host).

Import JSString TimeValue TimeFacts RegExp.

Lemma alt_In ps s p r : alt ps s = Some (p, r) -> In p ps.
Proof.
  induction ps as [|q ps IH]; simpl; [ discriminate | ].
  destruct (lit q s).
  - intros [= <- _]. now left.
  - intros H. right. now apply IH.
Qed.

Lemma search_Some {A : Type} (m : string -> option A) s a :
  search m s = Some a -> exists s', m s' = Some a.
Proof.
  induction s as [|c s IH]; simpl.
  - destruct (m EmptyString) eqn:E; intros [= <-]. now exists EmptyString.
  - destruct (m (String c s)) eqn:E.
    + intros [= <-]. now exists (String c s).
    + exact IH.
Qed.

Lemma dateTimeMatch_groups l g :
  dateTimeMatch l = Some g ->
  In (datePart g) ("today" :: "tomorrow" :: weekdayNames)
  /\ match meridiem g with
     | Some ap => In ap ["am"; "pm"]
     | None => True
     end.
Proof.
  intros H. apply search_Some in H. destruct H as [s H].
  unfold dateTime_at in H.
  destruct (alt ("today" :: "tomorrow" :: weekdayNames) s) as [[d s1]|] eqn:E;
    [ | discriminate ].
  apply alt_In in E.
  destruct (spaces1 s1) as [s2|]; [ | discriminate ].
  destruct (lit "at" s2) as [s3|]; [ | discriminate ].
  destruct (spaces1 s3) as [s4|]; [ | discriminate ].
  destruct (digits1 s4) as [[h s5]|]; [ | discriminate ].
  destruct (match litExact ":" s5 with
            | Some s' => match digits1 s' with
                         | Some (m, s'') => (Some m, s'')
                         | None => (None, s5)
                         end
            | None => (None, s5)
            end) as [m s6].
  destruct (alt ["am"; "pm"] (spaces s6)) as [[a s7]|] eqn:Ea;
    injection H as <-; (split; [ exact E | ]).
  - now apply alt_In in Ea.
  - exact I.
Qed.

Lemma compoundAnchor_valid dateName r :
  In dateName ("today" :: "tomorrow" :: weekdayNames) ->
  Z.abs r <= maxTime - 9 * msPerDay ->
  exists a, Z.abs a <= maxTime - msPerDay
            /\ compoundAnchor host dateName (mkDate (Num r)) = mkDate (Num a).
Proof.
  intros Hd Hr.
  destruct Hd as [<- | [<- | Hd]].
  - exists r. split; [ unfold maxTime, msPerDay in *; lia | reflexivity ].
  - exists (r + 1 * msPerDay).
    split; [ unfold maxTime, msPerDay in *; lia | ].
    unfold compoundAnchor. cbn [String.eqb Ascii.eqb Bool.eqb].
    rewrite setDate_getDate.
    now rewrite TimeClip_in_range by (unfold maxTime, msPerDay in *; lia).
  - pose proof (weekday_index_range dateName Hd) as Hi.
    pose proof (WeekDay_range (LocalTime host r)) as Hc.
    set (delta :=
           (indexOf dayNames dateName - WeekDay (LocalTime host r)) mod 7).
    set (k := if delta <=? 0 then delta + 7 else delta).
    assert (Hk : 1 <= k <= 7).
    { subst k delta.
      destruct ((indexOf dayNames dateName - WeekDay (LocalTime host r)) mod 7
                <=? 0) eqn:E;
        rewrite ?Z.leb_le, ?Z.leb_gt in E; Z.div_mod_to_equations; lia. }
    exists (r + k * msPerDay).
    split; [ unfold maxTime, msPerDay in *; lia | ].
    assert (Hc' : compoundAnchor host dateName (mkDate (Num r))
                  = setDate host (mkDate (Num r))
                      (Num.add (getDate host (mkDate (Num r)))
                         (daysToAdd (indexOf dayNames dateName)
                            (getDay host (mkDate (Num r)))))).
    { simpl in Hd.
      repeat (destruct Hd as [<- | Hd]; [ reflexivity | ]). contradiction. }
    rewrite Hc'. unfold getDay, localField. cbn [getTime].
    rewrite daysToAdd_mod by assumption. fold delta k.
    rewrite setDate_getDate.
    now rewrite TimeClip_in_range by (unfold maxTime, msPerDay in *; lia).
Qed.

(** What [parseDateTime] does once the compound pattern has matched. *)
Lemma parseDateTime_compound s g reference w :
  compoundRule s = Some g ->
  let isPM := match meridiem g with
              | Some ap => (ap =? "pm")%string
              | None => false
              end in
  let minute := match minutePart g with
                | Some m => parseInt m
                | None => 0
                end in
  In (datePart g) ("today" :: "tomorrow" :: weekdayNames)
  /\ parseDateTime host s (Some reference) w
     = (Normal
          (setHours host (compoundAnchor host (datePart g) reference)
             (Num (adjustHour isPM (parseInt (hourPart g))))
             (Some (Num minute)) (Some (Num 0)) (Some (Num 0))), w).
Proof.
  unfold compoundRule, parseDateTime. intros H.
  destruct (ISO_DATE_REGEX_test s); [ discriminate | ].
  set (l := trim (toLowerCase s)) in *.
  cbn [orb] in H. unfold bind, ret.
  destruct (l =? "now")%string; [ discriminate | ].
  destruct (l =? "today")%string; [ discriminate | ].
  destruct (l =? "tomorrow")%string; [ discriminate | ].
  cbn [orb] in H |- *.
  destruct (l =? "next week")%string; [ discriminate | ].
  destruct (hoursLaterMatch l); [ discriminate | ].
  destruct (daysLaterMatch l); [ discriminate | ].
  destruct (dayOfWeekMatch l); [ discriminate | ].
  rewrite H.
  destruct (dateTimeMatch_groups l g H) as [Hd Hm].
  split; [ exact Hd | ].
  assert (Hlow : toLowerCase (datePart g) = datePart g).
  { simpl in Hd.
    repeat (destruct Hd as [<- | Hd]; [ reflexivity | ]). contradiction. }
  assert (Hap : match meridiem g with
                | Some ap => (toLowerCase ap =? "pm")%string
                | None => false
                end
                = match meridiem g with
                  | Some ap => (ap =? "pm")%string
                  | None => false
                  end).
  { destruct (meridiem g) as [ap|]; [ | reflexivity ].
    destruct Hm as [<- | [<- | []]]; reflexivity. }
  rewrite Hlow, Hap. destruct reference as [tv]. reflexivity.
Qed.

(** The two adjustments of the hour, by cases on the meridiem. *)
Lemma adjustHour_cases isPM hour :
  adjustHour isPM hour
  = if isPM then (if hour <? 12 then hour + 12 else hour)
    else (if hour =? 12 then 0 else hour).
Proof. unfold adjustHour. destruct isPM; reflexivity. Qed.


End CompoundFacts.

(** ** The dispatcher *)

Section DispatcherFacts.

Context (host : Host).

Import TimeValue TimeFacts.

Lemma LocalTime_UTC x : LocalTime host (UTC host x) = x.
Proof. unfold LocalTime, UTC. lia. Qed.

Lemma bind_Normal {A B : Type} (m : M A) (k : A -> M B) w a w' :
  m w = (Normal a, w') -> bind m k w = k a w'.
Proof. intros H. unfold bind. now rewrite H. Qed.

Lemma bind_Throw {A B : Type} (m : M A) (k : A -> M B) w e w' :
  m w = (Throw e, w') -> bind m k w = (Throw e, w').
Proof. intros H. unfold bind. now rewrite H. Qed.

Lemma parse_ok {A : Type} (s : Schema A) args v w :
  s [] args = inr v -> parse host s args w = (Normal v, w).
Proof. intros H. unfold parse. now rewrite H. Qed.

Lemma parse_issues {A : Type} (s : Schema A) args issues w :
  s [] args = inl issues ->
  parse host s args w = (Throw (mkError (zodMessage host issues)), w).
Proof. intros H. unfold parse. now rewrite H. Qed.

Lemma toISOString_valid t w :
  toISOString (mkDate (Num t)) w = (Normal (isoString t), w).
Proof. reflexivity. Qed.

(** The handler leaves the state as the dispatched case left it. *)
Lemma callTool_world name args w :
  snd (callTool host name args w) = snd (dispatch host name args w).
Proof.
  unfold callTool, tryCatch.
  now destruct (dispatch host name args w) as [[r|e] w'].
Qed.

Lemma resolve_start_example w :
  Z.abs (LocalTZA host) <= msPerDay ->
  parseDateTime host "2025-04-01T14:00:00" None w
  = (Normal (mkDate (Num (UTC host (civil 2025 4 1 14 0 0)))), w).
Proof.
  intros Hz. unfold parseDateTime. cbn [RegExp.ISO_DATE_REGEX_test].
  change (RegExp.ISO_DATE_REGEX_test "2025-04-01T14:00:00") with true.
  cbv iota. unfold ret. do 2 f_equal.
  change (Date_ofString host "2025-04-01T14:00:00")
    with (mkDate (TimeClip (UTC host (civil 2025 4 1 14 0 0)))).
  rewrite TimeClip_in_range; [ reflexivity | ].
  unfold UTC. change (civil 2025 4 1 14 0 0) with 1743516000000.
  unfold msPerDay, maxTime in *. lia.
Qed.

Lemma resolve_end_example w :
  Z.abs (LocalTZA host) <= msPerDay ->
  parseDateTime host "2 hours later"
    (Some (mkDate (Num (UTC host (civil 2025 4 1 14 0 0))))) w
  = (Normal (mkDate (Num (UTC host (civil 2025 4 1 16 0 0)))), w).
Proof.
  intros Hz.
  change (parseDateTime host "2 hours later"
            (Some (mkDate (Num (UTC host (civil 2025 4 1 14 0 0))))) w)
    with (Normal
            (setHours host (mkDate (Num (UTC host (civil 2025 4 1 14 0 0))))
               (Num.add
                  (getHours host
                     (mkDate (Num (UTC host (civil 2025 4 1 14 0 0)))))
                  (Num 2)) None None None), w).
  do 2 f_equal.
  unfold setHours, getHours, localField. cbn [getTime Num.add].
  rewrite LocalTime_UTC.
  change (MakeDate (Day (civil 2025 4 1 14 0 0))
            (MakeTime (HourFromTime (civil 2025 4 1 14 0 0) + 2)
               (MinFromTime (civil 2025 4 1 14 0 0))
               (SecFromTime (civil 2025 4 1 14 0 0))
               (msFromTime (civil 2025 4 1 14 0 0))))
    with (civil 2025 4 1 16 0 0).
  rewrite TimeClip_in_range; [ reflexivity | ].
  unfold UTC. change (civil 2025 4 1 16 0 0) with 1743523200000.
  unfold msPerDay, maxTime in *. lia.
Qed.


(** C3. In create_event, whenever the arguments validate, [start] resolves
    to a valid instant and [end], resolved with that instant as reference,
    does too, the event sent to the service carries exactly these two
    instants.  For start "2025-04-01T14:00:00" and end "2 hours later" the
    start is local 2025-04-01 14:00:00 and the end local 2025-04-01
    16:00:00, wherever the clock stands. *)
Theorem create_event_end_relative_to_start
    (args : option json) (v : CreateEvent.Args) (w w1 w2 : World)
    (ts te : Z) :
  Z.abs (LocalTZA host) <= msPerDay ->
  CreateEventSchema [] args = inr v ->
  parseDateTime host (CreateEvent.start v) None w
  = (Normal (mkDate (Num ts)), w1) ->
  parseDateTime host (CreateEvent.end_ v) (Some (mkDate (Num ts))) w1
  = (Normal (mkDate (Num te)), w2) ->
  (exists body,
      snd (callTool host "create_event" args w)
      = sent (GCal.EventsInsert (CreateEvent.calendarId v) body) w2
      /\ GCal.start body = Some (zoned (isoString ts) (DEFAULT_TIMEZONE host))
      /\ GCal.end_ body = Some (zoned (isoString te) (DEFAULT_TIMEZONE host)))
  /\ (forall w0,
        parseDateTime host "2025-04-01T14:00:00" None w0
        = (Normal (mkDate (Num (UTC host (civil 2025 4 1 14 0 0)))), w0)
        /\ parseDateTime host "2 hours later"
             (Some (mkDate (Num (UTC host (civil 2025 4 1 14 0 0))))) w0
           = (Normal (mkDate (Num (UTC host (civil 2025 4 1 16 0 0)))), w0)
        /\ exists body,
             snd (callTool host "create_event" (Some Example.createArgs) w0)
             = sent (GCal.EventsInsert "primary" body) w0
             /\ GCal.end_ body
                = Some (zoned (isoString (UTC host (civil 2025 4 1 16 0 0)))
                          (DEFAULT_TIMEZONE host))).
Proof.
  intros Hz.
  assert (G : forall args v w w1 w2 ts te,
             CreateEventSchema [] args = inr v ->
             parseDateTime host (CreateEvent.start v) None w
             = (Normal (mkDate (Num ts)), w1) ->
             parseDateTime host (CreateEvent.end_ v)
               (Some (mkDate (Num ts))) w1
             = (Normal (mkDate (Num te)), w2) ->
             exists body,
               snd (callTool host "create_event" args w)
               = sent (GCal.EventsInsert (CreateEvent.calendarId v) body) w2
               /\ GCal.start body
                  = Some (zoned (isoString ts) (DEFAULT_TIMEZONE host))
               /\ GCal.end_ body
                  = Some (zoned (isoString te) (DEFAULT_TIMEZONE host))).
  { clear. intros args v w w1 w2 ts te Hv Hs He.
    rewrite callTool_world.
    change (dispatch host "create_event" args) with (create_event host args).
    unfold create_event.
    rewrite (bind_Normal _ _ _ _ _ (parse_ok _ _ _ _ Hv)).
    rewrite (bind_Normal _ _ _ _ _ Hs).
    rewrite (bind_Normal _ _ _ _ _ He).
    rewrite (bind_Normal _ _ _ _ _ (toISOString_valid ts w2)).
    rewrite (bind_Normal _ _ _ _ _ (toISOString_valid te w2)).
    unfold bind, calendar_events_insert.
    eexists. split.
    - destruct (events_insert host _ _ _); reflexivity.
    - split; reflexivity. }
  intros Hv Hs He. split; [ exact (G _ _ _ _ _ _ _ Hv Hs He) | ].
  intros w0.
  pose proof (resolve_start_example w0 Hz) as Hs0.
  pose proof (resolve_end_example w0 Hz) as He0.
  repeat split; [ exact Hs0 | exact He0 | ].
  destruct (G (Some Example.createArgs) _ w0 w0 w0 _ _ eq_refl Hs0 He0)
    as (body & Hb & _ & Hend).
  exists body. split; assumption.
Qed.


Lemma resolveTimeMax_days timeMax timeMin days w :
  resolveTimeMax host timeMax timeMin days w
  = match given timeMax with
    | Some s => parseDateTime host s (Some timeMin) w
    | None =>
        (Normal (mkDate match getTime timeMin with
                        | Num t => TimeClip (t + days * msPerDay)
                        | NaN => NaN
                        end), w)
    end.
Proof.
  unfold resolveTimeMax. destruct (given timeMax); [ reflexivity | ].
  destruct timeMin as [[|t]]; [ reflexivity | ].
  unfold ret, Date_copy. cbn [getTime]. now rewrite setDate_getDate.
Qed.

(** The two handlers compute the window of the specification. *)
Lemma window_steps timeMin timeMax days w a b w' {A : Type}
    (k : Date -> Date -> M A) :
  timeWindow host timeMin timeMax days w = (Normal (a, b), w') ->
  bind (Date_now host)
    (fun now =>
       bind (resolveTimeMin host timeMin now)
         (fun tmin =>
            bind (resolveTimeMax host timeMax tmin days)
              (fun tmax => k tmin tmax))) w
  = k a b w'.
Proof.
  unfold timeWindow, bind, resolveTimeMin. 
  destruct (Date_now host w) as [[now|e] w1]; [ | discriminate ].
  destruct (match given timeMin with
            | Some s => parseDateTime host s None
            | None => ret now
            end w1) as [[tmin|e] w2]; [ | discriminate ].
  rewrite resolveTimeMax_days.
  destruct (given timeMax) as [s|].
  - destruct (parseDateTime host s (Some tmin) w2) as [[tmax|e] w3];
      [ | discriminate ].
    unfold ret. now intros [= <- <- <-].
  - unfold ret. now intros [= <- <- <-].
Qed.



Ltac run_handler H :=
  unfold bind, ret, throw in H;
  repeat match type of H with
         | context [match ?x with _ => _ end] =>
             match type of x with
             | (Completion _ * World)%type => destruct x as [[?|?] ?]
             | bool => destruct x
             end
         end;
  try discriminate.

Lemma dispatch_text name args w r w' :
  dispatch host name args w = (Normal r, w') -> exists s, r = textResult s.
Proof.
  unfold dispatch.
  repeat match goal with
         | |- context [if ?b then _ else _] => destruct b
         end;
    intros H.
  - unfold create_event in H. run_handler H.
    injection H as <- _. eexists; reflexivity.
  - unfold get_event in H. run_handler H.
    injection H as <- _. eexists; reflexivity.
  - unfold update_event in H. run_handler H.
    injection H as <- _. eexists; reflexivity.
  - unfold delete_event in H. run_handler H.
    injection H as <- _. eexists; reflexivity.
  - unfold list_events in H. run_handler H;
    injection H as <- _; eexists; reflexivity.
  - unfold search_events in H. run_handler H;
    injection H as <- _; eexists; reflexivity.
  - unfold list_calendars in H. run_handler H;
    injection H as <- _; eexists; reflexivity.
  - discriminate.
Qed.


Lemma unknown_tool name args w :
  ~ In name toolNames ->
  dispatch host name args w = (Throw (mkError ("Unknown tool: " ++ name)), w).
Proof.
  intros H. unfold dispatch.
  repeat match goal with
         | |- context [(name =? ?t)%string] =>
             destruct (String.eqb_spec name t) as [E|_];
             [ exfalso; apply H; rewrite E; simpl; tauto | ]
         end.
  reflexivity.
Qed.


Lemma given_blank o : blank o <-> given o = None.
Proof.
  unfold blank, given. split.
  - intros [-> | ->]; reflexivity.
  - destruct o as [s|]; [ | now left ].
    destruct s; [ now right | discriminate ].
Qed.

Lemma attendeesOf_none o : noAttendees o <-> attendeesOf o = None.
Proof.
  unfold noAttendees, attendeesOf. split.
  - intros [-> | ->]; reflexivity.
  - destruct o as [[|x l]|]; [ now right | discriminate | now left ].
Qed.

Lemma given_idem o : given (given o) = given o.
Proof.
  destruct o as [s|]; [ | reflexivity ].
  unfold given. destruct (JSString.truthy s) eqn:E; [ | reflexivity ].
  now rewrite E.
Qed.

Lemma updatedEvent_omitBlank v currentEvent w :
  updatedEvent host (omitBlank v) currentEvent w
  = updatedEvent host v currentEvent w.
Proof.
  unfold updatedEvent, updatedStart, updatedEnd, referenceTime, omitBlank.
  cbn [UpdateEvent.summary UpdateEvent.description UpdateEvent.location
       UpdateEvent.start UpdateEvent.end_ UpdateEvent.attendees].
  rewrite !given_idem.
  now destruct (UpdateEvent.attendees v) as [[|x l]|].
Qed.


Lemma updatedStart_none v currentEvent w o w1 :
  updatedStart host v currentEvent w = (Normal o, w1) ->
  (o = None <-> given (UpdateEvent.start v) = None).
Proof.
  unfold updatedStart. destruct (given (UpdateEvent.start v)) as [s|].
  - intros H. run_handler H. injection H as <- _. split; discriminate.
  - unfold ret. intros [= <- _]. tauto.
Qed.

Lemma updatedEnd_none v currentEvent w o w1 :
  updatedEnd host v currentEvent w = (Normal o, w1) ->
  (o = None <-> given (UpdateEvent.end_ v) = None).
Proof.
  unfold updatedEnd. destruct (given (UpdateEvent.end_ v)) as [s|].
  - intros H. run_handler H. injection H as <- _. split; discriminate.
  - unfold ret. intros [= <- _]. tauto.
Qed.

(** C10. Whenever update_event builds its patch body: summary, description
    and location are in the body exactly when supplied and not empty,
    attendees exactly when supplied and not the empty list, start and end
    exactly when supplied and not empty; the body has no other field; it is
    the body that the same call without the blank fields builds; a stored
    event patched with it keeps every field that was blank or is not one of
    these six; and it is the body the handler sends. *)
Theorem update_event_omits_blank_fields
    (v : UpdateEvent.Args) (currentEvent : GCal.Event) (w w' : World)
    (body : GCal.Event) :
  updatedEvent host v currentEvent w = (Normal body, w') ->
  (GCal.summary body = given (UpdateEvent.summary v)
   /\ GCal.description body = given (UpdateEvent.description v)
   /\ GCal.location body = given (UpdateEvent.location v)
   /\ GCal.attendees body = attendeesOf (UpdateEvent.attendees v))
  /\ ((blank (UpdateEvent.summary v) <-> GCal.summary body = None)
      /\ (blank (UpdateEvent.description v) <-> GCal.description body = None)
      /\ (blank (UpdateEvent.location v) <-> GCal.location body = None)
      /\ (noAttendees (UpdateEvent.attendees v)
          <-> GCal.attendees body = None)
      /\ (blank (UpdateEvent.start v) <-> GCal.start body = None)
      /\ (blank (UpdateEvent.end_ v) <-> GCal.end_ body = None))
  /\ (GCal.id body = None /\ GCal.reminders body = None
      /\ GCal.htmlLink body = None /\ GCal.created body = None)
  /\ updatedEvent host (omitBlank v) currentEvent w = (Normal body, w')
  /\ (forall stored,
        let after := GCal.applyPatch body stored in
        (blank (UpdateEvent.summary v)
         -> GCal.summary after = GCal.summary stored)
        /\ (blank (UpdateEvent.description v)
            -> GCal.description after = GCal.description stored)
        /\ (blank (UpdateEvent.location v)
            -> GCal.location after = GCal.location stored)
        /\ (noAttendees (UpdateEvent.attendees v)
            -> GCal.attendees after = GCal.attendees stored)
        /\ (blank (UpdateEvent.start v)
            -> GCal.start after = GCal.start stored)
        /\ (blank (UpdateEvent.end_ v)
            -> GCal.end_ after = GCal.end_ stored)
        /\ GCal.id after = GCal.id stored
        /\ GCal.reminders after = GCal.reminders stored
        /\ GCal.htmlLink after = GCal.htmlLink stored
        /\ GCal.created after = GCal.created stored)
  /\ (forall args w0,
        UpdateEventSchema [] args = inr v ->
        events_get host (calls w0) (UpdateEvent.calendarId v)
          (UpdateEvent.eventId v) = Normal currentEvent ->
        w = sent (GCal.EventsGet (UpdateEvent.calendarId v)
                    (UpdateEvent.eventId v)) w0 ->
        snd (callTool host "update_event" args w0)
        = sent (GCal.EventsPatch (UpdateEvent.calendarId v)
                  (UpdateEvent.eventId v) body) w').
Proof.
  intros H.
  assert (Hfields :
            GCal.summary body = given (UpdateEvent.summary v)
            /\ GCal.description body = given (UpdateEvent.description v)
            /\ GCal.location body = given (UpdateEvent.location v)
            /\ GCal.attendees body = attendeesOf (UpdateEvent.attendees v)
            /\ (GCal.start body = None <-> given (UpdateEvent.start v) = None)
            /\ (GCal.end_ body = None <-> given (UpdateEvent.end_ v) = None)
            /\ GCal.id body = None /\ GCal.reminders body = None
            /\ GCal.htmlLink body = None /\ GCal.created body = None).
  { pose proof H as H0. unfold updatedEvent, bind in H0.
    destruct (updatedStart host v currentEvent w) as [[st|e] w1] eqn:Es;
      [ | discriminate ].
    destruct (updatedEnd host v currentEvent w1) as [[en|e] w2] eqn:Ee;
      [ | discriminate ].
    unfold ret in H0. injection H0 as <- _. cbn.
    pose proof (updatedStart_none _ _ _ _ _ Es).
    pose proof (updatedEnd_none _ _ _ _ _ Ee).
    tauto. }
  destruct Hfields as (Hs & Hd & Hl & Ha & Hst & Hen & Hid & Hr & Hh & Hc).
  split; [ tauto | ].
  split.
  { rewrite Hs, Hd, Hl, Ha, !given_blank, attendeesOf_none. tauto. }
  split; [ tauto | ].
  split; [ now rewrite updatedEvent_omitBlank | ].
  split.
  { intros stored after. subst after. unfold GCal.applyPatch. cbn.
    rewrite Hs, Hd, Hl, Ha, Hid, Hr, Hh, Hc, !given_blank, attendeesOf_none.
    repeat split; try reflexivity; intros E;
      try (rewrite E; reflexivity).
    - apply Hst in E. now rewrite E.
    - apply Hen in E. now rewrite E. }
  intros args w0 Hv Hget ->.
  rewrite callTool_world.
  change (dispatch host "update_event" args) with (update_event host args).
  unfold update_event.
  rewrite (bind_Normal _ _ _ _ _ (parse_ok _ _ _ _ Hv)).
  unfold bind at 1. unfold calendar_events_get at 1. rewrite Hget.
  rewrite (bind_Normal _ _ _ _ _ H).
  unfold bind, calendar_events_patch.
  now destruct (events_patch host _ _ _ _).
Qed.


Lemma updatedStart_some v currentEvent w st ts w1 :
  given (UpdateEvent.start v) = Some st ->
  parseDateTime host st None w = (Normal (mkDate (Num ts)), w1) ->
  updatedStart host v currentEvent w
  = (Normal (Some (zoned (isoString ts)
                     (zoneOr host (GCal.start currentEvent)))), w1).
Proof.
  intros Hg Hp. unfold updatedStart. rewrite Hg.
  now rewrite (bind_Normal _ _ _ _ _ Hp).
Qed.

Lemma updatedEnd_some v currentEvent w en ref w1 te w2 :
  given (UpdateEvent.end_ v) = Some en ->
  referenceTime host v currentEvent w = (Normal ref, w1) ->
  parseDateTime host en (Some ref) w1 = (Normal (mkDate (Num te)), w2) ->
  updatedEnd host v currentEvent w
  = (Normal (Some (zoned (isoString te)
                     (zoneOr host (GCal.end_ currentEvent)))), w2).
Proof.
  intros Hg Hr Hp. unfold updatedEnd. rewrite Hg.
  rewrite (bind_Normal _ _ _ _ _ Hr).
  now rewrite (bind_Normal _ _ _ _ _ Hp).
Qed.

Lemma updatedEvent_fields v currentEvent w st w1 en w2 :
  updatedStart host v currentEvent w = (Normal st, w1) ->
  updatedEnd host v currentEvent w1 = (Normal en, w2) ->
  exists body,
    updatedEvent host v currentEvent w = (Normal body, w2)
    /\ GCal.start body = st /\ GCal.end_ body = en.
Proof.
  intros Hs He. unfold updatedEvent.
  rewrite (bind_Normal _ _ _ _ _ Hs), (bind_Normal _ _ _ _ _ He).
  eexists. split; [ reflexivity | split; reflexivity ].
Qed.

(** C2, restated for the code as written.  In update_event, where a start
    or end given as the empty string counts as not supplied: (1) when both
    start and end are supplied and resolving start a second time returns the
    same instant, end is resolved against that instant, and both go into the
    patch; (2) when only end is supplied and the stored start has a
    non-empty [dateTime], end is resolved against that stored timestamp;
    (3) when only end is supplied and the stored event has no start, or a
    start without [dateTime] (an all-day event), end is resolved against the
    current instant; (4) when only start is supplied and the stored start
    has a non-empty zone, the patched start carries that zone. *)
Theorem update_event_time_references
    (v : UpdateEvent.Args) (currentEvent : GCal.Event) (w : World) :
  (forall st en ts te w1 w2 w3,
      given (UpdateEvent.start v) = Some st ->
      given (UpdateEvent.end_ v) = Some en ->
      parseDateTime host st None w = (Normal (mkDate (Num ts)), w1) ->
      parseDateTime host st None w1 = (Normal (mkDate (Num ts)), w2) ->
      parseDateTime host en (Some (mkDate (Num ts))) w2
      = (Normal (mkDate (Num te)), w3) ->
      exists body,
        updatedEvent host v currentEvent w = (Normal body, w3)
        /\ GCal.start body
           = Some (zoned (isoString ts)
                     (zoneOr host (GCal.start currentEvent)))
        /\ GCal.end_ body
           = Some (zoned (isoString te)
                     (zoneOr host (GCal.end_ currentEvent))))
  /\ (forall en t s te w2,
        given (UpdateEvent.start v) = None ->
        given (UpdateEvent.end_ v) = Some en ->
        GCal.start currentEvent = Some t ->
        given (GCal.dateTime t) = Some s ->
        parseDateTime host en (Some (Date_ofString host s)) w
        = (Normal (mkDate (Num te)), w2) ->
        exists body,
          updatedEvent host v currentEvent w = (Normal body, w2)
          /\ GCal.start body = None
          /\ GCal.end_ body
             = Some (zoned (isoString te)
                       (zoneOr host (GCal.end_ currentEvent))))
  /\ (forall en te w2,
        given (UpdateEvent.start v) = None ->
        given (UpdateEvent.end_ v) = Some en ->
        (GCal.start currentEvent = None
         \/ exists t, GCal.start currentEvent = Some t
                      /\ given (GCal.dateTime t) = None) ->
        parseDateTime host en (Some (currentInstant host w)) (tick w)
        = (Normal (mkDate (Num te)), w2) ->
        exists body,
          updatedEvent host v currentEvent w = (Normal body, w2)
          /\ GCal.start body = None
          /\ GCal.end_ body
             = Some (zoned (isoString te)
                       (zoneOr host (GCal.end_ currentEvent))))
  /\ (forall st ts w1 t zone,
        given (UpdateEvent.start v) = Some st ->
        given (UpdateEvent.end_ v) = None ->
        parseDateTime host st None w = (Normal (mkDate (Num ts)), w1) ->
        GCal.start currentEvent = Some t ->
        given (GCal.timeZone t) = Some zone ->
        exists body,
          updatedEvent host v currentEvent w = (Normal body, w1)
          /\ GCal.start body = Some (zoned (isoString ts) zone)
          /\ GCal.end_ body = None).
Proof.
  repeat split.
  - intros st en ts te w1 w2 w3 Hst Hen H1 H2 H3.
    apply (updatedEvent_fields _ _ _ _ w1).
    + now apply updatedStart_some with (st := st).
    + apply updatedEnd_some with (en := en) (ref := mkDate (Num ts)) (w1 := w2);
        try assumption.
      unfold referenceTime. now rewrite Hst.
  - intros en t s te w2 Hst Hen Ht Hs H.
    apply (updatedEvent_fields _ _ _ _ w).
    + unfold updatedStart. now rewrite Hst.
    + apply updatedEnd_some with (en := en) (ref := Date_ofString host s)
                                 (w1 := w); try assumption.
      unfold referenceTime. now rewrite Hst, Ht, Hs.
  - intros en te w2 Hst Hen Hcur H.
    apply (updatedEvent_fields _ _ _ _ w).
    + unfold updatedStart. now rewrite Hst.
    + apply updatedEnd_some with (en := en) (ref := currentInstant host w)
                                 (w1 := tick w); try assumption.
      unfold referenceTime. rewrite Hst.
      destruct Hcur as [-> | (t & -> & ->)]; reflexivity.
  - intros st ts w1 t zone Hst Hen H Ht Hz.
    apply (updatedEvent_fields _ _ _ _ w1).
    + rewrite (updatedStart_some _ _ _ _ _ _ Hst H).
      unfold zoneOr, orDefault. rewrite Ht.
      unfold given in Hz.
      destruct (GCal.timeZone t) as [z|]; [ | discriminate ].
      destruct (JSString.truthy z); [ | discriminate ].
      now injection Hz as ->.
    + unfold updatedEnd. now rewrite Hen.
Qed.

End DispatcherFacts.

(** C2 as stated fails on an all-day event: the stored event has a start,
    and yet an [end] supplied alone is resolved against the current instant,
    not against the stored start. *)
Lemma update_end_of_all_day_event_uses_now :
  let host := Example.host Example.storedAllDay in
  storedStart Example.storedAllDay = Some "2025-04-01"
  /\ given (UpdateEvent.start Example.onlyEnd) = None
  /\ referenceTime host Example.onlyEnd Example.storedAllDay initialWorld
     = (Normal (currentInstant host initialWorld), tick initialWorld)
  /\ referenceTime host Example.onlyEnd Example.storedAllDay initialWorld
     <> storedStartReference host Example.storedAllDay initialWorld.
Proof.
  repeat split. discriminate.
Qed.


(** C7, at [maxResults = -1]: three listed events match "sync", and the
    search reports two of them, more than [maxResults]. *)
Theorem search_negative_maxResults :
  let host := Example.host Example.storedTimed in
  let args := Some (JObj [("query", JStr "sync"); ("maxResults", JNum (-1))]) in
  exists v,
    SearchEventsSchema [] args = inr v
    /\ SearchEvents.maxResults v = -1
    /\ reportedCount v Example.listed = 2
    /\ exists rest,
         fst (callTool host "search_events" args initialWorld)
         = Normal (textResult ("Found 2 events matching " ++ rest)).
Proof.
  eexists. split; [ reflexivity | ].
  split; [ reflexivity | ]. split; [ reflexivity | ].
  eexists. vm_compute. reflexivity.
Qed.


(** ** More on search_events *)

Section SearchFacts.

Context (host : Host).

Import JSString.

(** The request of search_events asks for at most 100 candidates, whatever
    [maxResults] the caller gave. *)
Lemma search_events_fetches_100 args v w a b w' :
  SearchEventsSchema [] args = inr v ->
  timeWindow host (SearchEvents.timeMin v) (SearchEvents.timeMax v) 30 w
  = (Normal (mkDate (Num a), mkDate (Num b)), w') ->
  snd (callTool host "search_events" args w)
  = sent (GCal.EventsList
            {| GCal.calendarId := SearchEvents.calendarId v;
               GCal.timeMin := isoString a;
               GCal.timeMax := isoString b;
               GCal.maxResults := 100;
               GCal.orderBy := None;
               GCal.singleEvents := true |}) w'.
Proof.
  intros Hv Hw. rewrite callTool_world.
  change (dispatch host "search_events" args) with (search_events host args).
  unfold search_events.
  rewrite (bind_Normal _ _ _ _ _ (parse_ok host _ _ _ _ Hv)).
  rewrite (window_steps host _ _ _ _ _ _ _ _ Hw).
  rewrite (bind_Normal _ _ _ _ _ (toISOString_valid a w')).
  rewrite (bind_Normal _ _ _ _ _ (toISOString_valid b w')).
  unfold bind, calendar_events_list.
  destruct (events_list host _ _) as [r|e]; [ | reflexivity ].
  now destruct (length' (searchResults v (items r)) =? 0).
Qed.

Lemma In_firstn {A : Type} (n : nat) (l : list A) x :
  In x (firstn n l) -> In x l.
Proof.
  revert l. induction n as [|n IH]; intros [|y l]; simpl; try tauto.
  intros [-> | H]; [ now left | right; now apply IH ].
Qed.

(** The events kept are among the candidates that contain the lower-cased
    query in their lower-cased summary, description or location. *)
Lemma searchResults_match v events e :
  In e (searchResults v events) ->
  In e events /\ matchesQuery (toLowerCase (SearchEvents.query v)) e = true.
Proof.
  unfold searchResults, slice0. intros H.
  apply In_firstn in H. now apply filter_In in H.
Qed.

(** With a large enough [maxResults], every such candidate is kept. *)
Lemma searchResults_all v events :
  length' events <= SearchEvents.maxResults v ->
  searchResults v events
  = filter (matchesQuery (toLowerCase (SearchEvents.query v))) events.
Proof.
  unfold searchResults, slice0, length'. intros H.
  set (l := filter _ events).
  assert (Hl : (List.length l <= List.length events)%nat)
    by apply filter_length_le.
  destruct (SearchEvents.maxResults v <? 0) eqn:E;
    [ apply Z.ltb_lt in E; lia | ].
  apply firstn_all2. lia.
Qed.

(** With a non-negative [maxResults], at most that many events are
    reported. *)
Lemma reportedCount_bound v events :
  0 <= SearchEvents.maxResults v ->
  reportedCount v events <= SearchEvents.maxResults v.
Proof.
  unfold reportedCount, searchResults, slice0, length'. intros H.
  set (l := filter _ events).
  destruct (SearchEvents.maxResults v <? 0) eqn:E;
    [ apply Z.ltb_lt in E; lia | ].
  rewrite length_firstn. lia.
Qed.

Lemma team_sync_matches start :
  matchesQuery (toLowerCase "sync") (Example.event "Team Sync" start) = true.
Proof. reflexivity. Qed.

End SearchFacts.

(** The start expression of update_event is resolved twice.  With start
    "now" and a clock that advances between the readings, the patched start
    is the second reading, and the end is an hour after the fourth. *)
Lemma update_event_resolves_start_twice :
  let host := Example.host Example.storedTimed in
  exists body w',
    updatedEvent host Example.startNowEndLater Example.storedTimed
      initialWorld = (Normal body, w')
    /\ GCal.start body
       = Some (zoned "2025-03-10T10:00:00.001Z" "America/New_York")
    /\ GCal.end_ body = Some (zoned "2025-03-10T11:00:00.003Z" "Europe/Paris").
Proof.
  eexists. eexists. split; [ vm_compute; reflexivity | ].
  split; reflexivity.
Qed.

(** ** The statements at concrete inputs

    In the sample environment local time is two hours ahead of UTC; the
    reference 1743516000000 is 2025-04-01T14:00:00Z, a Tuesday, 16:00 local
    time. *)

Lemma iso_resolves_to_direct_parse_witness :
  RegExp.ISO_DATE_REGEX_test "2025-04-01T14:00:00" = true
  /\ forall referenceDate w,
       parseDateTime (Example.host Example.storedTimed)
         "2025-04-01T14:00:00" referenceDate w
       = (Normal (mkDate (Num 1743508800000)), w).
Proof.
  split; [ reflexivity | ].
  exact (proj1 (iso_resolves_to_direct_parse
                  (Example.host Example.storedTimed)
                  "2025-04-01T14:00:00" eq_refl)).
Defined.



Lemma create_event_end_relative_to_start_witness :
  let host := Example.host Example.storedTimed in
  Z.abs (LocalTZA host) <= TimeValue.msPerDay
  /\ parseDateTime host "2025-04-01T14:00:00" None initialWorld
     = (Normal (mkDate (Num 1743508800000)), initialWorld)
  /\ parseDateTime host "2 hours later" (Some (mkDate (Num 1743508800000)))
       initialWorld
     = (Normal (mkDate (Num 1743516000000)), initialWorld)
  /\ exists body,
       snd (callTool host "create_event" (Some Example.createArgs)
              initialWorld)
       = sent (GCal.EventsInsert "primary" body) initialWorld
       /\ GCal.start body
          = Some (zoned "2025-04-01T12:00:00.000Z" "Europe/Paris")
       /\ GCal.end_ body
          = Some (zoned "2025-04-01T14:00:00.000Z" "Europe/Paris").
Proof.
  intros host.
  assert (Hz : Z.abs (LocalTZA host) <= TimeValue.msPerDay)
    by (vm_compute; discriminate).
  assert (Hs : parseDateTime host "2025-04-01T14:00:00" None initialWorld
               = (Normal (mkDate (Num 1743508800000)), initialWorld))
    by reflexivity.
  assert (He : parseDateTime host "2 hours later"
                 (Some (mkDate (Num 1743508800000))) initialWorld
               = (Normal (mkDate (Num 1743516000000)), initialWorld))
    by reflexivity.
  repeat split; try assumption.
  exact (proj1 (create_event_end_relative_to_start host
                  (Some Example.createArgs) _ initialWorld initialWorld
                  initialWorld 1743508800000 1743516000000 Hz eq_refl Hs He)).
Defined.



Lemma update_event_omits_blank_fields_witness :
  let host := Example.host Example.storedTimed in
  exists body w',
    updatedEvent host Example.onlyStart Example.storedTimed initialWorld
    = (Normal body, w')
    /\ GCal.summary body = None
    /\ GCal.location body = Some "Room 4"
    /\ GCal.attendees body = None
    /\ GCal.summary (GCal.applyPatch body Example.storedTimed)
       = Some "Review".
Proof.
  intros host.
  destruct (updatedEvent host Example.onlyStart Example.storedTimed
              initialWorld) as [[body|e] w'] eqn:E;
    [ | vm_compute in E; discriminate E ].
  exists body, w'. split; [ reflexivity | ].
  destruct (update_event_omits_blank_fields host _ _ _ _ _ E)
    as ((Hs & _ & Hl & Ha) & _ & _ & _ & Hp & _).
  destruct (Hp Example.storedTimed) as (Hk & _).
  repeat split.
  - exact Hs.
  - exact Hl.
  - exact Ha.
  - exact (Hk (or_intror eq_refl)).
Defined.

Lemma update_event_time_references_witness :
  let host := Example.host Example.storedTimed in
  let hostAllDay := Example.host Example.storedAllDay in
  (given (UpdateEvent.start Example.onlyEnd) = None
   /\ given (UpdateEvent.end_ Example.onlyEnd) = Some "2 hours later"
   /\ parseDateTime host "2 hours later"
        (Some (Date_ofString host "2025-04-01T14:00:00Z")) initialWorld
      = (Normal (mkDate (Num 1743523200000)), initialWorld))
  /\ (exists body,
         updatedEvent host Example.onlyEnd Example.storedTimed initialWorld
         = (Normal body, initialWorld)
         /\ GCal.start body = None
         /\ GCal.end_ body
            = Some (zoned "2025-04-01T16:00:00.000Z" "Europe/Paris"))
  /\ (exists body,
         updatedEvent host Example.startAndEnd Example.storedTimed
           initialWorld = (Normal body, initialWorld)
         /\ GCal.start body
            = Some (zoned "2025-04-02T08:00:00.000Z" "America/New_York")
         /\ GCal.end_ body
            = Some (zoned "2025-04-02T09:00:00.000Z" "Europe/Paris"))
  /\ (exists body,
         updatedEvent hostAllDay Example.onlyEnd Example.storedAllDay
           initialWorld = (Normal body, tick initialWorld)
         /\ GCal.start body = None
         /\ GCal.end_ body
            = Some (zoned "2025-03-10T12:00:00.000Z" "Europe/Paris"))
  /\ (exists body,
         updatedEvent host Example.onlyStart Example.storedTimed initialWorld
         = (Normal body, initialWorld)
         /\ GCal.start body
            = Some (zoned "2025-04-02T08:00:00.000Z" "America/New_York")
         /\ GCal.end_ body = None).
Proof.
  intros host hostAllDay.
  assert (Hp : parseDateTime host "2 hours later"
                 (Some (Date_ofString host "2025-04-01T14:00:00Z"))
                 initialWorld
               = (Normal (mkDate (Num 1743523200000)), initialWorld))
    by reflexivity.
  destruct (update_event_time_references host Example.onlyEnd
              Example.storedTimed initialWorld) as (_ & H2 & _).
  destruct (update_event_time_references host Example.startAndEnd
              Example.storedTimed initialWorld) as (H1 & _).
  destruct (update_event_time_references hostAllDay Example.onlyEnd
              Example.storedAllDay initialWorld) as (_ & _ & H3 & _).
  destruct (update_event_time_references host Example.onlyStart
              Example.storedTimed initialWorld) as (_ & _ & _ & H4).
  split; [ repeat split; assumption | ].
  split.
  { exact (H2 "2 hours later" _ "2025-04-01T14:00:00Z" 1743523200000
              initialWorld eq_refl eq_refl eq_refl eq_refl Hp). }
  split.
  { exact (H1 "2025-04-02T10:00:00" "1 hour later" 1743580800000
              1743584400000 initialWorld initialWorld initialWorld
              eq_refl eq_refl eq_refl eq_refl eq_refl). }
  split.
  { exact (H3 "2 hours later" 1741608000000 (tick initialWorld)
              eq_refl eq_refl
              (or_intror (ex_intro _ _ (conj eq_refl eq_refl))) eq_refl). }
  exact (H4 "2025-04-02T10:00:00" 1743580800000 initialWorld _
            "America/New_York" eq_refl eq_refl eq_refl eq_refl eq_refl).
Defined.

(** * Further properties *)

(** ** Characters and strings *)

Module StringFacts.
Import JSString.

Lemma digit_chars c :
  isDigit c = true ->
  isWhiteSpace c = false /\ lowerChar c = c.
Proof.
  destruct c as [[] [] [] [] [] [] [] []]; try discriminate;
    intros _; split; reflexivity.
Qed.

Lemma toLowerCase_app a b :
  toLowerCase (a ++ b) = toLowerCase a ++ toLowerCase b.
Proof. induction a as [|c a IH]; simpl; [ reflexivity | now rewrite IH ]. Qed.

Lemma toLowerCase_digits ds : allDigits ds = true -> toLowerCase ds = ds.
Proof.
  induction ds as [|c ds IH]; simpl; [ reflexivity | ].
  intros H. apply andb_prop in H. destruct H as [Hc Hd].
  now rewrite (proj2 (digit_chars c Hc)), IH.
Qed.

Lemma trimEnd_digits ds t :
  allDigits ds = true -> trimEnd (ds ++ t) = ds ++ trimEnd t.
Proof.
  induction ds as [|c ds IH]; simpl; [ reflexivity | ].
  intros H. apply andb_prop in H. destruct H as [Hc Hd].
  now rewrite (proj1 (digit_chars c Hc)), IH.
Qed.

Lemma lowerChar_idem c : lowerChar (lowerChar c) = lowerChar c.
Proof. destruct c as [[] [] [] [] [] [] [] []]; reflexivity. Qed.

Lemma toLowerCase_idem s : toLowerCase (toLowerCase s) = toLowerCase s.
Proof.
  induction s as [|c s IH]; simpl; [ reflexivity | ].
  now rewrite lowerChar_idem, IH.
Qed.

Lemma prefix_toLowerCase p s :
  prefix p s = true -> prefix (toLowerCase p) (toLowerCase s) = true.
Proof.
  revert s. induction p as [|c p IH]; intros [|d s]; simpl; try easy.
  destruct (ascii_dec c d) as [->|n]; [ | discriminate ].
  intros H. destruct (ascii_dec (lowerChar d) (lowerChar d)); [ | easy ].
  now apply IH.
Qed.

Lemma includes_toLowerCase hay needle :
  includes hay needle = true ->
  includes (toLowerCase hay) (toLowerCase needle) = true.
Proof.
  induction hay as [|c hay IH]; simpl.
  - rewrite orb_false_r. intros H.
    apply (prefix_toLowerCase needle EmptyString) in H.
    simpl in H. now rewrite H.
  - intros H. apply orb_true_iff in H. destruct H as [H | H].
    + apply (prefix_toLowerCase needle (String c hay)) in H.
      simpl in H. now rewrite H.
    + rewrite (IH H). apply orb_true_r.
Qed.

Lemma includes_empty hay : includes hay EmptyString = true.
Proof. destruct hay; reflexivity. Qed.

End StringFacts.

(** ** More on the resolver *)

Section ResolverRules.

Context (host : Host).

Import JSString TimeValue TimeFacts RegExp StringFacts.

(** A string accepted by the strict ISO pattern starts with a digit, also
    after lower-casing and trimming. *)
Lemma ISO_lowerString_digit s :
  ISO_DATE_REGEX_test s = true ->
  exists c r, lowerString s = String c r /\ isDigit c = true.
Proof.
  unfold ISO_DATE_REGEX_test. destruct s as [|c s]; [ discriminate | ].
  cbn [digitsN]. destruct (isDigit c) eqn:Hc; [ intros _ | discriminate ].
  destruct (digit_chars c Hc) as [Hw Hl].
  unfold lowerString, trim. cbn [toLowerCase trimStart].
  rewrite Hl, Hw. cbn [trimEnd]. rewrite Hw. cbn [andb].
  now eexists; eexists.
Qed.

Lemma not_ISO_of_lowerString s l :
  lowerString s = l ->
  match l with
  | String c _ => isDigit c = false
  | EmptyString => True
  end ->
  ISO_DATE_REGEX_test s = false.
Proof.
  intros Hl Hc. destruct (ISO_DATE_REGEX_test s) eqn:E; [ | reflexivity ].
  destruct (ISO_lowerString_digit s E) as (c & r & Hs & Hd).
  subst l. rewrite Hs in Hc. congruence.
Qed.

(** X1. "now" and "today", in any letter case and with surrounding white
    space, resolve to the instant the clock shows, whatever the reference;
    no other part of the date is taken from the reference. *)
Theorem now_and_today_read_the_clock (s : string) (w : World) :
  lowerString s = "now" \/ lowerString s = "today" ->
  (forall reference,
      parseDateTime host s (Some reference) w
      = (Normal (currentInstant host w), tick w))
  /\ parseDateTime host s None w
     = (Normal (currentInstant host (tick w)), tick (tick w)).
Proof.
  intros H.
  assert (Hiso : ISO_DATE_REGEX_test s = false).
  { destruct H as [H | H]; apply (not_ISO_of_lowerString s _ H); reflexivity. }
  unfold parseDateTime. rewrite Hiso. fold (lowerString s).
  split; [ intros reference | ];
    destruct H as [-> | ->]; reflexivity.
Qed.


(** [d.setHours(d.getHours() + n)] moves a valid date by [n] hours and keeps
    its minutes, seconds and milliseconds. *)
Lemma setHours_getHours t n :
  setHours host (mkDate (Num t))
    (Num.add (getHours host (mkDate (Num t))) (Num n)) None None None
  = mkDate (TimeClip (t + n * msPerHour)).
Proof.
  unfold setHours, getHours, localField. cbn [getTime Num.add].
  do 2 f_equal. unfold UTC, LocalTime.
  set (lt := t + LocalTZA host).
  assert (E : MakeDate (Day lt)
                (MakeTime (HourFromTime lt + n) (MinFromTime lt)
                   (SecFromTime lt) (msFromTime lt))
              = lt + n * msPerHour).
  { unfold MakeDate, MakeTime, Day, HourFromTime, MinFromTime, SecFromTime,
      msFromTime, msPerDay, msPerHour, msPerMinute, msPerSecond.
    Z.div_mod_to_equations. lia. }
  rewrite E. subst lt. lia.
Qed.

Lemma search_here {A : Type} (m : string -> option A) s a :
  m s = Some a -> search m s = Some a.
Proof. intros H. destruct s; simpl; now rewrite H. Qed.

Lemma digits_app ds t :
  allDigits ds = true ->
  match t with
  | String c _ => isDigit c = false
  | EmptyString => True
  end ->
  digits (ds ++ t) = (ds, t).
Proof.
  intros Hd Ht. induction ds as [|c ds IH]; simpl.
  - destruct t as [|c t]; [ reflexivity | ]. simpl. now rewrite Ht.
  - simpl in Hd. apply andb_prop in Hd. destruct Hd as [Hc Hd].
    now rewrite Hc, (IH Hd).
Qed.

Lemma ISO_rejects_digits_then ds c t :
  allDigits ds = true ->
  isDigit c = false -> Ascii.eqb c "-" = false ->
  ISO_DATE_REGEX_test (ds ++ String c t) = false.
Proof.
  unfold ISO_DATE_REGEX_test. intros H Hc Hm.
  destruct ds as [|a [|b [|x [|d [|e ds]]]]];
    cbn [allDigits append digitsN] in *;
    repeat match type of H with
           | (_ && _)%bool = true =>
               let Hx := fresh "Hx" in
               apply andb_prop in H; destruct H as [Hx H]; rewrite ?Hx
           end;
    rewrite ?Hc; try reflexivity.
  - cbn [litExact]. now rewrite Hm.
  - cbn [litExact].
    destruct e as [[] [] [] [] [] [] [] []]; try discriminate; reflexivity.
Qed.

Lemma lowerString_digits ds t :
  allDigits ds = true -> ds <> EmptyString ->
  lowerString (ds ++ t) = ds ++ trimEnd (toLowerCase t).
Proof.
  intros Hd Hn. unfold lowerString, trim.
  rewrite toLowerCase_app, (toLowerCase_digits ds Hd).
  destruct ds as [|c ds]; [ contradiction | ].
  simpl in Hd. apply andb_prop in Hd. destruct Hd as [Hc Hd].
  cbn [append trimStart]. rewrite (proj1 (digit_chars c Hc)).
  change (String c (ds ++ toLowerCase t))
    with (String c ds ++ toLowerCase t).
  apply trimEnd_digits. simpl. now rewrite Hc, Hd.
Qed.

Lemma first_digit_not_keyword ds t :
  allDigits ds = true -> ds <> EmptyString ->
  ((ds ++ t =? "now") || (ds ++ t =? "today")
   || (ds ++ t =? "tomorrow") || (ds ++ t =? "next week"))%string = false.
Proof.
  intros Hd Hn. destruct ds as [|c ds]; [ contradiction | ].
  simpl in Hd. apply andb_prop in Hd. destruct Hd as [Hc _].
  cbn [append String.eqb].
  destruct c as [[] [] [] [] [] [] [] []]; try discriminate; reflexivity.
Qed.


Lemma later_search_digits unit ds t :
  allDigits ds = true ->
  match t with
  | String c _ => isDigit c = false
  | EmptyString => True
  end ->
  lit unit (spaces t) = None ->
  search (later_at unit) t = None ->
  search (later_at unit) (ds ++ t) = None.
Proof.
  intros Hd Ht Hu Hs. induction ds as [|c ds IH]; [ exact Hs | ].
  assert (Hm : later_at unit (String c ds ++ t) = None).
  { unfold later_at, digits1. rewrite digits_app by assumption.
    cbn [String.eqb]. now rewrite Hu. }
  cbn [append search] in *. rewrite Hm.
  simpl in Hd. apply andb_prop in Hd. now apply IH.
Qed.


(** X5. the only way [parseDateTime] fails is its final [throw]: the
    message is "Unable to parse date/time: " followed by the string as given
    (not lower-cased or trimmed), the string is not strict ISO, none of the
    patterns matches its lower-cased, trimmed form, and [new Date] of it is
    invalid. *)
Theorem parseDateTime_fails_only_unparsable
    (s : string) (referenceDate : option Date) (w w' : World) (e : Error) :
  parseDateTime host s referenceDate w = (Throw e, w') ->
  message e = "Unable to parse date/time: " ++ s
  /\ ISO_DATE_REGEX_test s = false
  /\ hoursLaterMatch (lowerString s) = None
  /\ daysLaterMatch (lowerString s) = None
  /\ dayOfWeekMatch (lowerString s) = None
  /\ dateTimeMatch (lowerString s) = None
  /\ getTime (Date_ofString host s) = NaN.
Proof.
  unfold parseDateTime. fold (lowerString s).
  destruct (ISO_DATE_REGEX_test s); [ discriminate | ].
  unfold bind.
  destruct (match referenceDate with
            | Some d => ret d
            | None => Date_now host
            end w) as [[reference|x] w1] eqn:Er.
  2:{ destruct referenceDate; discriminate. }
  destruct ((lowerString s =? "now")%string
            || (lowerString s =? "today")%string); [ discriminate | ].
  destruct (lowerString s =? "tomorrow")%string; [ discriminate | ].
  destruct (hoursLaterMatch (lowerString s)); [ discriminate | ].
  destruct (daysLaterMatch (lowerString s)); [ discriminate | ].
  destruct (lowerString s =? "next week")%string; [ discriminate | ].
  destruct (dayOfWeekMatch (lowerString s)); [ discriminate | ].
  destruct (dateTimeMatch (lowerString s)); [ discriminate | ].
  destruct (getTime (Date_ofString host s)) eqn:Ed; cbn [Num.isNaN negb].
  - unfold throw. intros [= <- _]. repeat split; reflexivity.
  - discriminate.
Qed.

(** X6. resolving a time expression never sends a request to the calendar
    service and reads the clock at most twice; with a reference, an
    expression other than "now" and "today" does not read the clock at
    all, and neither does a strict ISO expression. *)
Theorem parseDateTime_effects
    (s : string) (referenceDate : option Date) (w : World) :
  let w' := snd (parseDateTime host s referenceDate w) in
  calls w' = calls w
  /\ (reads w <= reads w' <= reads w + 2)%nat
  /\ (ISO_DATE_REGEX_test s = true -> w' = w)
  /\ (referenceDate <> None ->
      lowerString s <> "now" -> lowerString s <> "today" -> w' = w).
Proof.
  unfold parseDateTime. fold (lowerString s).
  destruct (ISO_DATE_REGEX_test s).
  { cbn. repeat split; lia || reflexivity. }
  unfold bind.
  assert (Hr : exists reference w1,
             match referenceDate with
             | Some d => ret d
             | None => Date_now host
             end w = (Normal reference, w1)
             /\ calls w1 = calls w
             /\ (reads w <= reads w1 <= reads w + 1)%nat
             /\ (referenceDate <> None -> w1 = w)).
  { destruct referenceDate as [d|].
    - exists d, w. cbn. repeat split; lia || reflexivity.
    - eexists; eexists. split; [ reflexivity | ]. cbn.
      repeat split; try lia. intros H; now contradiction H. }
  destruct Hr as (reference & w1 & -> & Hc & Hn & Hw).
  destruct (String.eqb_spec (lowerString s) "now") as [En|En].
  { cbn. repeat split; try lia; try discriminate; try assumption.
    intros _ H. now contradiction H. }
  destruct (String.eqb_spec (lowerString s) "today") as [Et|Et].
  { cbn. repeat split; try lia; try discriminate; try assumption.
    intros _ _ H. now contradiction H. }
  cbn [orb].
  assert (G : forall r : Completion Date,
             let w' := snd (r, w1) in
             calls w' = calls w
             /\ (reads w <= reads w' <= reads w + 2)%nat
             /\ (false = true -> w' = w)
             /\ (referenceDate <> None ->
                 lowerString s <> "now" -> lowerString s <> "today" ->
                 w' = w)).
  { intros r. cbn. repeat split; try lia; try discriminate; try assumption.
    intros H _ _. now apply Hw. }
  destruct (lowerString s =? "tomorrow")%string; [ apply G | ].
  destruct (hoursLaterMatch (lowerString s)); [ apply G | ].
  destruct (daysLaterMatch (lowerString s)); [ apply G | ].
  destruct (lowerString s =? "next week")%string; [ apply G | ].
  destruct (dayOfWeekMatch (lowerString s)); [ apply G | ].
  destruct (dateTimeMatch (lowerString s)); [ apply G | ].
  destruct (negb (Num.isNaN (getTime (Date_ofString host s)))); apply G.
Qed.

Lemma compoundAnchor_shift dateName r :
  In dateName ("today" :: "tomorrow" :: weekdayNames) ->
  Z.abs r <= maxTime - 9 * msPerDay ->
  let shift := dayShift dateName (WeekDay (LocalTime host r)) in
  compoundAnchor host dateName (mkDate (Num r))
  = mkDate (Num (r + shift * msPerDay))
  /\ 0 <= shift <= 7
  /\ (In dateName weekdayNames ->
      1 <= shift
      /\ (Day (LocalTime host r) + shift + 4) mod 7
         = indexOf dayNames dateName
      /\ (WeekDay (LocalTime host r) = indexOf dayNames dateName ->
          shift = 7)).
Proof.
  intros Hd Hr shift.
  destruct Hd as [<- | [<- | Hd]].
  - split; [ | split; [ cbn; lia | ] ].
    + cbn. do 2 f_equal. lia.
    + intros H. simpl in H.
      repeat (destruct H as [H | H]; [ discriminate H | ]). contradiction.
  - split; [ | split; [ cbn; lia | ] ].
    + unfold compoundAnchor. cbn [String.eqb Ascii.eqb Bool.eqb].
      rewrite setDate_getDate.
      now rewrite TimeClip_in_range by (unfold maxTime, msPerDay in *; lia).
    + intros H. simpl in H.
      repeat (destruct H as [H | H]; [ discriminate H | ]). contradiction.
  - pose proof (weekday_index_range dateName Hd) as Hi.
    pose proof (WeekDay_range (LocalTime host r)) as Hc.
    assert (Hs : shift
                 = let d := indexOf dayNames dateName
                            - WeekDay (LocalTime host r) in
                   if d <=? 0 then d + 7 else d).
    { subst shift. unfold dayShift. simpl in Hd.
      repeat (destruct Hd as [<- | Hd]; [ reflexivity | ]). contradiction. }
    cbv zeta in Hs.
    assert (Hk : 1 <= shift <= 7).
    { rewrite Hs.
      destruct (indexOf dayNames dateName - WeekDay (LocalTime host r) <=? 0)
        eqn:E; rewrite ?Z.leb_le, ?Z.leb_gt in E; lia. }
    assert (Hc' : compoundAnchor host dateName (mkDate (Num r))
                  = setDate host (mkDate (Num r))
                      (Num.add (getDate host (mkDate (Num r)))
                         (daysToAdd (indexOf dayNames dateName)
                            (getDay host (mkDate (Num r)))))).
    { simpl in Hd.
      repeat (destruct Hd as [<- | Hd]; [ reflexivity | ]). contradiction. }
    split; [ | split; [ lia | intros _; split; [ lia | split ] ] ].
    + rewrite Hc'. unfold getDay, localField, daysToAdd.
      cbn [getTime Num.sub Num.leb Num.add].
      assert (E : (if indexOf dayNames dateName
                      - WeekDay (LocalTime host r) <=? 0
                   then Num (indexOf dayNames dateName
                             - WeekDay (LocalTime host r) + 7)
                   else Num (indexOf dayNames dateName
                             - WeekDay (LocalTime host r))) = Num shift).
      { rewrite Hs. now destruct (_ <=? 0). }
      rewrite E, setDate_getDate.
      now rewrite TimeClip_in_range by (unfold maxTime, msPerDay in *; lia).
    + rewrite Hs. unfold WeekDay in *.
      destruct (indexOf dayNames dateName
                - (Day (LocalTime host r) + 4) mod 7 <=? 0) eqn:E;
        rewrite ?Z.leb_le, ?Z.leb_gt in E; Z.div_mod_to_equations; lia.
    + intros E. rewrite Hs, E, Z.sub_diag. reflexivity.
Qed.


End ResolverRules.

(** ** [formatDateTime] *)

Section FormatFacts.

Context (host : Host).

Import JSString RegExp.

Lemma digitsN_app n acc s v r t :
  digitsN n acc s = Some (v, r) -> digitsN n acc (s ++ t) = Some (v, r ++ t).
Proof.
  revert acc s. induction n as [|n IH]; intros acc s; simpl.
  - now intros [= <- <-].
  - destruct s as [|c s]; [ discriminate | ]. simpl.
    destruct (isDigit c); [ apply IH | discriminate ].
Qed.

Lemma digitsN_length n acc s v r :
  digitsN n acc s = Some (v, r) ->
  String.length s = (n + String.length r)%nat.
Proof.
  revert acc s. induction n as [|n IH]; intros acc s; simpl.
  - now intros [= _ <-].
  - destruct s as [|c s]; [ discriminate | ]. simpl.
    destruct (isDigit c); [ | discriminate ].
    intros H. now rewrite (IH _ _ H).
Qed.

Lemma litExact_dash s r :
  litExact "-" s = Some r -> s = String "-" r.
Proof.
  destruct s as [|c s]; simpl; [ discriminate | ].
  destruct (Ascii.eqb_spec c "-"); [ | discriminate ].
  subst c. now intros [= <-].
Qed.

(** A ten-character string in the date-time string format is a date alone;
    followed by "T00:00:00" it reads as the same date at local midnight. *)
Lemma parse_date_at_midnight d f :
  DateString.parse d = Some f -> String.length d = 10%nat ->
  DateString.parse (d ++ "T00:00:00")
  = Some {| DateString.year := DateString.year f;
            DateString.month := DateString.month f;
            DateString.day := DateString.day f;
            DateString.hour := 0; DateString.minute := 0;
            DateString.second := 0; DateString.millisecond := 0;
            DateString.zone := DateString.LocalZone |}
  /\ DateString.zone f = DateString.utcZone.
Proof.
  unfold DateString.parse. intros H Hlen.
  destruct (digitsN 4 0 d) as [[y s1]|] eqn:E1; [ | discriminate ].
  destruct (litExact "-" s1) as [s2|] eqn:E2; [ | discriminate ].
  destruct (digitsN 2 0 s2) as [[mo s3]|] eqn:E3; [ | discriminate ].
  destruct (litExact "-" s3) as [s4|] eqn:E4; [ | discriminate ].
  destruct (digitsN 2 0 s4) as [[dd s5]|] eqn:E5; [ | discriminate ].
  apply litExact_dash in E2, E4.
  pose proof (digitsN_length _ _ _ _ _ E1) as L1.
  pose proof (digitsN_length _ _ _ _ _ E3) as L3.
  pose proof (digitsN_length _ _ _ _ _ E5) as L5.
  subst s1 s3. simpl in L1, L3.
  assert (s5 = EmptyString) as ->
    by (destruct s5; [ reflexivity | simpl in L5; lia ]).
  cbn [atEnd String.eqb] in H. injection H as <-.
  rewrite (digitsN_app _ _ _ _ _ "T00:00:00" E1). cbn [append litExact].
  cbn [Ascii.eqb Bool.eqb].
  rewrite (digitsN_app _ _ _ _ _ "T00:00:00" E3). cbn [append litExact].
  cbn [Ascii.eqb Bool.eqb].
  rewrite (digitsN_app _ _ _ _ _ "T00:00:00" E5).
  split; reflexivity.
Qed.

(** X8. an all-day calendar time (a [date] of the form YYYY-MM-DD with
    month and day within bounds) is rendered from the instant at which that
    date begins in local time, whatever the local offset from UTC, followed
    by " (All day)"; a [dateTime] that is also present is ignored. *)
Theorem formatDateTime_all_day (t : GCal.EventDateTime) (d : string)
    (f : DateString.Fields) :
  GCal.date t = Some d ->
  String.length d = 10%nat ->
  DateString.parse d = Some f ->
  DateString.inBounds f = true ->
  let midnight :=
    civil (DateString.year f) (DateString.month f) (DateString.day f) 0 0 0 in
  formatDateTime host (CalendarTime t)
  = toLocaleDateStringLong host
      (mkDate (TimeValue.TimeClip (UTC host midnight))) ++ " (All day)"
  /\ LocalTime host (UTC host midnight) = midnight
  /\ TimeValue.TimeWithinDay midnight = 0.
Proof.
  intros Hd Hlen Hp Hb midnight.
  destruct (parse_date_at_midnight d f Hp Hlen) as [Hm Hz].
  assert (Ht : truthy d = true) by (destruct d; [ discriminate | reflexivity ]).
  split; [ | split ].
  - unfold formatDateTime, truthyField. rewrite Hd, Ht, orb_true_r.
    unfold Date_ofString. rewrite Hm. do 3 f_equal.
    unfold isoValue. 
    assert (Hb' : DateString.inBounds
                    {| DateString.year := DateString.year f;
                       DateString.month := DateString.month f;
                       DateString.day := DateString.day f;
                       DateString.hour := 0; DateString.minute := 0;
                       DateString.second := 0; DateString.millisecond := 0;
                       DateString.zone := DateString.LocalZone |} = true).
    { unfold DateString.inBounds in *. cbn.
      apply andb_prop in Hb. destruct Hb as [Hb _].
      apply andb_prop in Hb. destruct Hb as [Hb _].
      rewrite Hb. reflexivity. }
    rewrite Hb'. reflexivity.
  - unfold LocalTime, UTC. lia.
  - subst midnight. unfold civil, TimeValue.TimeWithinDay, TimeValue.MakeDate,
      TimeValue.MakeTime, TimeValue.msPerDay.
    rewrite !Z.mul_0_l, !Z.add_0_r. apply Z.mod_mul. discriminate.
Qed.

End FormatFacts.

(** ** What a tool call sends *)

Section RequestFacts.

Context (host : Host).

Lemma parse_world {A : Type} (s : Schema A) args w :
  snd (parse host s args w) = w.
Proof. unfold parse. now destruct (s [] args). Qed.

Lemma parseDateTime_calls s referenceDate w :
  calls (snd (parseDateTime host s referenceDate w)) = calls w.
Proof.
  unfold parseDateTime. destruct (RegExp.ISO_DATE_REGEX_test s);
    [ reflexivity | ].
  unfold bind.
  destruct referenceDate as [d|]; cbn [ret Date_now];
    repeat match goal with
           | |- context [if ?b then _ else _] => destruct b
           | |- context [match ?x with Some _ => _ | None => _ end] =>
               destruct x
           end; reflexivity.
Qed.

Lemma toISOString_world d w : snd (toISOString d w) = w.
Proof. unfold toISOString. now destruct (getTime d). Qed.

Lemma resolveTimeMin_calls o now w :
  calls (snd (resolveTimeMin host o now w)) = calls w.
Proof.
  unfold resolveTimeMin. destruct (given o); [ | reflexivity ].
  apply parseDateTime_calls.
Qed.

Lemma resolveTimeMax_calls o tmin days w :
  calls (snd (resolveTimeMax host o tmin days w)) = calls w.
Proof.
  unfold resolveTimeMax. destruct (given o); [ | reflexivity ].
  apply parseDateTime_calls.
Qed.

Lemma quiet_ret {A : Type} (a : A) : quiet (ret a).
Proof. intros w. reflexivity. Qed.

Lemma quiet_throw {A : Type} msg : quiet (@throw A msg).
Proof. intros w. reflexivity. Qed.

Lemma quiet_bind {A B : Type} (m : M A) (k : A -> M B) :
  quiet m -> (forall a, quiet (k a)) -> quiet (bind m k).
Proof.
  intros Hm Hk w. unfold bind. specialize (Hm w).
  destruct (m w) as [[a|e] w1]; cbn [snd] in *.
  - now rewrite Hk.
  - exact Hm.
Qed.

Lemma quiet_parse {A : Type} (s : Schema A) args : quiet (parse host s args).
Proof. intros w. now rewrite parse_world. Qed.

Lemma quiet_parseDateTime s referenceDate :
  quiet (parseDateTime host s referenceDate).
Proof. intros w. apply parseDateTime_calls. Qed.

Lemma quiet_toISOString d : quiet (toISOString d).
Proof. intros w. now rewrite toISOString_world. Qed.

Lemma quiet_Date_now : quiet (Date_now host).
Proof. intros w. reflexivity. Qed.

Lemma quiet_resolveTimeMin o now : quiet (resolveTimeMin host o now).
Proof.
  unfold resolveTimeMin. destruct (given o);
    [ apply quiet_parseDateTime | apply quiet_ret ].
Qed.

Lemma quiet_resolveTimeMax o tmin days :
  quiet (resolveTimeMax host o tmin days).
Proof.
  unfold resolveTimeMax. destruct (given o);
    [ apply quiet_parseDateTime | apply quiet_ret ].
Qed.

Lemma quiet_updatedEvent v cur : quiet (updatedEvent host v cur).
Proof.
  unfold updatedEvent, updatedStart, updatedEnd, referenceTime.
  apply quiet_bind.
  - destruct (given (UpdateEvent.start v)); [ | apply quiet_ret ].
    apply quiet_bind; [ apply quiet_parseDateTime | intros d ].
    apply quiet_bind; [ apply quiet_toISOString | intros i; apply quiet_ret ].
  - intros st. apply quiet_bind; [ | intros en; apply quiet_ret ].
    destruct (given (UpdateEvent.end_ v)); [ | apply quiet_ret ].
    apply quiet_bind.
    + destruct (given (UpdateEvent.start v));
        [ apply quiet_parseDateTime | ].
      destruct (GCal.start cur) as [t|]; [ | apply quiet_Date_now ].
      destruct (given (GCal.dateTime t));
        [ apply quiet_ret | apply quiet_Date_now ].
    + intros r. apply quiet_bind; [ apply quiet_parseDateTime | intros d ].
      apply quiet_bind; [ apply quiet_toISOString | intros i ].
      apply quiet_ret.
Qed.

Lemma sends_quiet {A : Type} (m : M A) (P : list GCal.Call -> Prop) :
  quiet m -> P [] -> sends m P.
Proof.
  intros Hm HP w. exists []. split; [ | exact HP ].
  now rewrite Hm, app_nil_r.
Qed.

Lemma sends_bind_quiet {A B : Type} (m : M A) (k : A -> M B) P :
  quiet m -> P [] -> (forall a, sends (k a) P) -> sends (bind m k) P.
Proof.
  intros Hm HP Hk w. unfold bind. specialize (Hm w).
  destruct (m w) as [[a|e] w1]; cbn [snd] in *.
  - destruct (Hk a w1) as (l & Hl & Pl). exists l. now rewrite Hl, Hm.
  - exists []. now rewrite Hm, app_nil_r.
Qed.

(** A request followed by steps that send nothing. *)
Lemma sends_request {A B : Type} (m : M A) (k : A -> M B) c :
  (forall w, snd (m w) = sent c w) ->
  (forall a, quiet (k a)) ->
  sends (bind m k) (fun l => l = [c]).
Proof.
  intros Hm Hk w. unfold bind. specialize (Hm w).
  destruct (m w) as [[a|e] w1]; cbn [snd] in *; subst w1.
  - exists [c]. split; [ now rewrite Hk | reflexivity ].
  - exists [c]. split; reflexivity.
Qed.

Lemma sends_weaken {A : Type} (m : M A) (P Q : list GCal.Call -> Prop) :
  (forall l, P l -> Q l) -> sends m P -> sends m Q.
Proof.
  intros H Hm w. destruct (Hm w) as (l & Hl & Pl). exists l. auto.
Qed.

Lemma quiet_if {A : Type} (b : bool) (m1 m2 : M A) :
  quiet m1 -> quiet m2 -> quiet (if b then m1 else m2).
Proof. now destruct b. Qed.

Lemma create_event_sends args :
  sends (create_event host args)
    (fun l => l = [] \/ exists c b, l = [GCal.EventsInsert c b]).
Proof.
  unfold create_event.
  apply sends_bind_quiet; [ apply quiet_parse | now left | intros v ].
  apply sends_bind_quiet; [ apply quiet_parseDateTime | now left | intros s ].
  apply sends_bind_quiet; [ apply quiet_parseDateTime | now left | intros e ].
  apply sends_bind_quiet; [ apply quiet_toISOString | now left | intros si ].
  apply sends_bind_quiet; [ apply quiet_toISOString | now left | intros ei ].
  eapply sends_weaken; [ | apply sends_request ].
  - intros l ->. right. eexists; eexists; reflexivity.
  - reflexivity.
  - intros r. apply quiet_ret.
Qed.

Lemma get_event_sends args :
  sends (get_event host args)
    (fun l => l = [] \/ exists c e, l = [GCal.EventsGet c e]).
Proof.
  unfold get_event.
  apply sends_bind_quiet; [ apply quiet_parse | now left | intros v ].
  eapply sends_weaken; [ | apply sends_request ].
  - intros l ->. right. eexists; eexists; reflexivity.
  - reflexivity.
  - intros r. apply quiet_ret.
Qed.

Lemma delete_event_sends args :
  sends (delete_event host args)
    (fun l => l = [] \/ exists c e, l = [GCal.EventsDelete c e]).
Proof.
  unfold delete_event.
  apply sends_bind_quiet; [ apply quiet_parse | now left | intros v ].
  eapply sends_weaken; [ | apply sends_request ].
  - intros l ->. right. eexists; eexists; reflexivity.
  - reflexivity.
  - intros r. apply quiet_ret.
Qed.

Lemma list_events_sends args :
  sends (list_events host args)
    (fun l => l = [] \/ exists p, l = [GCal.EventsList p]).
Proof.
  unfold list_events.
  apply sends_bind_quiet; [ apply quiet_parse | now left | intros v ].
  apply sends_bind_quiet; [ apply quiet_Date_now | now left | intros n ].
  apply sends_bind_quiet; [ apply quiet_resolveTimeMin | now left | intros a ].
  apply sends_bind_quiet; [ apply quiet_resolveTimeMax | now left | intros b ].
  apply sends_bind_quiet; [ apply quiet_toISOString | now left | intros si ].
  apply sends_bind_quiet; [ apply quiet_toISOString | now left | intros ei ].
  eapply sends_weaken; [ | apply sends_request ].
  - intros l ->. right. eexists; reflexivity.
  - reflexivity.
  - intros r. apply quiet_if; apply quiet_ret.
Qed.

Lemma search_events_sends args :
  sends (search_events host args)
    (fun l => l = [] \/ exists p, l = [GCal.EventsList p]).
Proof.
  unfold search_events.
  apply sends_bind_quiet; [ apply quiet_parse | now left | intros v ].
  apply sends_bind_quiet; [ apply quiet_Date_now | now left | intros n ].
  apply sends_bind_quiet; [ apply quiet_resolveTimeMin | now left | intros a ].
  apply sends_bind_quiet; [ apply quiet_resolveTimeMax | now left | intros b ].
  apply sends_bind_quiet; [ apply quiet_toISOString | now left | intros si ].
  apply sends_bind_quiet; [ apply quiet_toISOString | now left | intros ei ].
  eapply sends_weaken; [ | apply sends_request ].
  - intros l ->. right. eexists; reflexivity.
  - reflexivity.
  - intros r. apply quiet_if; apply quiet_ret.
Qed.

Lemma list_calendars_sends :
  sends (list_calendars host) (fun l => l = [GCal.CalendarListList]).
Proof.
  unfold list_calendars. apply sends_request; [ reflexivity | intros r ].
  apply quiet_if; apply quiet_ret.
Qed.

Lemma update_event_sends args :
  sends (update_event host args)
    (fun l => l = [] \/ exists c e,
                l = [GCal.EventsGet c e]
                \/ exists b,
                     l = [GCal.EventsGet c e; GCal.EventsPatch c e b]).
Proof.
  unfold update_event.
  apply sends_bind_quiet; [ apply quiet_parse | now left | intros v ].
  intros w. unfold bind at 1. unfold calendar_events_get at 1.
  destruct (events_get host (calls w) _ _) as [cur|e].
  2:{ exists [GCal.EventsGet (UpdateEvent.calendarId v)
                (UpdateEvent.eventId v)].
      split; [ reflexivity | ]. right. eexists; eexists. now left. }
  unfold bind at 1.
  pose proof (quiet_updatedEvent v cur
                (sent (GCal.EventsGet (UpdateEvent.calendarId v)
                         (UpdateEvent.eventId v)) w)) as Hq.
  destruct (updatedEvent host v cur _) as [[body|e] w1]; cbn [snd] in Hq.
  2:{ eexists. split; [ cbn [snd]; rewrite Hq; reflexivity | ].
      right. eexists; eexists. now left. }
  unfold bind, calendar_events_patch.
  exists [GCal.EventsGet (UpdateEvent.calendarId v) (UpdateEvent.eventId v);
          GCal.EventsPatch (UpdateEvent.calendarId v)
            (UpdateEvent.eventId v) body].
  split.
  - destruct (events_patch host _ _ _ _); unfold ret; cbn [snd sent calls];
      rewrite Hq; cbn [sent calls]; now rewrite <- app_assoc.
  - right. eexists; eexists. right. eexists; reflexivity.
Qed.

(** X9. the requests of one tool call.  A call sends nothing, or its own
    request once: an insert for create_event, a get for get_event, a delete
    for delete_event, a list for list_events and search_events, the calendar
    list for list_calendars (always), and for update_event a get that may be
    followed by one patch of the same event; an unknown name sends nothing.
    In particular get_event, list_events, search_events and list_calendars
    never change the calendar. *)
Theorem requests_by_tool (name : string) (args : option json) (w : World) :
  exists l,
    calls (snd (callTool host name args w)) = (calls w ++ l)%list
    /\ requestShape name l.
Proof.
  rewrite callTool_world. unfold dispatch, requestShape.
  destruct (name =? "create_event")%string; [ apply create_event_sends | ].
  destruct (name =? "get_event")%string; [ apply get_event_sends | ].
  destruct (name =? "update_event")%string; [ apply update_event_sends | ].
  destruct (name =? "delete_event")%string; [ apply delete_event_sends | ].
  destruct (name =? "list_events")%string; [ apply list_events_sends | ].
  destruct (name =? "search_events")%string; [ apply search_events_sends | ].
  destruct (name =? "list_calendars")%string; [ apply list_calendars_sends | ].
  exists []. split; [ now rewrite app_nil_r | reflexivity ].
Qed.

(** X10. arguments the tool's schema rejects have no effect: the reply is the
    validator's message as an error text, no request is sent and the clock
    is not read, for every tool that takes arguments. *)
Theorem invalid_arguments_have_no_effect name args issues w :
  schemaIssues name args = Some issues ->
  callTool host name args w
  = (Normal (textResult ("Error: " ++ zodMessage host issues)), w).
Proof.
  unfold schemaIssues, callTool, tryCatch, dispatch.
  repeat match goal with
         | |- context [(name =? ?t)%string] => destruct (name =? t)%string
         end;
    try discriminate;
    match goal with
    | |- match ?s [] args with _ => _ end = _ -> _ =>
        destruct (s [] args) as [i|v] eqn:E; [ | discriminate ];
        intros [= ->]
    end.
  all: unfold create_event, get_event, update_event, delete_event,
         list_events, search_events;
    now rewrite (bind_Throw _ _ _ _ _ (parse_issues host _ _ _ _ E)).
Qed.

End RequestFacts.

(** ** The requests of each tool *)

Section HandlerFacts.

Context (host : Host).

Import JSString StringFacts.

Lemma DEFAULT_TIMEZONE_not_empty : DEFAULT_TIMEZONE host <> EmptyString.
Proof.
  unfold DEFAULT_TIMEZONE, truthy.
  destruct (String.eqb_spec (resolvedTimeZone host) EmptyString) as [E|E];
    cbn [negb]; [ discriminate | exact E ].
Qed.

Lemma given_some o s : o = Some s -> s <> EmptyString -> given o = Some s.
Proof.
  intros -> H. unfold given, truthy.
  destruct (String.eqb_spec s EmptyString) as [E|E]; [ contradiction | ].
  reflexivity.
Qed.

(** X11. the event create_event inserts.  Whenever the arguments validate and
    both times resolve, exactly one request is sent after the earlier ones,
    an insert into the chosen calendar whose body has the title as given
    (even when empty), description and location exactly when supplied and
    not empty, one attendee per address exactly when the list is supplied
    and not empty, the reminders as given, both times in one and the same
    non-empty time zone, and none of the fields the service assigns. *)
Theorem create_event_request_body
    (args : option json) (v : CreateEvent.Args) (w w1 w2 : World)
    (ts te : Z) :
  CreateEventSchema [] args = inr v ->
  parseDateTime host (CreateEvent.start v) None w
  = (Normal (mkDate (Num ts)), w1) ->
  parseDateTime host (CreateEvent.end_ v) (Some (mkDate (Num ts))) w1
  = (Normal (mkDate (Num te)), w2) ->
  exists body zone,
    snd (callTool host "create_event" args w)
    = sent (GCal.EventsInsert (CreateEvent.calendarId v) body) w2
    /\ calls (snd (callTool host "create_event" args w))
       = (calls w ++ [GCal.EventsInsert (CreateEvent.calendarId v) body])%list
    /\ GCal.summary body = Some (CreateEvent.summary v)
    /\ (blank (CreateEvent.description v) <-> GCal.description body = None)
    /\ (forall s, CreateEvent.description v = Some s -> s <> EmptyString ->
                  GCal.description body = Some s)
    /\ (blank (CreateEvent.location v) <-> GCal.location body = None)
    /\ (forall s, CreateEvent.location v = Some s -> s <> EmptyString ->
                  GCal.location body = Some s)
    /\ (noAttendees (CreateEvent.attendees v) <-> GCal.attendees body = None)
    /\ (forall l, CreateEvent.attendees v = Some l -> l <> [] ->
                  GCal.attendees body
                  = Some (map (fun email =>
                                 {| GCal.email := Some email;
                                    GCal.responseStatus := None |}) l))
    /\ GCal.reminders body = CreateEvent.reminders v
    /\ zone <> EmptyString
    /\ GCal.start body = Some (zoned (isoString ts) zone)
    /\ GCal.end_ body = Some (zoned (isoString te) zone)
    /\ GCal.id body = None /\ GCal.htmlLink body = None
    /\ GCal.created body = None.
Proof.
  intros Hv Hs He.
  assert (Hc : calls w2 = calls w).
  { pose proof (parseDateTime_calls host (CreateEvent.start v) None w) as H1.
    pose proof (parseDateTime_calls host (CreateEvent.end_ v)
                  (Some (mkDate (Num ts))) w1) as H2.
    rewrite Hs in H1. rewrite He in H2. cbn [snd] in H1, H2. congruence. }
  rewrite callTool_world.
  change (dispatch host "create_event" args) with (create_event host args).
  unfold create_event.
  rewrite (bind_Normal _ _ _ _ _ (parse_ok host _ _ _ _ Hv)).
  rewrite (bind_Normal _ _ _ _ _ Hs), (bind_Normal _ _ _ _ _ He).
  rewrite (bind_Normal _ _ _ _ _ (toISOString_valid ts w2)).
  rewrite (bind_Normal _ _ _ _ _ (toISOString_valid te w2)).
  unfold bind, calendar_events_insert.
  eexists; exists (DEFAULT_TIMEZONE host).
  split; [ destruct (events_insert host _ _ _); reflexivity | ].
  split.
  { destruct (events_insert host _ _ _); cbn [snd ret sent calls];
      now rewrite Hc. }
  cbn [GCal.summary GCal.description GCal.location GCal.attendees
       GCal.reminders GCal.start GCal.end_ GCal.id GCal.htmlLink
       GCal.created].
  split; [ reflexivity | ].
  split; [ apply given_blank | ].
  split; [ intros s; apply given_some | ].
  split; [ apply given_blank | ].
  split; [ intros s; apply given_some | ].
  split; [ apply attendeesOf_none | ].
  split; [ intros [|x l] -> H; [ contradiction | reflexivity ] | ].
  split; [ reflexivity | ].
  split; [ apply DEFAULT_TIMEZONE_not_empty | ].
  repeat split.
Qed.

(** X12. get_event and delete_event address one event.  For an argument
    object whose eventId is a string and whose calendarId is a string or is
    missing, in which case it is "primary", each tool sends one request for
    that event of that calendar; when the service accepts the deletion the
    reply names both. *)
Theorem get_and_delete_address_the_event
    (fields : list (string * json)) (eventId calendarId : string)
    (w : World) :
  property fields "eventId" = Some (JStr eventId) ->
  property fields "calendarId" = Some (JStr calendarId)
  \/ (property fields "calendarId" = None /\ calendarId = "primary") ->
  snd (callTool host "get_event" (Some (JObj fields)) w)
  = sent (GCal.EventsGet calendarId eventId) w
  /\ snd (callTool host "delete_event" (Some (JObj fields)) w)
     = sent (GCal.EventsDelete calendarId eventId) w
  /\ (events_delete host (calls w) calendarId eventId = Normal tt ->
      fst (callTool host "delete_event" (Some (JObj fields)) w)
      = Normal (textResult
                  ("Event with ID " ++ eventId
                   ++ " has been successfully deleted from calendar "
                   ++ calendarId ++ "."))).
Proof.
  intros He Hc.
  assert (Hv : EventRefSchema [] (Some (JObj fields))
               = inr {| EventRef.eventId := eventId;
                        EventRef.calendarId := calendarId |}).
  { unfold EventRefSchema, zObject, key. cbn [app]. rewrite He.
    destruct Hc as [-> | [-> ->]]; reflexivity. }
  split; [ | split ].
  - rewrite callTool_world.
    change (dispatch host "get_event" (Some (JObj fields)))
      with (get_event host (Some (JObj fields))).
    unfold get_event, GetEventSchema.
    rewrite (bind_Normal _ _ _ _ _ (parse_ok host _ _ _ _ Hv)).
    unfold bind, calendar_events_get.
    cbn [EventRef.calendarId EventRef.eventId].
    now destruct (events_get host _ _ _).
  - rewrite callTool_world.
    change (dispatch host "delete_event" (Some (JObj fields)))
      with (delete_event host (Some (JObj fields))).
    unfold delete_event, DeleteEventSchema.
    rewrite (bind_Normal _ _ _ _ _ (parse_ok host _ _ _ _ Hv)).
    unfold bind, calendar_events_delete.
    cbn [EventRef.calendarId EventRef.eventId].
    now destruct (events_delete host _ _ _).
  - intros Hd. unfold callTool, tryCatch.
    change (dispatch host "delete_event" (Some (JObj fields)))
      with (delete_event host (Some (JObj fields))).
    unfold delete_event, DeleteEventSchema.
    rewrite (bind_Normal _ _ _ _ _ (parse_ok host _ _ _ _ Hv)).
    unfold bind, calendar_events_delete.
    cbn [EventRef.calendarId EventRef.eventId]. now rewrite Hd.
Qed.

(** X13. update_event stops at the first failure.  When the stored event
    cannot be fetched, or a supplied time cannot be resolved, the reply is
    the error text and no patch is sent: the fetch is the only request. *)
Theorem update_event_stops_on_failure
    (args : option json) (v : UpdateEvent.Args) (w : World) (e : Error) :
  UpdateEventSchema [] args = inr v ->
  let fetch :=
    GCal.EventsGet (UpdateEvent.calendarId v) (UpdateEvent.eventId v) in
  (events_get host (calls w) (UpdateEvent.calendarId v)
     (UpdateEvent.eventId v) = Throw e ->
   callTool host "update_event" args w
   = (Normal (textResult ("Error: " ++ message e)), sent fetch w))
  /\ (forall currentEvent w',
        events_get host (calls w) (UpdateEvent.calendarId v)
          (UpdateEvent.eventId v) = Normal currentEvent ->
        updatedEvent host v currentEvent (sent fetch w) = (Throw e, w') ->
        callTool host "update_event" args w
        = (Normal (textResult ("Error: " ++ message e)), w')
        /\ calls w' = (calls w ++ [fetch])%list).
Proof.
  intros Hv fetch. unfold callTool, tryCatch.
  change (dispatch host "update_event" args) with (update_event host args).
  unfold update_event.
  rewrite (bind_Normal _ _ _ _ _ (parse_ok host _ _ _ _ Hv)).
  split.
  - intros Hg. unfold bind at 1. unfold calendar_events_get. now rewrite Hg.
  - intros cur w' Hg Hu. unfold bind at 1. unfold calendar_events_get.
    rewrite Hg. fold fetch. rewrite (bind_Throw _ _ _ _ _ Hu).
    split; [ reflexivity | ].
    pose proof (quiet_updatedEvent host v cur (sent fetch w)) as Hq.
    rewrite Hu in Hq. exact Hq.
Qed.

(** X14. update_event with nothing to change.  When every optional argument
    is missing or blank, the stored event is fetched and then patched with
    the empty body, which changes no field of it; the clock is not read. *)
Theorem update_event_without_changes
    (args : option json) (v : UpdateEvent.Args) (w : World)
    (currentEvent : GCal.Event) :
  UpdateEventSchema [] args = inr v ->
  blank (UpdateEvent.summary v) -> blank (UpdateEvent.description v) ->
  blank (UpdateEvent.location v) -> blank (UpdateEvent.start v) ->
  blank (UpdateEvent.end_ v) -> noAttendees (UpdateEvent.attendees v) ->
  events_get host (calls w) (UpdateEvent.calendarId v)
    (UpdateEvent.eventId v) = Normal currentEvent ->
  snd (callTool host "update_event" args w)
  = sent (GCal.EventsPatch (UpdateEvent.calendarId v)
            (UpdateEvent.eventId v) GCal.emptyEvent)
      (sent (GCal.EventsGet (UpdateEvent.calendarId v)
               (UpdateEvent.eventId v)) w)
  /\ reads (snd (callTool host "update_event" args w)) = reads w
  /\ forall stored, GCal.applyPatch GCal.emptyEvent stored = stored.
Proof.
  intros Hv H1 H2 H3 H4 H5 H6 Hg.
  apply given_blank in H1, H2, H3, H4, H5. apply attendeesOf_none in H6.
  assert (Hu : forall w0,
             updatedEvent host v currentEvent w0
             = (Normal GCal.emptyEvent, w0)).
  { intros w0. unfold updatedEvent, updatedStart, updatedEnd.
    rewrite H1, H2, H3, H4, H5, H6. reflexivity. }
  assert (G : snd (callTool host "update_event" args w)
              = sent (GCal.EventsPatch (UpdateEvent.calendarId v)
                        (UpdateEvent.eventId v) GCal.emptyEvent)
                  (sent (GCal.EventsGet (UpdateEvent.calendarId v)
                           (UpdateEvent.eventId v)) w)).
  { rewrite callTool_world.
    change (dispatch host "update_event" args) with (update_event host args).
    unfold update_event.
    rewrite (bind_Normal _ _ _ _ _ (parse_ok host _ _ _ _ Hv)).
    unfold bind at 1. unfold calendar_events_get. rewrite Hg.
    rewrite (bind_Normal _ _ _ _ _ (Hu _)).
    unfold bind, calendar_events_patch.
    now destruct (events_patch host _ _ _ _). }
  split; [ exact G | ]. split; [ now rewrite G | ].
  now intros [].
Qed.

(** X15. the request of list_events.  For an argument object that validates,
    the one request sent asks the chosen calendar, "primary" when none is
    named, for at most [maxResults] events, 10 when not given, ordered by
    "startTime" when no order is given and by "startTime" or "updated"
    otherwise, with recurring events expanded. *)
Theorem list_events_request
    (fields : list (string * json)) (v : ListEvents.Args)
    (w w' : World) (a b : Z) :
  ListEventsSchema [] (Some (JObj fields)) = inr v ->
  timeWindow host (ListEvents.timeMin v) (ListEvents.timeMax v) 7 w
  = (Normal (mkDate (Num a), mkDate (Num b)), w') ->
  exists params,
    snd (callTool host "list_events" (Some (JObj fields)) w)
    = sent (GCal.EventsList params) w'
    /\ GCal.singleEvents params = true
    /\ (property fields "calendarId" = None ->
        GCal.calendarId params = "primary")
    /\ (forall c, property fields "calendarId" = Some (JStr c) ->
                  GCal.calendarId params = c)
    /\ (property fields "maxResults" = None -> GCal.maxResults params = 10)
    /\ (forall n, property fields "maxResults" = Some (JNum n) ->
                  GCal.maxResults params = n)
    /\ (property fields "orderBy" = None ->
        GCal.orderBy params = Some "startTime")
    /\ (GCal.orderBy params = Some "startTime"
        \/ GCal.orderBy params = Some "updated").
Proof.
  intros Hv Hw. rewrite callTool_world.
  change (dispatch host "list_events" (Some (JObj fields)))
    with (list_events host (Some (JObj fields))).
  unfold list_events.
  rewrite (bind_Normal _ _ _ _ _ (parse_ok host _ _ _ _ Hv)).
  rewrite (window_steps host _ _ _ _ _ _ _ _ Hw).
  rewrite (bind_Normal _ _ _ _ _ (toISOString_valid a w')).
  rewrite (bind_Normal _ _ _ _ _ (toISOString_valid b w')).
  unfold bind, calendar_events_list.
  eexists. split.
  { destruct (events_list host _ _) as [r|e]; [ | reflexivity ].
    now destruct (length' (items r) =? 0). }
  cbn [GCal.singleEvents GCal.calendarId GCal.maxResults GCal.orderBy].
  revert Hv. unfold ListEventsSchema, zObject, key. cbn [app].
  destruct (property fields "calendarId") as [[| | |?| |]|];
    destruct (property fields "timeMin") as [[| | |?| |]|];
    destruct (property fields "timeMax") as [[| | |?| |]|];
    destruct (property fields "maxResults") as [[| |?| | |]|];
    destruct (property fields "orderBy") as [[| | |o| |]|];
    cbn; try discriminate;
    try (destruct (String.eqb_spec o "startTime") as [->|?];
         [ | destruct (String.eqb_spec o "updated") as [->|?] ];
         cbn; try discriminate);
    intros [= <-]; cbn;
    repeat split; try discriminate; try (intros; congruence); auto.
Qed.


Lemma orDefault_empty o s : o = Some s -> orDefault o EmptyString = s.
Proof.
  intros ->. unfold orDefault, truthy.
  now destruct (String.eqb_spec s EmptyString) as [->|E].
Qed.


Lemma filter_all {A : Type} (f : A -> bool) (l : list A) :
  (forall x, f x = true) -> filter f l = l.
Proof.
  intros H. induction l as [|x l IH]; simpl; [ reflexivity | ].
  now rewrite H, IH.
Qed.

(** X17. search_events with the empty query keeps every candidate, also one
    with no title, description or location: the results are the candidates
    cut by [slice(0, maxResults)], all of them when there are no more than
    [maxResults]. *)
Theorem search_empty_query
    (v : SearchEvents.Args) (events : list GCal.Event) :
  SearchEvents.query v = EmptyString ->
  searchResults v events = slice0 events (SearchEvents.maxResults v)
  /\ (length' events <= SearchEvents.maxResults v ->
      reportedCount v events = length' events).
Proof.
  intros Hq.
  assert (G : searchResults v events
              = slice0 events (SearchEvents.maxResults v)).
  { unfold searchResults. rewrite Hq. cbn [toLowerCase].
    rewrite filter_all; [ reflexivity | ].
    intros e. unfold matchesQuery. now rewrite includes_empty. }
  split; [ exact G | ].
  intros Hm. unfold reportedCount. rewrite G. unfold slice0, length' in *.
  destruct (SearchEvents.maxResults v <? 0) eqn:E;
    [ apply Z.ltb_lt in E; lia | ].
  rewrite firstn_all2; [ reflexivity | lia ].
Qed.

End HandlerFacts.

(** ** Validation *)

Module SchemaFacts.

Lemma both_inl_l {A B : Type} (a : V A) (b : V B) i x :
  a = inl i -> In x i -> exists j, both a b = inl j /\ In x j.
Proof.
  intros -> H. destruct b as [j|y]; cbn.
  - exists (i ++ j)%list. split; [ reflexivity | ].
    apply in_or_app. now left.
  - now exists i.
Qed.

Lemma both_inl_r {A B : Type} (a : V A) (b : V B) i x :
  b = inl i -> In x i -> exists j, both a b = inl j /\ In x j.
Proof.
  intros -> H. destruct a as [j|y]; cbn.
  - exists (j ++ i)%list. split; [ reflexivity | ].
    apply in_or_app. now right.
  - now exists i.
Qed.

Lemma both_issue_l {A B : Type} (a : V A) (b : V B) x :
  (exists i, a = inl i /\ In x i) -> exists j, both a b = inl j /\ In x j.
Proof. intros (i & H & Hx). now apply (both_inl_l a b i x). Qed.

Lemma both_issue_r {A B : Type} (a : V A) (b : V B) x :
  (exists i, b = inl i /\ In x i) -> exists j, both a b = inl j /\ In x j.
Proof. intros (i & H & Hx). now apply (both_inl_r a b i x). Qed.

Lemma vmap_issue {A B : Type} (f : A -> B) (a : V A) x :
  (exists i, a = inl i /\ In x i) -> exists j, vmap f a = inl j /\ In x j.
Proof. intros (i & -> & Hx). now exists i. Qed.

Lemma required_string fields k :
  (forall s, property fields k <> Some (JStr s)) ->
  exists i, key fields [] k zString = inl i
            /\ In {| path := [k]; expected := "string" |} i.
Proof.
  intros H. unfold key, zString. cbn [app].
  exists [ {| path := [k]; expected := "string" |} ].
  split; [ | now left ].
  destruct (property fields k) as [[| | |s| |]|]; try reflexivity.
  now destruct (H s).
Qed.

Lemma issues_of {A : Type} (r : V A) x :
  (exists i, r = inl i /\ In x i) ->
  exists issues,
    match r with inl i => Some i | inr _ => None end = Some issues
    /\ In x issues.
Proof. intros (i & -> & Hx). now exists i. Qed.

Lemma not_object {A : Type}
    (shape : list (string * json) -> list string -> V A) args :
  (forall fields, args <> Some (JObj fields)) ->
  zObject shape [] args = inl [ {| path := []; expected := "object" |} ].
Proof.
  intros H. unfold zObject.
  destruct args as [[| | | | |fields]|]; try reflexivity.
  now destruct (H fields).
Qed.

End SchemaFacts.

Section ValidationFacts.

Import SchemaFacts.

(** X18. what every schema insists on.  For each tool that takes arguments,
    arguments that are missing or are not an object are rejected with the
    single issue that an object is expected; and an object in which a
    required key (summary, start and end for create_event, eventId for
    get_event, update_event and delete_event, query for search_events) is
    missing or is not a string is rejected with an issue for that key,
    whatever else it holds. *)
Theorem required_arguments (name : string) :
  (forall args,
      In name toolNames -> name <> "list_calendars" ->
      (forall fields, args <> Some (JObj fields)) ->
      schemaIssues name args
      = Some [ {| path := []; expected := "object" |} ])
  /\ (forall fields k,
        In k (requiredKeys name) ->
        (forall s, property fields k <> Some (JStr s)) ->
        exists issues,
          schemaIssues name (Some (JObj fields)) = Some issues
          /\ In {| path := [k]; expected := "string" |} issues).
Proof.
  split.
  - intros args Hn Hl Ho. unfold schemaIssues.
    destruct Hn as [<- | [<- | [<- | [<- | [<- | [<- | [<- | []]]]]]]];
      cbn [String.eqb Ascii.eqb Bool.eqb andb orb];
      try (now destruct Hl);
      unfold CreateEventSchema, GetEventSchema, DeleteEventSchema,
        EventRefSchema, UpdateEventSchema, ListEventsSchema,
        SearchEventsSchema;
      now rewrite not_object.
  - intros fields k Hk Hs. unfold requiredKeys, schemaIssues in *.
    pose proof (required_string fields k Hs) as Hr.
    destruct (name =? "create_event")%string.
    { apply issues_of. unfold CreateEventSchema, zObject.
      apply vmap_issue.
      destruct Hk as [<- | [<- | [<- | []]]].
      - now apply both_issue_l.
      - do 3 apply both_issue_r. now apply both_issue_l.
      - do 4 apply both_issue_r. now apply both_issue_l. }
    destruct (name =? "get_event")%string.
    { destruct Hk as [<- | []]. apply issues_of.
      unfold GetEventSchema, EventRefSchema, zObject.
      apply vmap_issue. now apply both_issue_l. }
    destruct (name =? "update_event")%string.
    { destruct Hk as [<- | []]. apply issues_of.
      unfold UpdateEventSchema, zObject.
      apply vmap_issue. now apply both_issue_l. }
    destruct (name =? "delete_event")%string.
    { destruct Hk as [<- | []]. apply issues_of.
      unfold DeleteEventSchema, EventRefSchema, zObject.
      apply vmap_issue. now apply both_issue_l. }
    cbn [orb] in Hk.
    destruct (String.eqb_spec name "list_events") as [->|_];
      [ now destruct Hk | ].
    destruct (name =? "search_events")%string; [ | now destruct Hk ].
    destruct Hk as [<- | []]. apply issues_of.
    unfold SearchEventsSchema, zObject.
    apply vmap_issue. now apply both_issue_l.
Qed.

End ValidationFacts.

(** ** Instances of the further properties *)

Lemma now_and_today_read_the_clock_witness :
  let host := Example.host Example.storedTimed in
  lowerString " Today " = "today"
  /\ (forall reference,
        parseDateTime host " Today " (Some reference) initialWorld
        = (Normal (mkDate (Num 1741600800000)), tick initialWorld))
  /\ parseDateTime host " Today " None initialWorld
     = (Normal (mkDate (Num 1741600800001)), tick (tick initialWorld)).
Proof.
  intros host.
  assert (H : lowerString " Today " = "today") by reflexivity.
  split; [ exact H | ].
  exact (now_and_today_read_the_clock host " Today " initialWorld
           (or_intror H)).
Defined.




Lemma parseDateTime_fails_only_unparsable_witness :
  let host := Example.host Example.storedTimed in
  let e := mkError "Unable to parse date/time: whenever" in
  parseDateTime host "whenever" None initialWorld
  = (Throw e, tick initialWorld)
  /\ message e = "Unable to parse date/time: whenever"
  /\ getTime (Date_ofString host "whenever") = NaN.
Proof.
  intros host e.
  assert (H : parseDateTime host "whenever" None initialWorld
              = (Throw e, tick initialWorld)) by reflexivity.
  split; [ exact H | ].
  pose proof (parseDateTime_fails_only_unparsable host "whenever" None
                initialWorld (tick initialWorld) e H) as G.
  split; [ exact (proj1 G) | ].
  exact (proj2 (proj2 (proj2 (proj2 (proj2 (proj2 G)))))).
Defined.

Lemma parseDateTime_effects_witness :
  let host := Example.host Example.storedTimed in
  let reference := mkDate (Num 1743516000000) in
  Some reference <> None
  /\ lowerString "3 hours later" <> "now"
  /\ lowerString "3 hours later" <> "today"
  /\ snd (parseDateTime host "3 hours later" (Some reference) initialWorld)
     = initialWorld.
Proof.
  intros host reference.
  assert (H1 : Some reference <> None) by discriminate.
  assert (H2 : lowerString "3 hours later" <> "now")
    by (vm_compute; discriminate).
  assert (H3 : lowerString "3 hours later" <> "today")
    by (vm_compute; discriminate).
  split; [ exact H1 | ]. split; [ exact H2 | ]. split; [ exact H3 | ].
  exact (proj2 (proj2 (proj2
           (parseDateTime_effects host "3 hours later" (Some reference)
              initialWorld))) H1 H2 H3).
Defined.


Lemma formatDateTime_all_day_witness :
  let host := Example.host Example.storedTimed in
  let f := {| DateString.year := 2025; DateString.month := 4;
              DateString.day := 1; DateString.hour := 0;
              DateString.minute := 0; DateString.second := 0;
              DateString.millisecond := 0;
              DateString.zone := DateString.Offset 1 0 0 |} in
  String.length "2025-04-01" = 10%nat
  /\ DateString.parse "2025-04-01" = Some f
  /\ DateString.inBounds f = true
  /\ formatDateTime host (CalendarTime (Example.allDay "2025-04-01"))
     = toLocaleDateStringLong host (mkDate (Num 1743458400000))
       ++ " (All day)".
Proof.
  intros host f.
  assert (Hl : String.length "2025-04-01" = 10%nat) by reflexivity.
  assert (Hp : DateString.parse "2025-04-01" = Some f) by reflexivity.
  assert (Hb : DateString.inBounds f = true) by reflexivity.
  split; [ exact Hl | ]. split; [ exact Hp | ]. split; [ exact Hb | ].
  exact (proj1 (formatDateTime_all_day host (Example.allDay "2025-04-01")
                  "2025-04-01" f eq_refl Hl Hp Hb)).
Defined.

Lemma invalid_arguments_have_no_effect_witness :
  let host := Example.host Example.storedTimed in
  let args := Some (JObj [("eventId", JNum 3)]) in
  let issues := [ {| path := ["eventId"]; expected := "string" |} ] in
  schemaIssues "get_event" args = Some issues
  /\ callTool host "get_event" args initialWorld
     = (Normal (textResult "Error: Invalid arguments"), initialWorld).
Proof.
  intros host args issues.
  assert (H : schemaIssues "get_event" args = Some issues) by reflexivity.
  split; [ exact H | ].
  exact (invalid_arguments_have_no_effect host "get_event" args issues
           initialWorld H).
Defined.

Lemma required_arguments_witness :
  let fields := [("summary", JStr "Planning"); ("start", JNum 9)] in
  In "start" (requiredKeys "create_event")
  /\ (forall s, property fields "start" <> Some (JStr s))
  /\ exists issues,
       schemaIssues "create_event" (Some (JObj fields)) = Some issues
       /\ In {| path := ["start"]; expected := "string" |} issues.
Proof.
  intros fields.
  assert (Hk : In "start" (requiredKeys "create_event"))
    by (right; left; reflexivity).
  assert (Hs : forall s, property fields "start" <> Some (JStr s))
    by (intros s; discriminate).
  split; [ exact Hk | ]. split; [ exact Hs | ].
  exact (proj2 (required_arguments "create_event") fields "start" Hk Hs).
Defined.

Lemma create_event_request_body_witness :
  let host := Example.host Example.storedTimed in
  let args :=
    Some (JObj [("summary", JStr "Planning");
                ("description", JStr EmptyString);
                ("location", JStr "Room 4");
                ("start", JStr "2025-04-01T14:00:00");
                ("end", JStr "2 hours later");
                ("attendees", JArr [JStr "ana@example.org"])]) in
  let v :=
    {| CreateEvent.summary := "Planning";
       CreateEvent.description := Some EmptyString;
       CreateEvent.location := Some "Room 4";
       CreateEvent.start := "2025-04-01T14:00:00";
       CreateEvent.end_ := "2 hours later";
       CreateEvent.attendees := Some ["ana@example.org"];
       CreateEvent.calendarId := "primary";
       CreateEvent.reminders := None |} in
  CreateEventSchema [] args = inr v
  /\ parseDateTime host "2025-04-01T14:00:00" None initialWorld
     = (Normal (mkDate (Num 1743508800000)), initialWorld)
  /\ parseDateTime host "2 hours later" (Some (mkDate (Num 1743508800000)))
       initialWorld
     = (Normal (mkDate (Num 1743516000000)), initialWorld)
  /\ exists body,
       calls (snd (callTool host "create_event" args initialWorld))
       = [GCal.EventsInsert "primary" body]
       /\ GCal.description body = None
       /\ GCal.location body = Some "Room 4"
       /\ GCal.attendees body
          = Some [ {| GCal.email := Some "ana@example.org";
                      GCal.responseStatus := None |} ].
Proof.
  intros host args v.
  assert (Hv : CreateEventSchema [] args = inr v) by reflexivity.
  assert (Hs : parseDateTime host (CreateEvent.start v) None initialWorld
               = (Normal (mkDate (Num 1743508800000)), initialWorld))
    by reflexivity.
  assert (He : parseDateTime host (CreateEvent.end_ v)
                 (Some (mkDate (Num 1743508800000))) initialWorld
               = (Normal (mkDate (Num 1743516000000)), initialWorld))
    by reflexivity.
  split; [ exact Hv | ]. split; [ exact Hs | ]. split; [ exact He | ].
  destruct (create_event_request_body host args v initialWorld initialWorld
              initialWorld 1743508800000 1743516000000 Hv Hs He)
    as (body & zone & _ & Hc & _ & Hd & _ & _ & Hl & _ & Ha & _).
  exists body. split; [ exact Hc | ].
  split; [ exact (proj1 Hd (or_intror eq_refl)) | ].
  split; [ apply (Hl "Room 4" eq_refl); discriminate | ].
  apply (Ha ["ana@example.org"] eq_refl). discriminate.
Defined.

Lemma get_and_delete_address_the_event_witness :
  let host := Example.host Example.storedTimed in
  let fields := [("eventId", JStr "evt1")] in
  property fields "eventId" = Some (JStr "evt1")
  /\ property fields "calendarId" = None
  /\ snd (callTool host "get_event" (Some (JObj fields)) initialWorld)
     = sent (GCal.EventsGet "primary" "evt1") initialWorld
  /\ snd (callTool host "delete_event" (Some (JObj fields)) initialWorld)
     = sent (GCal.EventsDelete "primary" "evt1") initialWorld.
Proof.
  intros host fields.
  assert (He : property fields "eventId" = Some (JStr "evt1"))
    by reflexivity.
  assert (Hc : property fields "calendarId" = None) by reflexivity.
  split; [ exact He | ]. split; [ exact Hc | ].
  destruct (get_and_delete_address_the_event host fields "evt1" "primary"
              initialWorld He (or_intror (conj Hc eq_refl)))
    as (Hg & Hd & _).
  split; [ exact Hg | exact Hd ].
Defined.

Lemma update_event_stops_on_failure_witness :
  let host := Example.host Example.storedTimed in
  let args := Some (JObj [("eventId", JStr "evt1");
                          ("start", JStr "whenever")]) in
  let v :=
    {| UpdateEvent.eventId := "evt1"; UpdateEvent.calendarId := "primary";
       UpdateEvent.summary := None; UpdateEvent.description := None;
       UpdateEvent.location := None; UpdateEvent.start := Some "whenever";
       UpdateEvent.end_ := None; UpdateEvent.attendees := None |} in
  let e := mkError "Unable to parse date/time: whenever" in
  let fetched := sent (GCal.EventsGet "primary" "evt1") initialWorld in
  UpdateEventSchema [] args = inr v
  /\ events_get host (calls initialWorld) "primary" "evt1"
     = Normal Example.storedTimed
  /\ updatedEvent host v Example.storedTimed fetched
     = (Throw e, tick fetched)
  /\ callTool host "update_event" args initialWorld
     = (Normal (textResult "Error: Unable to parse date/time: whenever"),
        tick fetched).
Proof.
  intros host args v e fetched.
  assert (Hv : UpdateEventSchema [] args = inr v) by reflexivity.
  assert (Hg : events_get host (calls initialWorld)
                 (UpdateEvent.calendarId v) (UpdateEvent.eventId v)
               = Normal Example.storedTimed) by reflexivity.
  assert (Hu : updatedEvent host v Example.storedTimed
                 (sent (GCal.EventsGet (UpdateEvent.calendarId v)
                          (UpdateEvent.eventId v)) initialWorld)
               = (Throw e, tick fetched)) by reflexivity.
  split; [ exact Hv | ]. split; [ exact Hg | ]. split; [ exact Hu | ].
  exact (proj1 (proj2 (update_event_stops_on_failure host args v
                         initialWorld e Hv)
                  Example.storedTimed (tick fetched) Hg Hu)).
Defined.

Lemma update_event_without_changes_witness :
  let host := Example.host Example.storedTimed in
  let args := Some (JObj [("eventId", JStr "evt1");
                          ("summary", JStr EmptyString);
                          ("attendees", JArr [])]) in
  let v :=
    {| UpdateEvent.eventId := "evt1"; UpdateEvent.calendarId := "primary";
       UpdateEvent.summary := Some EmptyString;
       UpdateEvent.description := None;
       UpdateEvent.location := None; UpdateEvent.start := None;
       UpdateEvent.end_ := None; UpdateEvent.attendees := Some [] |} in
  UpdateEventSchema [] args = inr v
  /\ events_get host (calls initialWorld) "primary" "evt1"
     = Normal Example.storedTimed
  /\ snd (callTool host "update_event" args initialWorld)
     = sent (GCal.EventsPatch "primary" "evt1" GCal.emptyEvent)
         (sent (GCal.EventsGet "primary" "evt1") initialWorld).
Proof.
  intros host args v.
  assert (Hv : UpdateEventSchema [] args = inr v) by reflexivity.
  assert (Hg : events_get host (calls initialWorld)
                 (UpdateEvent.calendarId v) (UpdateEvent.eventId v)
               = Normal Example.storedTimed) by reflexivity.
  split; [ exact Hv | ]. split; [ exact Hg | ].
  exact (proj1 (update_event_without_changes host args v initialWorld
                  Example.storedTimed Hv
                  (or_intror eq_refl) (or_introl eq_refl)
                  (or_introl eq_refl) (or_introl eq_refl)
                  (or_introl eq_refl) (or_intror eq_refl) Hg)).
Defined.

Lemma list_events_request_witness :
  let host := Example.host Example.storedTimed in
  let fields := [("maxResults", JNum 5)] in
  let v :=
    {| ListEvents.calendarId := "primary"; ListEvents.timeMin := None;
       ListEvents.timeMax := None; ListEvents.maxResults := 5;
       ListEvents.orderBy := "startTime" |} in
  ListEventsSchema [] (Some (JObj fields)) = inr v
  /\ timeWindow host None None 7 initialWorld
     = (Normal (mkDate (Num 1741600800000), mkDate (Num 1742205600000)),
        tick initialWorld)
  /\ exists params,
       snd (callTool host "list_events" (Some (JObj fields)) initialWorld)
       = sent (GCal.EventsList params) (tick initialWorld)
       /\ GCal.calendarId params = "primary"
       /\ GCal.maxResults params = 5
       /\ GCal.orderBy params = Some "startTime".
Proof.
  intros host fields v.
  assert (Hv : ListEventsSchema [] (Some (JObj fields)) = inr v)
    by reflexivity.
  assert (Hw : timeWindow host (ListEvents.timeMin v) (ListEvents.timeMax v)
                 7 initialWorld
               = (Normal (mkDate (Num 1741600800000),
                          mkDate (Num 1742205600000)),
                  tick initialWorld)) by reflexivity.
  split; [ exact Hv | ]. split; [ exact Hw | ].
  destruct (list_events_request host fields v initialWorld
              (tick initialWorld) 1741600800000 1742205600000 Hv Hw)
    as (params & Hs & _ & Hc & _ & _ & Hm & Ho & _).
  exists params. split; [ exact Hs | ].
  split; [ exact (Hc eq_refl) | ].
  split; [ exact (Hm 5 eq_refl) | exact (Ho eq_refl) ].
Defined.


Lemma search_empty_query_witness :
  let v := {| SearchEvents.query := EmptyString;
              SearchEvents.calendarId := "primary";
              SearchEvents.timeMin := None; SearchEvents.timeMax := None;
              SearchEvents.maxResults := 2 |} in
  SearchEvents.query v = EmptyString
  /\ searchResults v Example.listed = firstn 2 Example.listed.
Proof.
  intros v.
  assert (H : SearchEvents.query v = EmptyString) by reflexivity.
  split; [ exact H | ].
  exact (proj1 (search_empty_query v Example.listed H)).
Defined.
